(** * NexaBank onboarding backend: risk engine, decision mapper, admin override

    A shallow embedding of the decision logic of [app.py]:

    - [run_ocr]        (the text post-processing after the OCR call),
    - [compute_risk]   (the six scoring rules, the clamp, the tier, the rationale),
    - [risk_evaluate]  (the route that stores the result and issues accounts),
    - [admin_decision] (the route that records a reviewer's decision),

    together with the pieces of the Python runtime these functions rely on
    ([str.split], [datetime.strptime], [datetime] subtraction, [random.randint],
    slicing, [str.join]).

    Conventions.
    - Python [int] is [Z]; a nullable column is an [option]; a Python [str] is a
      Rocq [string], one character per code point below 256 (on such strings
      the digits of [\d] are exactly ['0'..'9']).  The em dash of the note texts
      lies outside that range and is written as its UTF-8 bytes.
    - The [float] quotient [sum(confidences) / len(confidences)] is the exact
      rational: as long as the sum stays below 2^52 the comparisons with 75
      and 50 and the text printed by [:.0f] are those of the rounded double.
    - Exceptions are explicit: a function that may raise returns an [outcome].
    - The clock, the random generator and the UUID source are inputs.
    - [json.loads] is the standard library's decoder; it is a parameter of the
      risk engine ([None] stands for [JSONDecodeError]). *)

From Stdlib Require Import ZArith QArith Qround Lia Bool.
From Stdlib Require Import Ascii String DecimalString.
From stdpp Require Import base option list strings gmap.

Local Open Scope Z_scope.

(** ** Exceptions *)

Inductive exn : Type :=
  | TypeError
  | ValueError
  | KeyError
  | JSONDecodeError
  | IntegrityError.

Inductive outcome (A : Type) : Type :=
  | Return (a : A)
  | Raise (e : exn).

Arguments Return {A} a.
Arguments Raise {A} e.

#[global] Instance outcome_ret : MRet outcome := fun A a => Return a.

#[global] Instance outcome_bind : MBind outcome := fun A B k m =>
  match m with
  | Return a => k a
  | Raise e => Raise e
  end.

(** [try: m except: h] is Python's bare [except:], which catches everything. *)
Definition try_except {A : Type} (m : outcome A) (h : A) : A :=
  match m with
  | Return a => a
  | Raise _ => h
  end.

(** ** Strings *)

Module Py.

(** [str(n)] for an [int]. *)
Definition str (n : Z) : string := NilZero.string_of_int (Z.to_int n).

(** [sep.join(l)] *)
Definition join (sep : string) (l : list string) : string := String.concat sep l.

(** [s[lo:hi]] and [s[lo:]] for non-negative bounds; like Python's slices they
    stop at the end of the string. *)
Definition slice (lo hi : nat) (s : string) : string :=
  String.substring lo (hi - lo) s.

Definition slice_from (lo : nat) (s : string) : string :=
  String.substring lo (String.length s - lo) s.

(** [needle in hay] *)
Fixpoint contains (needle hay : string) : bool :=
  String.prefix needle hay ||
  match hay with
  | EmptyString => false
  | String _ rest => contains needle rest
  end.

(** [c.isspace()] on code points below 256: TAB..CR, FS..US, SPACE, NEL, NBSP. *)
Definition isspace (c : ascii) : bool :=
  let n := Z.of_N (N_of_ascii c) in
  ((9 <=? n) && (n <=? 13)) || ((28 <=? n) && (n <=? 32)) || (n =? 133) || (n =? 160).

(** [c] is matched by [\d]. *)
Definition isdigit (c : ascii) : bool :=
  let n := Z.of_N (N_of_ascii c) in (48 <=? n) && (n <=? 57).

Definition digit_value (c : ascii) : Z := Z.of_N (N_of_ascii c) - 48.

(** [s.split()]: maximal runs of non-whitespace characters, in order.
    [cur] is the token being read, reversed. *)
Fixpoint split_aux (cur : list ascii) (s : string) : list string :=
  match s with
  | EmptyString =>
      match cur with
      | [] => []
      | _ => [string_of_list_ascii (rev cur)]
      end
  | String c rest =>
      if isspace c then
        match cur with
        | [] => split_aux [] rest
        | _ => string_of_list_ascii (rev cur) :: split_aux [] rest
        end
      else split_aux (c :: cur) rest
  end.

Definition split (s : string) : list string := split_aux [] s.

(** [s.lstrip()], [s.rstrip()], [s.strip()] *)
Fixpoint lstrip (s : string) : string :=
  match s with
  | String c rest => if isspace c then lstrip rest else s
  | EmptyString => EmptyString
  end.

Fixpoint rstrip (s : string) : string :=
  match s with
  | EmptyString => EmptyString
  | String c rest =>
      match rstrip rest with
      | EmptyString => if isspace c then EmptyString else String c EmptyString
      | r => String c r
      end
  end.

Definition strip (s : string) : string := rstrip (lstrip s).

(** [s.upper()] on the characters [a-z]; the only strings upper-cased by the
    modelled code are hexadecimal digits. *)
Definition upper_char (c : ascii) : ascii :=
  let n := N_of_ascii c in
  if ((97 <=? n) && (n <=? 122))%N then ascii_of_N (n - 32) else c.

Fixpoint upper (s : string) : string :=
  match s with
  | EmptyString => EmptyString
  | String c rest => String (upper_char c) (upper rest)
  end.

(** Truthiness of an optional string ([None] and [''] are falsy) and
    [x or default]. *)
Definition truthy_str (o : option string) : bool :=
  match o with
  | Some (String _ _) => true
  | _ => false
  end.

Definition str_or (o : option string) (d : string) : string :=
  match o with
  | Some (String c r) => String c r
  | _ => d
  end.

Definition int_or (o : option Z) (d : Z) : Z :=
  match o with
  | Some n => if n =? 0 then d else n
  | None => d
  end.

Definition truthy_int (o : option Z) : bool :=
  match o with
  | Some n => negb (n =? 0)
  | None => false
  end.

End Py.

(** ** Dates: the part of the [datetime] module the risk engine uses *)

Module Datetime.

Record datetime : Type := mk_datetime {
  year : Z; month : Z; day : Z;
  hour : Z; minute : Z; second : Z; microsecond : Z
}.

Record timedelta : Type := mk_timedelta {
  days : Z; seconds : Z; microseconds : Z
}.

Definition is_leap (y : Z) : bool :=
  (y mod 4 =? 0) && (negb (y mod 100 =? 0) || (y mod 400 =? 0)).

Definition days_in_month (y m : Z) : Z :=
  match m with
  | 1 | 3 | 5 | 7 | 8 | 10 | 12 => 31
  | 4 | 6 | 9 | 11 => 30
  | 2 => if is_leap y then 29 else 28
  | _ => 0
  end.

Definition days_before_year (y : Z) : Z :=
  let p := y - 1 in p * 365 + p / 4 - p / 100 + p / 400.

(** [_DAYS_BEFORE_MONTH[m] + (m > 2 and _is_leap(y))] *)
Definition days_before_month (y m : Z) : Z :=
  match m with
  | 1 => 0 | 2 => 31 | 3 => 59 | 4 => 90 | 5 => 120 | 6 => 151
  | 7 => 181 | 8 => 212 | 9 => 243 | 10 => 273 | 11 => 304 | 12 => 334
  | _ => 0
  end + (if (2 <? m) && is_leap y then 1 else 0).

Definition ymd2ord (y m d : Z) : Z :=
  days_before_year y + days_before_month y m + d.

Definition toordinal (t : datetime) : Z := ymd2ord (year t) (month t) (day t).

(** The constructor's range check on the date fields. *)
Definition valid_date (y m d : Z) : bool :=
  (1 <=? y) && (y <=? 9999) && (1 <=? m) && (m <=? 12) &&
  (1 <=? d) && (d <=? days_in_month y m).

Definition valid_time (t : datetime) : bool :=
  (0 <=? hour t) && (hour t <? 24) && (0 <=? minute t) && (minute t <? 60) &&
  (0 <=? second t) && (second t <? 60) &&
  (0 <=? microsecond t) && (microsecond t <? 1000000).

Definition valid (t : datetime) : bool :=
  valid_date (year t) (month t) (day t) && valid_time t.

(** [timedelta(days, seconds, microseconds)] normalises its fields so that
    [0 <= seconds < 86400] and [0 <= microseconds < 1000000]. *)
Definition normalised (d s us : Z) : timedelta :=
  let s1 := s + us / 1000000 in
  mk_timedelta (d + s1 / 86400) (s1 mod 86400) (us mod 1000000).

(** [a - b] for two naive datetimes. *)
Definition sub (a b : datetime) : timedelta :=
  let secs t := second t + minute t * 60 + hour t * 3600 in
  normalised (toordinal a - toordinal b) (secs a - secs b)
             (microsecond a - microsecond b).

(** *** [datetime.strptime(s, '%Y-%m-%d')]

    The format compiles to the regular expression
    [(?P<Y>\d\d\d\d)-(?P<m>1[0-2]|0[1-9]|[1-9])-(?P<d>3[0-1]|[1-2]\d|0[1-9]|[1-9]| [1-9])],
    which is matched at the start of the string; the alternatives are tried
    in the order written, with backtracking. *)

Definition in_range (lo hi : Z) (c : ascii) : bool :=
  let n := Z.of_N (N_of_ascii c) - 48 in (lo <=? n) && (n <=? hi).

(** One character of the class [[lo-hi]] (digits). *)
Definition class (lo hi : Z) (s : string) : option (Z * string) :=
  match s with
  | String c rest => if in_range lo hi c then Some (Py.digit_value c, rest) else None
  | EmptyString => None
  end.

(** The literal character [c]. *)
Definition lit (c : ascii) (s : string) : option string :=
  match s with
  | String c' rest => if Ascii.eqb c c' then Some rest else None
  | EmptyString => None
  end.

Definition match_Y (s : string) : option (Z * string) :=
  '(a, s) ← class 0 9 s;
  '(b, s) ← class 0 9 s;
  '(c, s) ← class 0 9 s;
  '(d, s) ← class 0 9 s;
  Some (1000 * a + 100 * b + 10 * c + d, s).

(** The matches of each alternative of a group, in the order they are tried. *)
Definition month_alts (s : string) : list (Z * string) :=
  omap id
    [ (s ← lit "1" s; '(b, s) ← class 0 2 s; Some (10 + b, s));
      (s ← lit "0" s; '(b, s) ← class 1 9 s; Some (b, s));
      class 1 9 s ].

Definition day_alts (s : string) : list (Z * string) :=
  omap id
    [ (s ← lit "3" s; '(b, s) ← class 0 1 s; Some (30 + b, s));
      ('(a, s) ← class 1 2 s; '(b, s) ← class 0 9 s; Some (10 * a + b, s));
      (s ← lit "0" s; '(b, s) ← class 1 9 s; Some (b, s));
      class 1 9 s;
      (s ← lit " " s; class 1 9 s) ].

(** The first match of the whole pattern: the fields and the unread rest. *)
Definition match_ymd (s : string) : option (Z * Z * Z * string) :=
  '(y, s) ← match_Y s;
  s ← lit "-" s;
  head (mbind (M := list) (fun '(m, s) =>
          match lit "-" s with
          | Some s => (fun '(d, rest) => (y, m, d, rest)) <$> day_alts s
          | None => []
          end) (month_alts s)).

(** [strptime] raises [TypeError] when its argument is not a string and
    [ValueError] when the text does not match, when unconverted data
    remains, or when the fields are not a date. *)
Definition strptime_ymd (o : option string) : outcome datetime :=
  match o with
  | None => Raise TypeError
  | Some s =>
      match match_ymd s with
      | None => Raise ValueError
      | Some (y, m, d, EmptyString) =>
          if valid_date y m d then Return (mk_datetime y m d 0 0 0 0)
          else Raise ValueError
      | Some (_, _, _, String _ _) => Raise ValueError
      end
  end.

End Datetime.

(** ** Rows of the [applications] and [documents] tables *)

Record signal : Type := mk_signal {
  factor : string;
  weight : Z;
  note : string
}.

(** The columns of [applications] that the modelled functions read or write.
    [risk_signals] holds the list before [json.dumps]. *)
Module App.
Record row : Type := mk {
  id : string;
  dob : option string;
  email : option string;
  face_score : option Z;
  otp_verified : option Z;
  risk_score : option Z;
  risk_level : option string;
  risk_signals : option (list signal);
  risk_reason : option string;
  account_number : option string;
  ifsc : option string;
  status : option string
}.
End App.

(** The columns of [documents] that the risk engine reads; [tamper_flags] is
    the stored JSON text. *)
Module Doc.
Record row : Type := mk {
  application_id : string;
  confidence : option Z;
  tamper_flags : option string
}.
End Doc.

(** The values [json.loads] can return. *)
#[warnings="-register-all"]
Inductive pyval : Type :=
  | PNone
  | PBool (b : bool)
  | PInt (n : Z)
  | PFloat (literal : string)
  | PStr (s : string)
  | PList (l : list pyval)
  | PDict (kv : list (string * pyval)).

(** What [list.extend(v)] appends: the elements of a list, the keys of a
    dict, the characters of a string; anything else is not iterable. *)
Definition iterate (v : pyval) : outcome (list pyval) :=
  match v with
  | PList l => Return l
  | PDict kv => Return (map (fun p => PStr (fst p)) kv)
  | PStr s => Return (map (fun c => PStr (String c EmptyString)) (list_ascii_of_string s))
  | _ => Raise TypeError
  end.

(** [sep.join(l)] requires every item to be a [str]. *)
Fixpoint strings_of (l : list pyval) : outcome (list string) :=
  match l with
  | [] => Return []
  | PStr s :: rest => ss ← strings_of rest; Return (s :: ss)
  | _ :: _ => Raise TypeError
  end.

Definition join_values (sep : string) (l : list pyval) : outcome string :=
  ss ← strings_of l; Return (Py.join sep ss).

(** ** Formatting of the average: [f'{x:.0f}'] rounds half to even and keeps
    the sign of a negative value that rounds to zero. *)

Definition round_half_even (q : Q) : Z :=
  let f := Qfloor q in
  let r := (q - inject_Z f)%Q in
  match (r ?= 1 # 2)%Q with
  | Lt => f
  | Gt => f + 1
  | Eq => if Z.even f then f else f + 1
  end.

Definition format_0f (q : Q) : string :=
  let r := round_half_even q in
  if (r =? 0) && negb (Qle_bool 0 q) then "-0" else Py.str r.

Definition sum (l : list Z) : Z := fold_left Z.add l 0.

Definition len {A : Type} (l : list A) : Z := Z.of_nat (length l).

(** ** The risk engine *)

Record risk_result : Type := mk_risk_result {
  score : Z;
  level : string;
  signals : list signal;
  reason : string
}.

(** The two mutable locals of [compute_risk]. *)
Definition scoring : Type := Z * list signal.

Definition deduct (p : Z) (st : scoring) : scoring := (fst st - p, snd st).

Definition append (s : signal) (st : scoring) : scoring := (fst st, snd st ++ [s]).

Definition disposable : list string :=
  ["tempmail"; "guerrillamail"; "mailinator"; "yopmail"; "throwam"].

Section RiskEngine.

(** [json.loads]; [None] is [JSONDecodeError]. *)
Variable json_loads : string -> option pyval.

Definition loads (s : string) : outcome pyval :=
  match json_loads s with
  | Some v => Return v
  | None => Raise JSONDecodeError
  end.

(** 1. OCR confidence *)
Definition rule_ocr_confidence (doc_rows : list Doc.row) (st : scoring) : scoring :=
  let confidences := map (fun d => Py.int_or (Doc.confidence d) 50) doc_rows in
  let avg_conf := (inject_Z (sum confidences) / inject_Z (len confidences))%Q in
  if Qle_bool 75 avg_conf then
    append (mk_signal "OCR Confidence" 0
              (format_0f avg_conf +:+ "% — high quality document image")) st
  else if Qle_bool 50 avg_conf then
    append (mk_signal "OCR Confidence" (-10)
              (format_0f avg_conf +:+ "% — moderate quality")) (deduct 10 st)
  else
    append (mk_signal "OCR Confidence" (-25)
              (format_0f avg_conf +:+ "% — low quality or illegible")) (deduct 25 st).

(** 2. Tamper flags *)
Fixpoint collect_flags (doc_rows : list Doc.row) (all_flags : list pyval)
  : outcome (list pyval) :=
  match doc_rows with
  | [] => Return all_flags
  | d :: rest =>
      flags ← loads (Py.str_or (Doc.tamper_flags d) "[]");
      items ← iterate flags;
      collect_flags rest (all_flags ++ items)
  end.

Definition rule_tamper (doc_rows : list Doc.row) (st : scoring) : outcome scoring :=
  all_flags ← collect_flags doc_rows [];
  match all_flags with
  | _ :: _ =>
      let st := deduct (20 * len all_flags) st in
      text ← join_values "; " all_flags;
      Return (append (mk_signal "Tamper Detection" (-20 * len all_flags) text) st)
  | [] =>
      Return (append (mk_signal "Tamper Detection" 0 "No anomalies detected") st)
  end.

(** 3. Age *)
Definition age_at (now dob : Datetime.datetime) : Z :=
  Datetime.days (Datetime.sub now dob) / 365.

Definition rule_age (now : Datetime.datetime) (app_row : App.row) (st : scoring)
  : scoring :=
  try_except
    (dob ← Datetime.strptime_ymd (App.dob app_row);
     let age := age_at now dob in
     if age <? 18 then
       Return (append (mk_signal "Age Gate" (-100)
                         ("Applicant is " +:+ Py.str age +:+ " — below 18"))
                      (deduct 100 st))
     else if (18 <=? age) && (age <=? 65) then
       Return (append (mk_signal "Age Gate" 0
                         ("Age " +:+ Py.str age +:+ " — valid range")) st)
     else
       Return (append (mk_signal "Age Gate" (-5)
                         ("Age " +:+ Py.str age +:+ " — senior applicant"))
                      (deduct 5 st)))
    (append (mk_signal "Age Gate" (-10) "DOB parse error") (deduct 10 st)).

(** 4. Face match *)
Definition rule_face (app_row : App.row) (st : scoring) : scoring :=
  let face := Py.int_or (App.face_score app_row) 0 in
  if 90 <=? face then
    append (mk_signal "Biometric Match" 0 (Py.str face +:+ "% — strong match")) st
  else if 75 <=? face then
    append (mk_signal "Biometric Match" (-10) (Py.str face +:+ "% — acceptable"))
           (deduct 10 st)
  else if 0 <? face then
    append (mk_signal "Biometric Match" (-30) (Py.str face +:+ "% — poor match"))
           (deduct 30 st)
  else
    append (mk_signal "Biometric Match" (-15) "No biometric data") (deduct 15 st).

(** 5. OTP verified *)
Definition rule_otp (app_row : App.row) (st : scoring) : scoring :=
  if Py.truthy_int (App.otp_verified app_row) then
    append (mk_signal "OTP Verification" 0 "Mobile/email OTP verified") st
  else
    append (mk_signal "OTP Verification" (-20) "OTP not verified") (deduct 20 st).

(** 6. Email domain *)
Definition rule_email (app_row : App.row) (st : scoring) : scoring :=
  let email := Py.str_or (App.email app_row) "" in
  if existsb (fun d => Py.contains d email) disposable then
    append (mk_signal "Email Trust" (-20) "Disposable email detected") (deduct 20 st)
  else if Py.truthy_str (Some email) then
    append (mk_signal "Email Trust" 0 "Email domain OK") st
  else st.

Definition level_of (score : Z) : string :=
  if 70 <=? score then "Low" else if 45 <=? score then "Medium" else "High".

Definition compose_reason (level : string) (signals : list signal) : string :=
  let neg_notes := map note (filter (fun s => weight s < 0) signals) in
  let pos_notes := map note (filter (fun s => weight s = 0) signals) in
  if String.eqb level "Low" then
    "All verification checks passed. " +:+ Py.join ". " (take 3 pos_notes)
  else if String.eqb level "Medium" then
    "Partial verification with minor issues. " +:+ Py.join ". " neg_notes
  else
    "Significant risk factors detected. " +:+ Py.join ". " neg_notes.

Definition compute_risk (now : Datetime.datetime) (app_row : App.row)
    (doc_rows : list Doc.row) : outcome risk_result :=
  let st : scoring := (100, []) in
  st ← match doc_rows with
       | _ :: _ => rule_tamper doc_rows (rule_ocr_confidence doc_rows st)
       | [] => Return st
       end;
  let st := rule_age now app_row st in
  let st := rule_face app_row st in
  let st := rule_otp app_row st in
  let st := rule_email app_row st in
  let score := Z.max 0 (Z.min 100 (fst st)) in
  let level := level_of score in
  Return (mk_risk_result score level (snd st) (compose_reason level (snd st))).

End RiskEngine.

(** A decoder for the texts [upload_document] stores when no flag needs
    escaping: JSON arrays of plain string literals, items separated by a
    comma and a space.  It is one instance of the [json_loads] parameter and
    serves to run the engine on concrete rows. *)
Module FlagJson.

(** The double quote. *)
Definition quote : ascii := "034"%char.

Fixpoint until_quote (s : string) : option (string * string) :=
  match s with
  | EmptyString => None
  | String c rest =>
      if Ascii.eqb c quote then Some (EmptyString, rest)
      else if Ascii.eqb c "\" then None
      else '(body, rest) ← until_quote rest; Some (String c body, rest)
  end.

Fixpoint items (fuel : nat) (s : string) : option (list pyval) :=
  match fuel with
  | O => None
  | S fuel =>
      s ← Datetime.lit quote s;
      '(body, s) ← until_quote s;
      match s with
      | String "]" EmptyString => Some [PStr body]
      | String "," (String " " s) => l ← items fuel s; Some (PStr body :: l)
      | _ => None
      end
  end.

Definition loads (s : string) : option pyval :=
  match s with
  | String "[" (String "]" EmptyString) => Some (PList [])
  | String "[" s => PList <$> items (String.length s) s
  | _ => None
  end.

(** [json.dumps] of a list of flags none of which needs escaping. *)
Definition quoted (s : string) : string :=
  String quote (s +:+ String quote EmptyString).

Definition dumps (flags : list string) : string :=
  "[" +:+ Py.join ", " (quoted <$> flags) +:+ "]".

End FlagJson.

(** ** The OCR engine: [run_ocr]

    Opening the image and calling the recogniser either yields the text or
    raises; both outcomes are inputs here.  The [name], [dob] and [id_number]
    entries of the result are set by regular-expression searches that do not
    touch the other entries; they are left out. *)

Module Ocr.

Record result : Type := mk {
  raw_text : string;
  confidence : Z;
  tamper_flags : list string
}.

Inductive recognition : Type :=
  | Recognised (text : string)
  | Failed (message : string).

Definition word_count (text : string) : Z := len (Py.split text).

Definition run_ocr (OCR_AVAILABLE : bool) (read : recognition) : result :=
  let result := mk "" 0 [] in
  if negb OCR_AVAILABLE then result
  else
    match read with
    | Recognised text =>
        let word_count := word_count text in
        let flags :=
          (if word_count <? 5
           then ["Very low text content — possible blank or corrupted document"]
           else []) ++
          (if 200 <? word_count then ["Unusually high text density"] else []) in
        mk text (Z.min 95 (Z.max 30 (word_count * 3))) flags
    | Failed message =>
        mk (raw_text result) (confidence result)
           (tamper_flags result ++ ["OCR processing error: " +:+ message])
    end.

End Ocr.

(** ** The random generator and account numbers *)

(** The generator is a sequence of raw draws and a cursor;
    [randint a b] maps the next draw into [a..b]. *)
Record rng : Type := mk_rng {
  draws : nat -> Z;
  cursor : nat
}.

Definition randint (a b : Z) (g : rng) : Z * rng :=
  (a + draws g (cursor g) mod (b - a + 1), mk_rng (draws g) (S (cursor g))).

(** [[str(random.randint(0,9)) for _ in range(n)]] *)
Fixpoint random_digits (n : nat) (g : rng) : list string * rng :=
  match n with
  | O => ([], g)
  | S n =>
      let '(d, g) := randint 0 9 g in
      let '(ds, g) := random_digits n g in
      (Py.str d :: ds, g)
  end.

(** Format: XXXX XXXX XXXX *)
Definition new_account_number (g : rng) : string * rng :=
  let '(ds, g) := random_digits 12 g in
  let n := Py.join "" ds in
  (Py.slice 0 4 n +:+ " " +:+ Py.slice 4 8 n +:+ " " +:+ Py.slice_from 8 n, g).

(** ** Server state *)

Record decision_row : Type := mk_decision_row {
  dec_application_id : string;
  dec_admin_username : string;
  dec_decision : string;
  dec_notes : string;
  dec_ai_overridden : Z
}.

Record audit_row : Type := mk_audit_row {
  log_application_id : string;
  log_action : string;
  log_actor : string;
  log_detail : string
}.

Record session : Type := mk_session {
  sess_app_id : option string;
  admin_logged_in : bool;
  admin_username : option string
}.

(** The tables (without their timestamp columns), the client's session and
    the process-wide random generator. *)
Record state : Type := mk_state {
  applications : gmap string App.row;
  documents : list Doc.row;
  admin_decisions : list decision_row;
  audit_log : list audit_row;
  sess : session;
  random : rng
}.

Inductive response (A : Type) : Type :=
  | Ok (body : A)
  | Error (code : Z) (message : string).

Arguments Ok {A} body.
Arguments Error {A} code message.

(** [log(con, app_id, action, detail, actor)] *)
Definition log (app_id action detail actor : string) (l : list audit_row)
  : list audit_row :=
  l ++ [mk_audit_row app_id action actor detail].

(** [a or b] on optional strings. *)
Definition str_or_else (a b : option string) : option string :=
  if Py.truthy_str a then a else b.

(** The row [INSERT INTO applications(id,status,method,created_at,updated_at)]
    creates: the remaining columns take their defaults. *)
Definition fresh_application (app_id : string) : App.row :=
  App.mk app_id None None None (Some 0) None None None None None None
         (Some "In Progress").

(** ** Risk evaluation and account creation *)

Record risk_body : Type := mk_risk_body {
  rb_success : bool;
  rb_risk_score : Z;
  rb_risk_level : string;
  rb_risk_reason : string;
  rb_signals : list signal;
  rb_status : string;
  rb_account_number : option string;
  rb_ifsc : option string;
  rb_branch : string
}.

Definition status_of_level : gmap string string :=
  {[ "Low" := "Approved"; "Medium" := "Pending"; "High" := "Escalated" ]}.

Section Routes.

Variable json_loads : string -> option pyval.

(** The first part of the route: find the application id, creating a new
    application when neither the session nor the request names one.  The
    insertion is committed before the evaluation starts. *)
Definition ensure_application (uuid4_hex : string) (data_application_id : option string)
    (s : state) : outcome (string * state) :=
  match str_or_else (sess_app_id (sess s)) data_application_id with
  | Some (String c r) => Return (String c r, s)
  | _ =>
      let app_id := "NXB-" +:+ Py.upper (Py.slice 0 8 uuid4_hex) in
      match applications s !! app_id with
      | Some _ => Raise IntegrityError
      | None =>
          Return (app_id,
            mk_state (<[app_id := fresh_application app_id]> (applications s))
              (documents s) (admin_decisions s)
              (log app_id "SESSION_AUTO_CREATED"
                 "Created new application during risk evaluate without existing session"
                 "SYSTEM" (audit_log s))
              (mk_session (Some app_id) (admin_logged_in (sess s))
                 (admin_username (sess s)))
              (random s))
      end
  end.

(** The evaluation proper.  The result pairs what the client receives with
    the committed state; an exception leaves the tables as they were. *)
Definition evaluate_application (now : Datetime.datetime) (app_id : string)
    (s : state) : outcome (response risk_body) * state :=
  match applications s !! app_id with
  | None => (Return (Error 404 "Application not found"), s)
  | Some app_row =>
      let doc_rows :=
        filter (fun d => Doc.application_id d = app_id) (documents s) in
      match compute_risk json_loads now app_row doc_rows with
      | Raise e => (Raise e, s)
      | Return r =>
          (* Generate account number for Low/Medium *)
          let '(account_number, ifsc, g) :=
            if bool_decide (level r ∈ ["Low"; "Medium"]) then
              let '(account_number, g) := new_account_number (random s) in
              (Some account_number, Some "NXBA0001234", g)
            else (None, None, random s) in
          match status_of_level !! level r with
          | None =>
              (Raise KeyError,
               mk_state (applications s) (documents s) (admin_decisions s)
                 (audit_log s) (sess s) g)
          | Some new_status =>
              let app_row' :=
                App.mk (App.id app_row) (App.dob app_row) (App.email app_row)
                  (App.face_score app_row) (App.otp_verified app_row)
                  (Some (score r)) (Some (level r)) (Some (signals r))
                  (Some (reason r)) account_number ifsc (Some new_status) in
              (Return (Ok (mk_risk_body true (score r) (level r) (reason r)
                             (signals r) new_status account_number ifsc
                             "NexaBank Digital Branch")),
               mk_state (<[app_id := app_row']> (applications s))
                 (documents s) (admin_decisions s)
                 (log app_id "RISK_EVALUATED"
                    ("Score:" +:+ Py.str (score r) +:+ " | Level:" +:+ level r
                     +:+ " | Status:" +:+ new_status)
                    "SYSTEM" (audit_log s))
                 (sess s) g)
          end
      end
  end.

Definition risk_evaluate (now : Datetime.datetime) (uuid4_hex : string)
    (data_application_id : option string) (s : state)
  : outcome (response risk_body) * state :=
  match ensure_application uuid4_hex data_application_id s with
  | Raise e => (Raise e, s)
  | Return (app_id, s) => evaluate_application now app_id s
  end.

End Routes.

(** ** Admin decision *)

Record decision_request : Type := mk_decision_request {
  req_application_id : option string;
  req_decision : option string;
  req_notes : option string
}.

Record decision_body : Type := mk_decision_body {
  db_success : bool;
  db_new_status : string;
  db_account_number : option string;
  db_ai_overridden : bool
}.

Definition ai_recommendation : gmap string string :=
  {[ "Low" := "Approved"; "Medium" := "Pending"; "High" := "Escalated" ]}.

Definition status_of_decision : gmap string string :=
  {[ "Approved" := "Approved"; "Rejected" := "Rejected"; "More Info" := "Pending" ]}.

(** [d.get(key, default)] for a key that may be [None]. *)
Definition dict_get (d : gmap string string) (key : option string) (dflt : string)
  : string :=
  default dflt (key ≫= (d !!.)).

Definition admin_decision (data : decision_request) (s : state)
  : response decision_body * state :=
  if negb (admin_logged_in (sess s)) then
    (Error 401 "Unauthorized. Please login.", s)
  else
    let notes := Py.strip (Py.str_or (req_notes data) "") in
    let admin := default "admin" (admin_username (sess s)) in
    match req_application_id data, req_decision data with
    | Some (String c1 r1), Some (String c2 r2) =>
        let app_id := String c1 r1 in
        let decision := String c2 r2 in
        match applications s !! app_id with
        | None => (Error 404 "Application not found", s)
        | Some app_row =>
            let ai_rec := dict_get ai_recommendation (App.risk_level app_row) "Pending" in
            let overrode := if bool_decide (decision ≠ ai_rec) then 1 else 0 in
            let new_status := dict_get status_of_decision (Some decision) "Pending" in
            (* Generate account number if approving one that doesn't have it *)
            let '(account_number, g) :=
              if String.eqb decision "Approved"
                 && negb (Py.truthy_str (App.account_number app_row)) then
                let '(n, g) := new_account_number (random s) in (Some n, g)
              else (App.account_number app_row, random s) in
            let app_row' :=
              App.mk (App.id app_row) (App.dob app_row) (App.email app_row)
                (App.face_score app_row) (App.otp_verified app_row)
                (App.risk_score app_row) (App.risk_level app_row)
                (App.risk_signals app_row) (App.risk_reason app_row)
                account_number (App.ifsc app_row) (Some new_status) in
            (Ok (mk_decision_body true new_status account_number
                   (negb (overrode =? 0))),
             mk_state (<[app_id := app_row']> (applications s)) (documents s)
               (admin_decisions s ++
                  [mk_decision_row app_id admin decision notes overrode])
               (log app_id "ADMIN_DECISION"
                  ("Decision:" +:+ decision +:+ " | Admin:" +:+ admin
                   +:+ " | Override AI:"
                   +:+ (if negb (overrode =? 0) then "True" else "False")
                   +:+ " | Notes:" +:+ Py.slice 0 100 notes)
                  admin (audit_log s))
               (sess s) g)
        end
    | _, _ => (Error 400 "Missing application_id or decision", s)
    end.

(** ** Vocabulary of the specification *)

(** A well-typed document row: the text handed to [json.loads] decodes to a
    list of strings, as [upload_document] stores it. *)
Definition flags_well_typed (json_loads : string -> option pyval) (d : Doc.row) : Prop :=
  ∃ flags : list string,
    json_loads (Py.str_or (Doc.tamper_flags d) "[]") = Some (PList (PStr <$> flags)).

(** Penalties are the weights with the sign removed. *)
Definition penalty (s : signal) : Z := - weight s.

Definition sum_penalties (l : list signal) : Z := sum (penalty <$> l).

Definition clamp (x lo hi : Z) : Z :=
  if x <? lo then lo else if hi <? x then hi else x.

(** Number of whitespace-delimited tokens: the positions where a token
    starts, a non-blank character at the start or after a blank one. *)
Fixpoint token_starts (after_blank : bool) (s : string) : nat :=
  match s with
  | EmptyString => O
  | String c rest =>
      (if after_blank && negb (Py.isspace c) then 1 else 0)%nat
      + token_starts (Py.isspace c) rest
  end.

Definition count_tokens (s : string) : Z := Z.of_nat (token_starts true s).

(** 12 decimal digits grouped 4-4-4 with single spaces. *)
Definition is_account_format (s : string) : bool :=
  match list_ascii_of_string s with
  | [a1; a2; a3; a4; s1; b1; b2; b3; b4; s2; c1; c2; c3; c4] =>
      forallb Py.isdigit [a1; a2; a3; a4; b1; b2; b3; b4; c1; c2; c3; c4]
      && Ascii.eqb s1 " " && Ascii.eqb s2 " "
  | _ => false
  end.

(** [d] occurs in [e] as a substring. *)
Definition substring_of (d e : string) : Prop :=
  ∃ pre post : string, e = pre +:+ d +:+ post.

(** The host part of an address: what follows the last [@]. *)
Fixpoint host_part (email : string) : string :=
  match email with
  | EmptyString => EmptyString
  | String c rest =>
      if Py.contains "@" rest then host_part rest
      else if Ascii.eqb c "@" then rest else String c rest
  end.


(** The row with other values in its account columns. *)
Definition with_account (row : App.row) (account_number ifsc : option string)
  : App.row :=
  App.mk (App.id row) (App.dob row) (App.email row) (App.face_score row)
    (App.otp_verified row) (App.risk_score row) (App.risk_level row)
    (App.risk_signals row) (App.risk_reason row) account_number ifsc
    (App.status row).

(** The document rows of an application, as the route selects them. *)
Definition documents_of (app_id : string) (s : state) : list Doc.row :=
  filter (fun d => Doc.application_id d = app_id) (documents s).

(** The confidence a document contributes to the average: the stored value,
    or 50 when it is absent or zero. *)
Definition effective_confidence (d : Doc.row) : Z :=
  match Doc.confidence d with
  | Some 0 | None => 50
  | Some n => n
  end.

(** The stored value itself, for rows that have one. *)
Definition stored_confidence (d : Doc.row) : Z := default 0 (Doc.confidence d).

(** The penalty the OCR rule attaches to an average given as sum and count. *)
Definition ocr_penalty (total n : Z) : Z :=
  if 75 * n <=? total then 0 else if 50 * n <=? total then 10 else 25.

(** The factor names of the six rules. *)
Definition ocr_factor : string := "OCR Confidence".
Definition tamper_factor : string := "Tamper Detection".
Definition age_factor : string := "Age Gate".
Definition face_factor : string := "Biometric Match".
Definition otp_factor : string := "OTP Verification".
Definition email_factor : string := "Email Trust".

(** [st'] is [st] after some rules ran: they appended the signals [new], all
    with factors among [fs] and weights that are not positive, and lowered
    the score by their penalties. *)
Definition extends (fs : list string) (st st' : scoring) : Prop :=
  ∃ new : list signal,
    st' = (fst st - sum_penalties new, snd st ++ new) ∧
    Forall (fun s => factor s ∈ fs ∧ weight s <= 0) new.

(** The two document rules together, as [compute_risk] runs them. *)
Definition document_rules (json_loads : string -> option pyval)
    (doc_rows : list Doc.row) (st : scoring) : outcome scoring :=
  match doc_rows with
  | _ :: _ => rule_tamper json_loads doc_rows (rule_ocr_confidence doc_rows st)
  | [] => Return st
  end.

Definition applicant_factors : list string :=
  [age_factor; face_factor; otp_factor; email_factor].

(** The tail of [compute_risk]: clamp, tier and rationale. *)
Definition result_of (st : scoring) : risk_result :=
  let score := Z.max 0 (Z.min 100 (fst st)) in
  mk_risk_result score (level_of score) (snd st)
    (compose_reason (level_of score) (snd st)).

(** ** Sample inputs *)

Module Samples.

(** An evaluation time, an adult applicant with every check passed, and
    the same applicant with other dates of birth. *)
Definition now : Datetime.datetime := Datetime.mk_datetime 2026 11 4 10 30 0 0.

Definition applicant_born (dob : option string) : App.row :=
  App.mk "NXB-1A2B3C4D" dob (Some "asha@example.org") (Some 95) (Some 1)
         None None None None None None (Some "In Progress").

Definition adult : App.row := applicant_born (Some "1996-05-01").
Definition minor : App.row := applicant_born (Some "2009-11-05").

(** Born on 8 November 2008: 6569 days old on 3 November 2026 and 6570 days
    old the day after. *)
Definition coming_of_age : App.row := applicant_born (Some "2008-11-08").

Definition clean_doc : Doc.row := Doc.mk "NXB-1A2B3C4D" (Some 85) (Some "[]").

Definition flagged_doc : Doc.row :=
  Doc.mk "NXB-1A2B3C4D" (Some 40)
         (Some (FlagJson.dumps ["Unusually high text density"])).

(** What [upload_document] stores when the OCR engine is not installed or
    fails: confidence 0. *)
Definition unread_doc : Doc.row := Doc.mk "NXB-1A2B3C4D" (Some 0) (Some "[]").

(** The adult applicant with another address. *)
Definition applicant_mailed (email : option string) : App.row :=
  App.mk "NXB-1A2B3C4D" (Some "1996-05-01") email (Some 95) (Some 1)
         None None None None None None (Some "In Progress").

(** The adult applicant without selfie and without OTP confirmation. *)
Definition unverified : App.row :=
  App.mk "NXB-1A2B3C4D" (Some "1996-05-01") (Some "asha@example.org") None (Some 0)
         None None None None None None (Some "In Progress").

(** The minor, holding an account number from an earlier approval. *)
Definition minor_with_account : App.row :=
  App.mk "NXB-1A2B3C4D" (Some "2009-11-05") (Some "asha@example.org") (Some 95)
         (Some 1) (Some 0) (Some "High") (Some []) (Some "")
         (Some "1111 2222 3333") (Some "NXBA0001234") (Some "Approved").

(** The seeded demo application NXB-DEMO-002: tier Medium, status Pending, no
    account number. *)
Definition demo_002 : App.row :=
  App.mk "NXB-DEMO-002" (Some "1988-11-22") (Some "priya.sharma@gmail.com")
         (Some 88) (Some 1) (Some 54) (Some "Medium") None
         (Some "Minor OCR discrepancy detected. Manual secondary verification recommended.")
         None None (Some "Pending").

Definition generator : rng := mk_rng (fun n => Z.of_nat n * 7 + 3) 0.

Definition uuid4_hex : string := "9f1c2e7a4b3d4c5e8a6f0b1d2c3e4f5a".

(** A server holding one application and its documents, the client's
    session naming that application; [admin] tells whether a reviewer is
    logged in. *)
Definition server (row : App.row) (docs : list Doc.row) (admin : bool) : state :=
  mk_state {[ App.id row := row ]} docs [] []
           (mk_session (Some (App.id row)) admin (Some "reviewer")) generator.

End Samples.

(** ** Further vocabulary *)

(** The flags a document row holds, as the tamper rule reads them. *)
Definition stored_flags (json_loads : string -> option pyval) (d : Doc.row)
  : list pyval :=
  match json_loads (Py.str_or (Doc.tamper_flags d) "[]") with
  | Some (PList l) => l
  | _ => []
  end.

Definition flag_total (json_loads : string -> option pyval)
    (doc_rows : list Doc.row) : Z :=
  len (concat (stored_flags json_loads <$> doc_rows)).

(** The weight of the age signal after [days] days of life. *)
Definition age_weight (days : Z) : Z :=
  if days <? 6570 then -100 else if days <? 24090 then 0 else -5.

(** A rule that deducts and appends the same thing whatever the state. *)
Definition shifts (rule : scoring -> scoring) : Prop :=
  ∃ new : list signal,
    Forall (fun s => weight s <= 0) new ∧
    ∀ st : scoring, rule st = (fst st - sum_penalties new, snd st ++ new).

(** The four rules that look at the applicant only. *)
Definition applicant_rules (now : Datetime.datetime) (a : App.row) (st : scoring)
  : scoring :=
  rule_email a (rule_otp a (rule_face a (rule_age now a st))).

(** * The other routes

    The onboarding steps that fill the rows the risk engine reads (identity,
    document upload, selfie, OTP), the start of a session and the reviewer's
    login.  File storage and hashing of file contents are outside the model:
    what they produce (the recognised text, the digest) is an input. *)

(** ** More of the string library *)

Module PyStr.

(** [c.lower()] on code points below 256. *)
Definition lower_char (c : ascii) : ascii :=
  let n := N_of_ascii c in
  if (((65 <=? n) && (n <=? 90))
      || ((192 <=? n) && (n <=? 222) && negb (n =? 215)))%N
  then ascii_of_N (n + 32) else c.

Fixpoint lower (s : string) : string :=
  match s with
  | EmptyString => EmptyString
  | String c rest => String (lower_char c) (lower rest)
  end.

Fixpoint has_char (sep : ascii) (s : string) : bool :=
  match s with
  | EmptyString => false
  | String c rest => Ascii.eqb c sep || has_char sep rest
  end.

(** [s.rsplit(sep, 1)[-1]]: what follows the last [sep], or all of [s]. *)
Fixpoint after_last (sep : ascii) (s : string) : string :=
  match s with
  | EmptyString => EmptyString
  | String c rest =>
      if has_char sep rest then after_last sep rest
      else if Ascii.eqb c sep then rest else s
  end.

(** [s.startswith(p)] *)
Definition startswith (p s : string) : bool := String.prefix p s.

(** [c] is matched by [\w]. *)
Definition isword (c : ascii) : bool :=
  let n := Z.of_N (N_of_ascii c) in
  ((48 <=? n) && (n <=? 57)) || ((65 <=? n) && (n <=? 90)) || (n =? 95)
  || ((97 <=? n) && (n <=? 122))
  || (n =? 170) || (n =? 178) || (n =? 179) || (n =? 181) || (n =? 185)
  || (n =? 186) || ((188 <=? n) && (n <=? 190))
  || ((192 <=? n) && (n <=? 214)) || ((216 <=? n) && (n <=? 246))
  || ((248 <=? n) && (n <=? 255)).

(** [c] is matched by [[a-zA-Z]]. *)
Definition isletter (c : ascii) : bool :=
  let n := Z.of_N (N_of_ascii c) in
  ((65 <=? n) && (n <=? 90)) || ((97 <=? n) && (n <=? 122)).

(** The longest prefix of characters in a class, and the rest. *)
Fixpoint span (p : ascii -> bool) (s : string) : string * string :=
  match s with
  | EmptyString => (EmptyString, EmptyString)
  | String c rest =>
      if p c then let '(a, b) := span p rest in (String c a, b)
      else (EmptyString, s)
  end.

(** Where [$] matches: at the end, or before a newline that ends the text. *)
Definition at_end (s : string) : bool :=
  match s with
  | EmptyString => true
  | String c EmptyString => Ascii.eqb c "010"%char
  | _ => false
  end.

(** [re.match(r'^\d{4}-\d{2}-\d{2}$', s)] *)
Definition matches_dob (s : string) : bool :=
  match list_ascii_of_string s with
  | y1 :: y2 :: y3 :: y4 :: h1 :: m1 :: m2 :: h2 :: d1 :: d2 :: rest =>
      forallb Py.isdigit [y1; y2; y3; y4; m1; m2; d1; d2]
      && Ascii.eqb h1 "-" && Ascii.eqb h2 "-"
      && at_end (string_of_list_ascii rest)
  | _ => false
  end.

(** [re.match(r'^[\w.+-]+@[\w-]+\.[a-zA-Z]{2,}$', s)] *)
Definition matches_email (s : string) : bool :=
  let '(local, s) :=
    span (fun c => isword c || Ascii.eqb c "." || Ascii.eqb c "+" || Ascii.eqb c "-") s in
  match local, s with
  | String _ _, String "@" s =>
      let '(host, s) := span (fun c => isword c || Ascii.eqb c "-") s in
      match host, s with
      | String _ _, String "." s =>
          let '(tld, s) := span isletter s in
          (2 <=? String.length tld)%nat && at_end s
      | _, _ => false
      end
  | _, _ => false
  end.

End PyStr.

(** ** Updates of the tables *)

Definition with_applications (apps : gmap string App.row) (s : state) : state :=
  mk_state apps (documents s) (admin_decisions s) (audit_log s) (sess s) (random s).

(** [UPDATE applications SET ... WHERE id=?]: a row that is not there is
    not created. *)
Definition update_application (app_id : string) (f : App.row -> App.row) (s : state)
  : state :=
  with_applications (alter f app_id (applications s)) s.

Definition with_log (app_id action detail : string) (s : state) : state :=
  mk_state (applications s) (documents s) (admin_decisions s)
    (log app_id action detail "SYSTEM" (audit_log s)) (sess s) (random s).

Definition with_session (c : session) (s : state) : state :=
  mk_state (applications s) (documents s) (admin_decisions s) (audit_log s) c
    (random s).

Definition with_random (g : rng) (s : state) : state :=
  mk_state (applications s) (documents s) (admin_decisions s) (audit_log s)
    (sess s) g.

Definition with_document (d : Doc.row) (s : state) : state :=
  mk_state (applications s) (documents s ++ [d]) (admin_decisions s)
    (audit_log s) (sess s) (random s).

(** The block the onboarding routes start with: take the application id of
    the session or of the request; without one, insert a new application
    under a fresh id, log it and put the id into the session.  The insertion
    is committed at once. *)
Definition auto_create (detail uuid4_hex : string) (requested : option string)
    (s : state) : outcome (string * state) :=
  match str_or_else (sess_app_id (sess s)) requested with
  | Some (String c r) => Return (String c r, s)
  | _ =>
      let app_id := "NXB-" +:+ Py.upper (Py.slice 0 8 uuid4_hex) in
      match applications s !! app_id with
      | Some _ => Raise IntegrityError
      | None =>
          Return (app_id,
            with_session (mk_session (Some app_id) (admin_logged_in (sess s))
                            (admin_username (sess s)))
              (with_log app_id "SESSION_AUTO_CREATED" detail
                 (with_applications
                    (<[app_id := fresh_application app_id]> (applications s)) s)))
      end
  end.

(** ** Identity *)

Record identity_form : Type := mk_identity_form {
  idf_application_id : option string;
  idf_name : option string;
  idf_dob : option string;
  idf_email : option string;
  idf_phone : option string
}.

Inductive identity_response : Type :=
  | IdentityAccepted (application_id : string) (age : Z) (name : string)
  | IdentityInvalid (fields : list (string * string))
  | IdentityBadDate
  | IdentityUnderage (age : Z).

Definition set_identity (dob email : string) (row : App.row) : App.row :=
  App.mk (App.id row) (Some dob) (Some email) (App.face_score row)
    (App.otp_verified row) (App.risk_score row) (App.risk_level row)
    (App.risk_signals row) (App.risk_reason row) (App.account_number row)
    (App.ifsc row) (App.status row).

(** The [name] and [phone] columns are not part of the modelled row. *)
Definition submit_identity (now : Datetime.datetime) (uuid4_hex : string)
    (data : identity_form) (s : state) : outcome identity_response * state :=
  match auto_create
          "Created new application during identity submit without existing session"
          uuid4_hex (idf_application_id data) s with
  | Raise e => (Raise e, s)
  | Return (app_id, s) =>
      let name := Py.strip (Py.str_or (idf_name data) "") in
      let dob := Py.strip (Py.str_or (idf_dob data) "") in
      let email := Py.strip (Py.str_or (idf_email data) "") in
      (* Validate *)
      let errors :=
        (if (String.length name <? 2)%nat
         then [("name", "Full name is required (min 2 characters)")] else [])
        ++ (if negb (PyStr.matches_dob dob)
            then [("dob", "Date of birth must be in YYYY-MM-DD format")] else [])
        ++ (if negb (PyStr.matches_email email)
            then [("email", "Valid email address required")] else []) in
      match errors with
      | _ :: _ => (Return (IdentityInvalid errors), s)
      | [] =>
          (* Age check *)
          match Datetime.strptime_ymd (Some dob) with
          | Raise ValueError => (Return IdentityBadDate, s)
          | Raise e => (Raise e, s)
          | Return dob_dt =>
              let age := age_at now dob_dt in
              if age <? 18 then (Return (IdentityUnderage age), s)
              else
                (Return (IdentityAccepted app_id age name),
                 with_log app_id "IDENTITY_SUBMITTED"
                   ("Name: " +:+ name +:+ " | DOB: " +:+ dob +:+ " | Email: "
                    +:+ email)
                   (update_application app_id (set_identity dob email) s))
          end
      end
  end.

(** ** Document upload *)

Record upload_form : Type := mk_upload_form {
  upf_application_id : option string;
  upf_doc_type : option string;
  (** the name of the uploaded file; [None] when the request has no file *)
  upf_filename : option string
}.

Record upload_body : Type := mk_upload_body {
  ub_doc_type : string;
  ub_confidence : Z;
  ub_tamper_flags : list string;
  ub_verified : bool
}.

Inductive upload_response : Type :=
  | Uploaded (body : upload_body)
  | UploadRefused (message : string).

Definition ALLOWED_DOC : list string := ["png"; "jpg"; "jpeg"; "pdf"].
Definition ALLOWED_SELFIE : list string := ["png"; "jpg"; "jpeg"; "webp"].

Section Upload.

(** [json.dumps] on a list of strings. *)
Variable json_dumps : list string -> string.

(** [doc_id] is [str(uuid.uuid4())] and [file_hash] the digest of the stored
    file; the [id_type] and [doc_path] columns the route also updates are not
    part of the modelled row. *)
Definition upload_document (OCR_AVAILABLE : bool) (read : Ocr.recognition)
    (uuid4_hex doc_id file_hash : string) (form : upload_form) (s : state)
  : outcome upload_response * state :=
  let doc_type := default "Aadhaar" (upf_doc_type form) in
  match auto_create
          "Created new application during document upload without existing session"
          uuid4_hex (upf_application_id form) s with
  | Raise e => (Raise e, s)
  | Return (app_id, s) =>
      if negb (bool_decide (doc_type ∈ ["Aadhaar"; "PAN"; "Passport"])) then
        (Return (UploadRefused "Invalid document type"), s)
      else
        match upf_filename form with
        | None =>
            (Return (UploadRefused "No file uploaded. Please select a document."), s)
        | Some EmptyString => (Return (UploadRefused "No file selected"), s)
        | Some filename =>
            let ext := PyStr.lower (PyStr.after_last "." filename) in
            if negb (bool_decide (ext ∈ ALLOWED_DOC)) then
              (Return (UploadRefused
                         ("File type ." +:+ ext +:+ " not allowed. Use PNG, JPG, or PDF")),
               s)
            else
              let stored_name :=
                app_id +:+ "_" +:+ doc_type +:+ "_" +:+ Py.slice 0 8 doc_id
                +:+ "." +:+ ext in
              let ocr := Ocr.run_ocr OCR_AVAILABLE read in
              (* Determine verification *)
              let tamper_flags := Ocr.tamper_flags ocr in
              let confidence := Ocr.confidence ocr in
              let verified :=
                (len tamper_flags =? 0) && (30 <=? confidence) in
              (Return (Uploaded (mk_upload_body doc_type confidence tamper_flags
                                   verified)),
               with_log app_id "DOCUMENT_UPLOADED"
                 ("Type:" +:+ doc_type +:+ " | File:" +:+ stored_name
                  +:+ " | Hash:" +:+ Py.slice 0 16 file_hash
                  +:+ "… | OCR conf:" +:+ Py.str confidence
                  +:+ "% | Flags:" +:+ Py.str (len tamper_flags))
                 (with_document
                    (Doc.mk app_id (Some confidence) (Some (json_dumps tamper_flags)))
                    s))
        end
  end.

End Upload.

(** ** Selfie *)

Record selfie_body : Type := mk_selfie_body {
  sb_selfie_stored : string;
  sb_face_score : Z;
  sb_face_status : string
}.

Inductive selfie_response : Type :=
  | SelfieStored (body : selfie_body)
  | SelfieMissing.

Definition set_face_score (face_score : Z) (row : App.row) : App.row :=
  App.mk (App.id row) (App.dob row) (App.email row) (Some face_score)
    (App.otp_verified row) (App.risk_score row) (App.risk_level row)
    (App.risk_signals row) (App.risk_reason row) (App.account_number row)
    (App.ifsc row) (App.status row).

(** [selfie] is [None] when the request has no selfie part, and otherwise
    holds the part's file name, which may be missing.  The [selfie_path]
    and [face_status] columns are not part of the modelled row. *)
Definition upload_selfie (uuid4_hex : string) (requested : option string)
    (selfie : option (option string)) (s : state)
  : outcome selfie_response * state :=
  match auto_create
          "Created new application during selfie upload without existing session"
          uuid4_hex requested s with
  | Raise e => (Raise e, s)
  | Return (app_id, s) =>
      match selfie with
      | None => (Return SelfieMissing, s)
      | Some filename =>
          let ext := PyStr.lower (PyStr.after_last "." (Py.str_or filename "selfie.jpg")) in
          let ext := if bool_decide (ext ∈ ALLOWED_SELFIE) then ext else "jpg" in
          let selfie_name := app_id +:+ "_selfie." +:+ ext in
          (* Simulated face match *)
          let '(face_score, g) := randint 82 98 (random s) in
          let face_status := if 75 <=? face_score then "Matched" else "Weak" in
          (Return (SelfieStored (mk_selfie_body selfie_name face_score face_status)),
           with_log app_id "SELFIE_UPLOADED"
             ("File:" +:+ selfie_name +:+ " | FaceScore:" +:+ Py.str face_score
              +:+ "% | Status:" +:+ face_status)
             (update_application app_id (set_face_score face_score)
                (with_random g s)))
      end
  end.

(** ** The whole backend

    The [otp_hash] column of [applications] is kept as a map from application
    ids to the stored hash (absent for NULL); it is only ever written for
    applications that exist. *)

Record admin_user : Type := mk_admin_user {
  au_username : string;
  au_password_hash : string;
  au_full_name : string;
  au_role : string
}.

Record chat_row : Type := mk_chat_row {
  chat_application_id : string;
  chat_role : string;
  chat_content : string
}.

Record backend : Type := mk_backend {
  tables : state;
  otp_hashes : gmap string string;
  admin_users : list admin_user;
  chat_messages : list chat_row
}.

Definition with_tables (s : state) (b : backend) : backend :=
  mk_backend s (otp_hashes b) (admin_users b) (chat_messages b).

(** A route that touches the tables of [state] only. *)
Definition on_tables {A : Type} (route : state -> A * state) (b : backend)
  : A * backend :=
  let '(a, s) := route (tables b) in (a, with_tables s b).

(** ** Onboarding session *)

Definition welcome : string :=
  "Welcome to NexaBank! I'm ARIA, your AI onboarding assistant. I'll guide you through creating your account securely. Let's get started — could you please tell me your **full name** as it appears on your ID?".

Definition session_start (uuid4_hex : string) (b : backend)
  : outcome string * backend :=
  let app_id := "NXB-" +:+ Py.upper (Py.slice 0 8 uuid4_hex) in
  let s := tables b in
  match applications s !! app_id with
  | Some _ => (Raise IntegrityError, b)
  | None =>
      (Return app_id,
       mk_backend
         (with_session (mk_session (Some app_id) (admin_logged_in (sess s))
                          (admin_username (sess s)))
            (with_log app_id "SESSION_STARTED" ("New application " +:+ app_id)
               (with_applications
                  (<[app_id := fresh_application app_id]> (applications s)) s)))
         (otp_hashes b) (admin_users b)
         (chat_messages b ++ [mk_chat_row app_id "assistant" welcome]))
  end.

(** ** OTP *)

Record otp_form : Type := mk_otp_form {
  otp_application_id : option string;
  otp_hash : option string
}.

Inductive otp_response : Type :=
  | OtpStored
  | OtpVerified
  | OtpIncorrect
  | OtpRefused (code : Z) (message : string).

Definition set_otp_verified (row : App.row) : App.row :=
  App.mk (App.id row) (App.dob row) (App.email row) (App.face_score row)
    (Some 1) (App.risk_score row) (App.risk_level row)
    (App.risk_signals row) (App.risk_reason row) (App.account_number row)
    (App.ifsc row) (App.status row).

Definition otp_store (data : otp_form) (b : backend) : otp_response * backend :=
  let s := tables b in
  match otp_hash data with
  | Some (String c r) =>
      let hash := String c r in
      match str_or_else (sess_app_id (sess s)) (otp_application_id data) with
      | Some (String c r) =>
          let app_id := String c r in
          (* For offline mode, create application if needed *)
          let apps :=
            if PyStr.startswith "NXB-OFFLINE" app_id then
              match applications s !! app_id with
              | Some _ => applications s
              | None => <[app_id := fresh_application app_id]> (applications s)
              end
            else applications s in
          let hashes :=
            match apps !! app_id with
            | Some _ => <[app_id := hash]> (otp_hashes b)
            | None => otp_hashes b
            end in
          (OtpStored,
           mk_backend
             (with_log app_id "OTP_GENERATED" "OTP hash stored in DB"
                (with_applications apps s))
             hashes (admin_users b) (chat_messages b))
      | _ => (OtpRefused 400 "Missing application_id. Session may have expired.", b)
      end
  | _ => (OtpRefused 400 "Missing otp_hash field", b)
  end.

Definition otp_verify (data : otp_form) (b : backend) : otp_response * backend :=
  let s := tables b in
  match otp_hash data with
  | Some (String c r) =>
      let hash := String c r in
      match str_or_else (sess_app_id (sess s)) (otp_application_id data) with
      | Some (String c r) =>
          let app_id := String c r in
          match applications s !! app_id with
          | None =>
              (* For offline demo: the update finds no row *)
              if PyStr.startswith "NXB-OFFLINE" app_id then (OtpVerified, b)
              else (OtpRefused 404 ("Application " +:+ app_id +:+ " not found."), b)
          | Some _ =>
              match otp_hashes b !! app_id with
              | None | Some EmptyString =>
                  (OtpRefused 400
                     "No OTP stored for this application. Did you request OTP?", b)
              | Some stored =>
                  if negb (String.eqb stored hash) then
                    (OtpIncorrect,
                     with_tables
                       (with_log app_id "OTP_FAILED" "Incorrect OTP entered" s) b)
                  else
                    (OtpVerified,
                     with_tables
                       (with_log app_id "OTP_VERIFIED" "OTP verified successfully"
                          (update_application app_id set_otp_verified s)) b)
              end
          end
      | _ =>
          (OtpRefused 400
             "Missing application_id. Make sure identity step is completed.", b)
      end
  | _ => (OtpRefused 400 "Missing otp_hash field", b)
  end.

(** ** Reviewer login *)

Section Login.

(** [hashlib.sha256(pw.encode()).hexdigest()] *)
Variable hash_pw : string -> string.

(** [SELECT * FROM admin_users WHERE username=? AND password_hash=?] *)
Definition find_admin (username password_hash : string) (users : list admin_user)
  : option admin_user :=
  head (filter (fun u => au_username u = username
                         ∧ au_password_hash u = password_hash) users).

(** The [admin_name] and [admin_role] entries of the session are not part of
    the modelled session. *)
Definition admin_login (username password : option string) (b : backend)
  : option admin_user * backend :=
  let username := Py.strip (Py.str_or username "") in
  let password := Py.str_or password "" in
  match find_admin username (hash_pw password) (admin_users b) with
  | None => (None, b)
  | Some user =>
      (Some user,
       with_tables
         (with_session (mk_session (sess_app_id (sess (tables b))) true
                          (Some (au_username user)))
            (tables b)) b)
  end.

End Login.

(** [session.clear()] *)
Definition admin_logout (b : backend) : backend :=
  with_tables (with_session (mk_session None false None) (tables b)) b.

(** ** Chat *)

Record chat_form : Type := mk_chat_form {
  cf_application_id : option string;
  cf_message : option string;
  (** [None]: the request has no [step]; [Some None]: it is [null]. *)
  cf_step : option (option string)
}.

Record chat_body : Type := mk_chat_body {
  cb_reply : string;
  cb_application_id : string
}.

Definition responses : gmap string string :=
  {[ "name" := "Thank you! Nice to meet you. Now, could you please provide your **date of birth** in YYYY-MM-DD format? (e.g., 1995-03-15)";
     "dob" := "Got it! What is your **email address**? We'll use this for account notifications and OTP verification.";
     "email" := "Perfect. And your **mobile number** with country code? (e.g., +91-9876543210)";
     "phone" := "Thank you for providing your details. Now please **upload your ID document** — Aadhaar Card, PAN Card, or Passport. Use the upload button below.";
     "doc" := "Document received and being processed. Now I need a **selfie photo** for biometric face verification. Please use the capture button.";
     "selfie" := "Selfie captured! I'm now sending an **OTP to your registered email/mobile**. Please enter the 6-digit code you receive.";
     "otp" := "OTP verified successfully! ✅ I'm now running the final risk assessment on your application.";
     "done" := "Your application has been processed! Please wait while I complete the final checks." ]}.

Definition rule_based_response (step : option string) : string :=
  dict_get responses step
    "I'm processing your information. Please continue with the next step.".

(** [SELECT ... FROM chat_messages WHERE application_id=? ORDER BY id] *)
Definition chat_history (app_id : string) (b : backend) : list chat_row :=
  filter (fun m => chat_application_id m = app_id) (chat_messages b).

Section Chat.

(** The API key of the environment, and what [ask_claude] answers to a
    conversation: [None] when the call fails. *)
Variable ANTHROPIC_API_KEY : string.
Variable ask_claude : list chat_row -> option string.

Definition chat_message (data : chat_form) (b : backend)
  : response chat_body * backend :=
  let s := tables b in
  let msg := Py.strip (Py.str_or (cf_message data) "") in
  let step := match cf_step data with Some v => v | None => Some "name" end in
  match str_or_else (sess_app_id (sess s)) (cf_application_id data), msg with
  | Some (String c r), String _ _ =>
      let app_id := String c r in
      (* Store user message *)
      let b1 := mk_backend s (otp_hashes b) (admin_users b)
                  (chat_messages b ++ [mk_chat_row app_id "user" msg]) in
      let history := chat_history app_id b1 in
      (* Try Claude if key available *)
      let ai_reply :=
        if Py.truthy_str (Some ANTHROPIC_API_KEY) then ask_claude history
        else None in
      (* Fallback: rule-based responses per step *)
      let ai_reply :=
        if Py.truthy_str ai_reply then Py.str_or ai_reply ""
        else rule_based_response step in
      (Ok (mk_chat_body ai_reply app_id),
       mk_backend
         (with_log app_id "CHAT_MESSAGE"
            ("Step: " +:+ default "None" step +:+ " | User: " +:+ Py.slice 0 60 msg)
            s)
         (otp_hashes b) (admin_users b)
         (chat_messages b1 ++ [mk_chat_row app_id "assistant" ai_reply]))
  | _, _ => (Error 400 "Missing app_id or message", b)
  end.

End Chat.

(** ** One request after another *)

Section Steps.

Variable json_loads : string -> option pyval.
Variable json_dumps : list string -> string.
Variable hash_pw : string -> string.

(** [step b b']: one request to one of the modelled routes, with any
    inputs, takes the backend from [b] to [b']. *)
Inductive step : backend -> backend -> Prop :=
  | step_session_start (uuid4_hex : string) (b : backend) :
      step b (snd (session_start uuid4_hex b))
  | step_submit_identity (now : Datetime.datetime) (uuid4_hex : string)
      (data : identity_form) (b : backend) :
      step b (snd (on_tables (submit_identity now uuid4_hex data) b))
  | step_upload_document (available : bool) (read : Ocr.recognition)
      (uuid4_hex doc_id file_hash : string) (form : upload_form) (b : backend) :
      step b (snd (on_tables (upload_document json_dumps available read uuid4_hex
                                doc_id file_hash form) b))
  | step_upload_selfie (uuid4_hex : string) (requested : option string)
      (selfie : option (option string)) (b : backend) :
      step b (snd (on_tables (upload_selfie uuid4_hex requested selfie) b))
  | step_otp_store (data : otp_form) (b : backend) :
      step b (snd (otp_store data b))
  | step_otp_verify (data : otp_form) (b : backend) :
      step b (snd (otp_verify data b))
  | step_risk_evaluate (now : Datetime.datetime) (uuid4_hex : string)
      (requested : option string) (b : backend) :
      step b (snd (on_tables (risk_evaluate json_loads now uuid4_hex requested) b))
  | step_admin_login (username password : option string) (b : backend) :
      step b (snd (admin_login hash_pw username password b))
  | step_admin_logout (b : backend) :
      step b (admin_logout b)
  | step_admin_decision (data : decision_request) (b : backend) :
      step b (snd (on_tables (admin_decision data) b))
  | step_chat_message (key : string) (ask_claude : list chat_row -> option string)
      (data : chat_form) (b : backend) :
      step b (snd (chat_message key ask_claude data b)).

End Steps.

Definition recognised_status : list string :=
  ["In Progress"; "Pending"; "Approved"; "Escalated"; "Rejected"].

(** What holds of every row of [applications]: the key is the id, the status
    is one of the five recognised ones, an account number has the 4-4-4
    format, the risk columns are empty or hold a score in [0,100] with its
    tier, a biometric score lies in 80..99, the OTP flag is 0 or 1, and an
    approved application has an account number. *)
Record row_ok (key : string) (r : App.row) : Prop := mk_row_ok {
  ok_id : App.id r = key;
  ok_status : ∃ st : string, App.status r = Some st ∧ st ∈ recognised_status;
  ok_account : ∀ n : string,
    App.account_number r = Some n -> is_account_format n = true;
  ok_risk :
    (App.risk_score r = None ∧ App.risk_level r = None)
    ∨ ∃ sc : Z, App.risk_score r = Some sc ∧ 0 <= sc <= 100
               ∧ App.risk_level r = Some (level_of sc);
  ok_face : ∀ f : Z, App.face_score r = Some f -> 80 <= f <= 99;
  ok_otp : App.otp_verified r = Some 0 ∨ App.otp_verified r = Some 1;
  ok_approved : App.status r = Some "Approved" -> is_Some (App.account_number r)
}.

Definition consistent (b : backend) : Prop :=
  map_Forall row_ok (applications (tables b)) ∧
  (∀ (app_id hash : string),
     otp_hashes b !! app_id = Some hash ->
     hash ≠ "" ∧ is_Some (applications (tables b) !! app_id)).

(** What the first document of an application costs in the two document
    rules, by what the OCR engine made of it. *)
Definition first_document_cost (available : bool) (read : Ocr.recognition) : Z :=
  if negb available then 10
  else
    match read with
    | Ocr.Failed _ => 30
    | Ocr.Recognised text =>
        let wc := count_tokens text in
        if wc <? 5 then 45
        else if wc <? 17 then 25
        else if wc <? 25 then 10
        else if wc <=? 200 then 0
        else 20
    end.

(** The row [upload_document] stores for an OCR result. *)
Definition uploaded_row (json_dumps : list string -> string) (app_id : string)
    (ocr : Ocr.result) : Doc.row :=
  Doc.mk app_id (Some (Ocr.confidence ocr))
    (Some (json_dumps (Ocr.tamper_flags ocr))).

(** An upload form the route accepts for the application [app_id]. *)
Definition acceptable_upload (app_id : string) (form : upload_form) (s : state)
  : Prop :=
  str_or_else (sess_app_id (sess s)) (upf_application_id form) = Some app_id ∧
  app_id ≠ "" ∧
  default "Aadhaar" (upf_doc_type form) ∈ ["Aadhaar"; "PAN"; "Passport"] ∧
  ∃ filename : string,
    upf_filename form = Some filename ∧ filename ≠ "" ∧
    PyStr.lower (PyStr.after_last "." filename) ∈ ALLOWED_DOC.

(** ** More sample inputs *)

Module Scenario.


Definition upload (filename : string) : upload_form :=
  mk_upload_form None (Some "Aadhaar") (Some filename).

(** The server of the adult applicant, with the session naming the
    application and no reviewer logged in. *)
Definition onboarding : state := Samples.server Samples.adult [] false.

End Scenario.

(** Occurrences of a character. *)
Fixpoint count_char (c : ascii) (s : string) : nat :=
  match s with
  | EmptyString => O
  | String c' rest => ((if Ascii.eqb c' c then 1 else 0) + count_char c rest)%nat
  end.

Definition identity (name dob email : string) : identity_form :=
  mk_identity_form None (Some name) (Some dob) (Some email) (Some "+91-9876543210").

Definition rows_ok (s : state) : Prop := map_Forall row_ok (applications s).

(** From [s] to [s'] no application disappears, and the documents, the
    reviewers' decisions and the audit log are only appended to. *)
Definition keeps (s s' : state) : Prop :=
  (∀ k : string, is_Some (applications s !! k) -> is_Some (applications s' !! k)) ∧
  documents s `prefix_of` documents s' ∧
  admin_decisions s `prefix_of` admin_decisions s' ∧
  audit_log s `prefix_of` audit_log s'.

(** ** Start-up: [init_db] and its demo data *)

Record demo : Type := mk_demo {
  demo_id : string;
  demo_name : string;
  demo_dob : string;
  demo_email : string;
  demo_risk_score : Z;
  demo_risk_level : string;
  demo_status : string;
  demo_account_number : option string;
  demo_ifsc : option string
}.

(** The columns of [demos] that [App.row] has. *)
Definition demos : list demo :=
  [ mk_demo "NXB-DEMO-001" "Rohan Mehta" "1992-04-15" "rohan.mehta@gmail.com"
      82 "Low" "Approved" (Some "7742 8910 3351") (Some "NXBA0001");
    mk_demo "NXB-DEMO-002" "Priya Sharma" "1988-11-22" "priya.sharma@gmail.com"
      54 "Medium" "Pending" None None;
    mk_demo "NXB-DEMO-003" "Anjali Gupta" "2001-07-08" "anjali.g@gmail.com"
      18 "High" "Escalated" None None;
    mk_demo "NXB-DEMO-004" "Vikram Singh" "1995-03-30" "vikram.s@gmail.com"
      91 "Low" "Approved" (Some "6612 4430 9981") (Some "NXBA0001");
    mk_demo "NXB-DEMO-005" "Kavitha Nair" "1990-09-12" "kavitha.n@gmail.com"
      48 "Medium" "Pending" None None ].

Definition reasons : gmap string string :=
  {[ "Low" := "All checks passed. Document integrity verified. Biometric match strong. No AML flags.";
     "Medium" := "Minor OCR discrepancy detected. Manual secondary verification recommended.";
     "High" := "Multiple face-match attempts failed. Potential document tampering. AML flag raised." ]}.

(** One turn of the loop of [seed_applications].  [reasons[d[9]]] raises
    [KeyError] outside the three tiers and the insertion raises on an id that
    is taken. *)
Definition seed_one (d : demo) (s : state) : outcome state :=
  match reasons !! demo_risk_level d with
  | None => Raise KeyError
  | Some reason =>
      let '(face, g) := randint 80 99 (random s) in
      match applications s !! demo_id d with
      | Some _ => Raise IntegrityError
      | None =>
          let row :=
            App.mk (demo_id d) (Some (demo_dob d)) (Some (demo_email d))
              (Some face) (Some 1) (Some (demo_risk_score d))
              (Some (demo_risk_level d)) None (Some reason)
              (demo_account_number d) (demo_ifsc d) (Some (demo_status d)) in
          Return
            (with_log (demo_id d) "APPLICATION_SEEDED"
               ("Demo data: " +:+ demo_name d)
               (with_random g
                  (with_applications (<[demo_id d := row]> (applications s)) s)))
      end
  end.

Fixpoint seed_all (ds : list demo) (s : state) : outcome state :=
  match ds with
  | [] => Return s
  | d :: rest => s1 ← seed_one d s; seed_all rest s1
  end.

Definition seed_applications (s : state) : outcome state :=
  if 0 <? Z.of_nat (size (applications s)) then Return s
  else seed_all demos s.

(** [INSERT OR IGNORE INTO admin_users]: [username] is [UNIQUE]. *)
Definition insert_or_ignore (u : admin_user) (users : list admin_user)
  : list admin_user :=
  if bool_decide (au_username u ∈ (au_username <$> users)) then users
  else users ++ [u].

Section Startup.

Variable hash_pw : string -> string.

Definition init_db (b : backend) : outcome backend :=
  let users :=
    insert_or_ignore
      (mk_admin_user "reviewer" (hash_pw "reviewer123") "KYC Reviewer" "reviewer")
      (insert_or_ignore
         (mk_admin_user "admin" (hash_pw "admin123") "System Administrator"
            "superadmin")
         (admin_users b)) in
  s ← seed_applications (tables b);
  Return (mk_backend s (otp_hashes b) users (chat_messages b)).

End Startup.

(** The database before the first start, with the generator [g] and no
    session. *)
Definition empty_backend (g : rng) : backend :=
  mk_backend (mk_state ∅ [] [] [] (mk_session None false None) g) ∅ [] [].

Section Served.

Variable json_loads : string -> option pyval.
Variable json_dumps : list string -> string.
Variable hash_pw : string -> string.

(** [served g b]: the backend [b] is what a fresh installation started with
    the generator [g] has after some sequence of requests to the modelled
    routes. *)
Definition served (g : rng) (b : backend) : Prop :=
  ∃ b0 : backend,
    init_db hash_pw (empty_backend g) = Return b0 ∧
    rtc (step json_loads json_dumps hash_pw) b0 b.

End Served.

(** ** A first start and a first visitor *)

Module Installation.

Definition hash_pw (pw : string) : string := "h:" +:+ pw.

(** The database after the first start. *)
Definition seeded : backend :=
  match init_db hash_pw (empty_backend Samples.generator) with
  | Return b => b
  | Raise _ => empty_backend Samples.generator
  end.

(** A visitor opens a session and uploads a selfie. *)
Definition visited : backend :=
  snd (on_tables (upload_selfie Samples.uuid4_hex None (Some (Some "me.png")))
         (snd (session_start Samples.uuid4_hex seeded))).

End Installation.

(** * Properties *)

(** ** Sums and the running score *)

Lemma sum_from (l : list Z) (a : Z) : fold_left Z.add l a = a + sum l.
Proof.
  unfold sum. revert a.
  induction l as [|x l IH]; intros a; simpl; [lia|].
  rewrite (IH (a + x)), (IH (0 + x)). lia.
Qed.

Lemma sum_app (l k : list Z) : sum (l ++ k) = sum l + sum k.
Proof. unfold sum at 1. rewrite fold_left_app. apply sum_from. Qed.

Lemma sum_penalties_nil : sum_penalties [] = 0.
Proof. reflexivity. Qed.

Lemma sum_penalties_app (l k : list signal) :
  sum_penalties (l ++ k) = sum_penalties l + sum_penalties k.
Proof. unfold sum_penalties. rewrite fmap_app. apply sum_app. Qed.

Lemma sum_penalties_one (s : signal) : sum_penalties [s] = - weight s.
Proof. reflexivity. Qed.

Lemma sum_penalties_nonneg (l : list signal) :
  Forall (fun s => weight s <= 0) l -> 0 <= sum_penalties l.
Proof.
  induction 1 as [|s l Hs _ IH]; [rewrite sum_penalties_nil; lia|].
  change (s :: l) with ([s] ++ l).
  rewrite sum_penalties_app, sum_penalties_one. lia.
Qed.

Lemma extends_refl (fs : list string) (st : scoring) : extends fs st st.
Proof.
  exists []. split; [|constructor].
  destruct st as [sc sg]. simpl. rewrite sum_penalties_nil, app_nil_r.
  f_equal. lia.
Qed.

Lemma extends_trans (fs gs : list string) (a b c : scoring) :
  extends fs a b -> extends gs b c -> extends (fs ++ gs) a c.
Proof.
  intros (n1 & -> & H1) (n2 & -> & H2). exists (n1 ++ n2). simpl. split.
  - rewrite sum_penalties_app, app_assoc. f_equal. lia.
  - apply Forall_app. split.
    + eapply Forall_impl; [exact H1|]. intros s [Hf Hw]. split; [|exact Hw].
      apply elem_of_app. by left.
    + eapply Forall_impl; [exact H2|]. intros s [Hf Hw]. split; [|exact Hw].
      apply elem_of_app. by right.
Qed.

(** One step: a deduction of [p] together with a signal of weight [-p]. *)
Lemma extends_step (f : string) (p : Z) (n : string) (st : scoring) :
  0 <= p ->
  extends [f] st (append (mk_signal f (- p) n) (deduct p st)).
Proof.
  intros Hp. exists [mk_signal f (- p) n]. split.
  - unfold append, deduct. simpl. rewrite sum_penalties_one. simpl.
    f_equal. lia.
  - constructor; [|constructor]. simpl. split; [apply list_elem_of_singleton; done | lia].
Qed.

Lemma extends_step0 (f n : string) (st : scoring) :
  extends [f] st (append (mk_signal f 0 n) st).
Proof.
  replace st with (deduct 0 st) at 2
    by (destruct st; unfold deduct; simpl; f_equal; lia).
  apply (extends_step f 0 n st). lia.
Qed.

Lemma extends_score (fs : list string) (st st' : scoring) :
  extends fs st st' ->
  fst st' = fst st - (sum_penalties (snd st') - sum_penalties (snd st)).
Proof. intros (n & -> & _). simpl. rewrite sum_penalties_app. lia. Qed.

Lemma extends_le (fs : list string) (st st' : scoring) :
  extends fs st st' -> fst st' <= fst st.
Proof.
  intros (n & -> & H). simpl.
  assert (0 <= sum_penalties n).
  { apply sum_penalties_nonneg. eapply Forall_impl; [exact H|]. by intros s [_ ?]. }
  lia.
Qed.

(** ** The six rules *)

Lemma rule_ocr_confidence_extends (doc_rows : list Doc.row) (st : scoring) :
  extends [ocr_factor] st (rule_ocr_confidence doc_rows st).
Proof.
  unfold rule_ocr_confidence.
  destruct (Qle_bool _ _); [apply extends_step0|].
  destruct (Qle_bool _ _).
  - apply (extends_step ocr_factor 10). lia.
  - apply (extends_step ocr_factor 25). lia.
Qed.

Lemma rule_age_extends (now : Datetime.datetime) (a : App.row) (st : scoring) :
  extends [age_factor] st (rule_age now a st).
Proof.
  unfold rule_age.
  destruct (Datetime.strptime_ymd (App.dob a)) as [dob|e]; simpl.
  - destruct (_ <? 18); simpl; [apply (extends_step age_factor 100); lia|].
    destruct (_ && _); simpl; [apply extends_step0|].
    apply (extends_step age_factor 5). lia.
  - apply (extends_step age_factor 10). lia.
Qed.

Lemma rule_face_extends (a : App.row) (st : scoring) :
  extends [face_factor] st (rule_face a st).
Proof.
  unfold rule_face.
  destruct (90 <=? _); [apply extends_step0|].
  destruct (75 <=? _); [apply (extends_step face_factor 10); lia|].
  destruct (0 <? _); [apply (extends_step face_factor 30); lia|].
  apply (extends_step face_factor 15). lia.
Qed.

Lemma rule_otp_extends (a : App.row) (st : scoring) :
  extends [otp_factor] st (rule_otp a st).
Proof.
  unfold rule_otp.
  destruct (Py.truthy_int _); [apply extends_step0|].
  apply (extends_step otp_factor 20). lia.
Qed.

Lemma rule_email_extends (a : App.row) (st : scoring) :
  extends [email_factor] st (rule_email a st).
Proof.
  unfold rule_email.
  destruct (existsb _ _); [apply (extends_step email_factor 20); lia|].
  destruct (Py.truthy_str _); [apply extends_step0 | apply extends_refl].
Qed.

Section WellTyped.

Variable json_loads : string -> option pyval.

Lemma strings_of_fmap (l : list string) : strings_of (PStr <$> l) = Return l.
Proof.
  induction l as [|x l IH]; [reflexivity|].
  rewrite fmap_cons. cbn [strings_of]. rewrite IH. reflexivity.
Qed.

Lemma collect_flags_well_typed (doc_rows : list Doc.row) (acc : list pyval) :
  Forall (flags_well_typed json_loads) doc_rows ->
  ∃ flags : list string,
    collect_flags json_loads doc_rows acc = Return (acc ++ (PStr <$> flags)).
Proof.
  intros H. revert acc.
  induction H as [|d rest [fl Hd] _ IH]; intros acc.
  - exists []. simpl. by rewrite app_nil_r.
  - cbn [collect_flags]. unfold loads. rewrite Hd.
    cbn [mbind outcome_bind iterate].
    destruct (IH (acc ++ (PStr <$> fl))) as [fl' ->].
    exists (fl ++ fl'). by rewrite fmap_app, app_assoc.
Qed.

Lemma rule_tamper_extends (doc_rows : list Doc.row) (st : scoring) :
  Forall (flags_well_typed json_loads) doc_rows ->
  ∃ st', rule_tamper json_loads doc_rows st = Return st' ∧
         extends [tamper_factor] st st'.
Proof.
  intros H. unfold rule_tamper.
  destruct (collect_flags_well_typed doc_rows [] H) as [fl ->].
  rewrite app_nil_l. cbn [mbind outcome_bind].
  destruct fl as [|f fl].
  - eexists. split; [reflexivity|]. apply extends_step0.
  - rewrite fmap_cons. unfold join_values.
    rewrite <- fmap_cons, strings_of_fmap. cbn [mbind outcome_bind].
    eexists. split; [reflexivity|].
    set (n := len (PStr <$> f :: fl)).
    replace (-20 * n) with (- (20 * n)) by lia.
    apply (extends_step tamper_factor (20 * n)). unfold n, len. lia.
Qed.

Lemma document_rules_extends (doc_rows : list Doc.row) (st : scoring) :
  Forall (flags_well_typed json_loads) doc_rows ->
  ∃ st', document_rules json_loads doc_rows st = Return st' ∧
         extends [ocr_factor; tamper_factor] st st'.
Proof.
  intros H. unfold document_rules. destruct doc_rows as [|d rest].
  - exists st. split; [reflexivity | apply extends_refl].
  - destruct (rule_tamper_extends (d :: rest)
                (rule_ocr_confidence (d :: rest) st) H) as (st' & -> & E).
    exists st'. split; [reflexivity|].
    apply (extends_trans [ocr_factor] [tamper_factor] _ _ _
             (rule_ocr_confidence_extends (d :: rest) st) E).
Qed.

Lemma compute_risk_unfold (now : Datetime.datetime) (a : App.row)
    (doc_rows : list Doc.row) :
  compute_risk json_loads now a doc_rows =
  (st ← document_rules json_loads doc_rows (100, []);
   Return (result_of (rule_email a (rule_otp a (rule_face a (rule_age now a st)))))).
Proof. destruct doc_rows; reflexivity. Qed.

Lemma applicant_rules_extends (now : Datetime.datetime) (a : App.row) (st : scoring) :
  extends applicant_factors st
    (rule_email a (rule_otp a (rule_face a (rule_age now a st)))).
Proof.
  apply (extends_trans [age_factor; face_factor; otp_factor] [email_factor]
           _ (rule_otp a (rule_face a (rule_age now a st))));
    [|apply rule_email_extends].
  apply (extends_trans [age_factor; face_factor] [otp_factor]
           _ (rule_face a (rule_age now a st)));
    [|apply rule_otp_extends].
  apply (extends_trans [age_factor] [face_factor] _ (rule_age now a st));
    [apply rule_age_extends | apply rule_face_extends].
Qed.

(** For well-typed rows the engine returns, and what it returns is the
    result of a state that extends the initial one. *)
Lemma compute_risk_returns (now : Datetime.datetime) (a : App.row)
    (doc_rows : list Doc.row) :
  Forall (flags_well_typed json_loads) doc_rows ->
  ∃ st1 st,
    document_rules json_loads doc_rows (100, []) = Return st1 ∧
    extends [ocr_factor; tamper_factor] (100, []) st1 ∧
    st = rule_email a (rule_otp a (rule_face a (rule_age now a st1))) ∧
    extends ([ocr_factor; tamper_factor] ++ applicant_factors) (100, []) st ∧
    compute_risk json_loads now a doc_rows = Return (result_of st).
Proof.
  intros H. destruct (document_rules_extends doc_rows (100, []) H) as (st1 & E1 & X1).
  exists st1, (rule_email a (rule_otp a (rule_face a (rule_age now a st1)))).
  split; [exact E1|]. split; [exact X1|]. split; [reflexivity|]. split.
  - eapply extends_trans; [exact X1 | apply applicant_rules_extends].
  - rewrite compute_risk_unfold, E1. reflexivity.
Qed.

End WellTyped.

(** ** The score, its bounds and the tier *)

Lemma extends_member (fs : list string) (st st' : scoring) (s : signal) :
  extends fs st st' -> s ∈ snd st -> s ∈ snd st'.
Proof. intros (n & -> & _) H. simpl. apply elem_of_app. by left. Qed.

Lemma clamp_max_min (x : Z) : Z.max 0 (Z.min 100 x) = clamp x 0 100.
Proof.
  unfold clamp. destruct (Z.ltb_spec x 0); [lia|].
  destruct (Z.ltb_spec 100 x); lia.
Qed.

Lemma level_of_cases (s : Z) :
  (70 <= s -> level_of s = "Low") ∧
  (45 <= s < 70 -> level_of s = "Medium") ∧
  (s < 45 -> level_of s = "High").
Proof.
  unfold level_of.
  destruct (Z.leb_spec 70 s); destruct (Z.leb_spec 45 s);
    repeat split; intros; try lia; reflexivity.
Qed.

(** C2: for every applicant snapshot and list of well-typed document rows the
    engine returns a result whose score is [clamp(100 - sum(penalties), 0, 100)],
    the penalties being those of the signals it lists; the score lies in
    [0,100]; the tier is Low from 70, Medium from 45 to 69 and High below. *)
Theorem score_is_clamped_balance (json_loads : string -> option pyval)
    (now : Datetime.datetime) (a : App.row) (doc_rows : list Doc.row) :
  Forall (flags_well_typed json_loads) doc_rows ->
  ∃ r : risk_result,
    compute_risk json_loads now a doc_rows = Return r ∧
    score r = clamp (100 - sum_penalties (signals r)) 0 100 ∧
    0 <= score r <= 100 ∧
    (70 <= score r -> level r = "Low") ∧
    (45 <= score r < 70 -> level r = "Medium") ∧
    (score r < 45 -> level r = "High").
Proof.
  intros H.
  destruct (compute_risk_returns json_loads now a doc_rows H)
    as (st1 & st & _ & _ & _ & X & ->).
  exists (result_of st). split; [reflexivity|].
  apply extends_score in X. simpl in X. rewrite sum_penalties_nil in X.
  unfold result_of. cbn [score level signals].
  split; [|split; [lia | apply level_of_cases]].
  rewrite clamp_max_min. f_equal. lia.
Qed.

Lemma score_is_clamped_balance_witness :
  Forall (flags_well_typed FlagJson.loads) [Samples.clean_doc; Samples.flagged_doc] ∧
  ∃ r : risk_result,
    compute_risk FlagJson.loads Samples.now Samples.adult
      [Samples.clean_doc; Samples.flagged_doc] = Return r ∧
    score r = clamp (100 - sum_penalties (signals r)) 0 100 ∧
    0 <= score r <= 100 ∧
    (70 <= score r -> level r = "Low") ∧
    (45 <= score r < 70 -> level r = "Medium") ∧
    (score r < 45 -> level r = "High").
Proof.
  assert (W : Forall (flags_well_typed FlagJson.loads)
                [Samples.clean_doc; Samples.flagged_doc]).
  { repeat constructor.
    - exists []. reflexivity.
    - exists ["Unusually high text density"]. reflexivity. }
  split; [exact W|].
  exact (score_is_clamped_balance FlagJson.loads Samples.now Samples.adult _ W).
Defined.

(** ** The age gate *)

(** C3: an applicant whose computed age is below 18 is scored 0 and placed in
    tier High whatever the other signals are; the list of signals carries
    the age-gate signal of weight -100. *)
Theorem minor_is_always_high (json_loads : string -> option pyval)
    (now dob : Datetime.datetime) (a : App.row) (doc_rows : list Doc.row) :
  Forall (flags_well_typed json_loads) doc_rows ->
  Datetime.strptime_ymd (App.dob a) = Return dob ->
  age_at now dob < 18 ->
  ∃ r : risk_result,
    compute_risk json_loads now a doc_rows = Return r ∧
    score r = 0 ∧ level r = "High" ∧
    ∃ s : signal, s ∈ signals r ∧ factor s = "Age Gate" ∧ weight s = -100.
Proof.
  intros H Hdob Hage.
  destruct (compute_risk_returns json_loads now a doc_rows H)
    as (st1 & st & _ & X1 & Hst & _ & ->).
  exists (result_of st). split; [reflexivity|].
  apply extends_le in X1. simpl in X1.
  set (s := mk_signal "Age Gate" (-100)
              ("Applicant is " +:+ Py.str (age_at now dob) +:+ " — below 18")).
  assert (Hrule : rule_age now a st1 = append s (deduct 100 st1)).
  { unfold rule_age. rewrite Hdob. cbn [mbind outcome_bind].
    destruct (Z.ltb_spec (age_at now dob) 18); [reflexivity | lia]. }
  assert (Xrest : extends ([face_factor; otp_factor] ++ [email_factor])
                    (rule_age now a st1) st).
  { rewrite Hst. eapply extends_trans; [|apply rule_email_extends].
    apply (extends_trans [face_factor] [otp_factor] _ _ _
             (rule_face_extends a _) (rule_otp_extends a _)). }
  assert (Hle : fst st <= 0).
  { apply extends_le in Xrest. rewrite Hrule in Xrest. simpl in Xrest. lia. }
  unfold result_of. cbn [score level signals].
  replace (Z.max 0 (Z.min 100 (fst st))) with 0 by lia.
  split; [reflexivity|]. split; [reflexivity|].
  exists s. split; [|split; reflexivity].
  eapply extends_member; [exact Xrest|].
  rewrite Hrule. simpl. apply elem_of_app. right. apply list_elem_of_singleton. done.
Qed.

Lemma minor_is_always_high_witness :
  Forall (flags_well_typed FlagJson.loads) [Samples.clean_doc] ∧
  Datetime.strptime_ymd (App.dob Samples.minor)
    = Return (Datetime.mk_datetime 2009 11 5 0 0 0 0) ∧
  age_at Samples.now (Datetime.mk_datetime 2009 11 5 0 0 0 0) < 18 ∧
  ∃ r : risk_result,
    compute_risk FlagJson.loads Samples.now Samples.minor [Samples.clean_doc]
      = Return r ∧
    score r = 0 ∧ level r = "High" ∧
    ∃ s : signal, s ∈ signals r ∧ factor s = "Age Gate" ∧ weight s = -100.
Proof.
  assert (W : Forall (flags_well_typed FlagJson.loads) [Samples.clean_doc]).
  { repeat constructor. exists []. reflexivity. }
  assert (D : Datetime.strptime_ymd (App.dob Samples.minor)
              = Return (Datetime.mk_datetime 2009 11 5 0 0 0 0)) by reflexivity.
  assert (A : age_at Samples.now (Datetime.mk_datetime 2009 11 5 0 0 0 0) < 18)
    by (vm_compute; reflexivity).
  split; [exact W|]. split; [exact D|]. split; [exact A|].
  exact (minor_is_always_high FlagJson.loads Samples.now _ Samples.minor _ W D A).
Defined.

(** ** The clock *)

Lemma strptime_ymd_midnight (o : option string) (dob : Datetime.datetime) :
  Datetime.strptime_ymd o = Return dob ->
  Datetime.hour dob = 0 ∧ Datetime.minute dob = 0 ∧
  Datetime.second dob = 0 ∧ Datetime.microsecond dob = 0.
Proof.
  unfold Datetime.strptime_ymd. destruct o as [s|]; [|discriminate].
  destruct (Datetime.match_ymd s) as [[[[y m] d] rest]|]; [|discriminate].
  destruct rest; [|discriminate].
  destruct (Datetime.valid_date y m d); [|discriminate].
  intros [= <-]. repeat split.
Qed.

Lemma valid_time_bounds (t : Datetime.datetime) :
  Datetime.valid_time t = true ->
  0 <= Datetime.second t + Datetime.minute t * 60 + Datetime.hour t * 3600 < 86400 ∧
  0 <= Datetime.microsecond t < 1000000.
Proof.
  unfold Datetime.valid_time. rewrite !andb_true_iff.
  rewrite !Z.leb_le, !Z.ltb_lt. lia.
Qed.

(** Against a datetime at midnight, the [days] of the difference are the
    difference of the ordinals: the time of day of [now] does not count. *)
Lemma days_since_midnight (now dob : Datetime.datetime) :
  Datetime.valid_time now = true ->
  Datetime.hour dob = 0 -> Datetime.minute dob = 0 ->
  Datetime.second dob = 0 -> Datetime.microsecond dob = 0 ->
  Datetime.days (Datetime.sub now dob)
  = Datetime.toordinal now - Datetime.toordinal dob.
Proof.
  intros V Hh Hm Hs Hu. apply valid_time_bounds in V as [Vs Vu].
  unfold Datetime.sub, Datetime.normalised. cbn [Datetime.days].
  rewrite Hh, Hm, Hs, Hu.
  rewrite !Z.sub_0_r.
  rewrite (Z.div_small (Datetime.microsecond now)) by lia.
  rewrite Z.add_0_r, Z.div_small by lia. lia.
Qed.

Lemma rule_age_same_day (now1 now2 : Datetime.datetime) (a : App.row) (st : scoring) :
  Datetime.valid_time now1 = true -> Datetime.valid_time now2 = true ->
  Datetime.toordinal now1 = Datetime.toordinal now2 ->
  rule_age now1 a st = rule_age now2 a st.
Proof.
  intros V1 V2 E. unfold rule_age.
  destruct (Datetime.strptime_ymd (App.dob a)) as [dob|e] eqn:P; [|reflexivity].
  destruct (strptime_ymd_midnight _ _ P) as (Hh & Hm & Hs & Hu).
  cbn [mbind outcome_bind]. unfold age_at.
  rewrite !days_since_midnight by assumption. rewrite E. reflexivity.
Qed.

(** C9, as the code has it: two evaluations of the same applicant snapshot
    and the same document rows made on the same calendar day, at whatever
    times of day, give the same outcome: the same score, tier, signal list
    and rationale.  The day of the evaluation is the only thing [compute_risk]
    reads besides its arguments. *)
Theorem same_day_same_result (json_loads : string -> option pyval)
    (now1 now2 : Datetime.datetime) (a : App.row) (doc_rows : list Doc.row) :
  Datetime.valid_time now1 = true ->
  Datetime.valid_time now2 = true ->
  Datetime.year now1 = Datetime.year now2 ->
  Datetime.month now1 = Datetime.month now2 ->
  Datetime.day now1 = Datetime.day now2 ->
  compute_risk json_loads now1 a doc_rows = compute_risk json_loads now2 a doc_rows.
Proof.
  intros V1 V2 Ey Em Ed.
  assert (E : Datetime.toordinal now1 = Datetime.toordinal now2).
  { unfold Datetime.toordinal. by rewrite Ey, Em, Ed. }
  rewrite !compute_risk_unfold.
  destruct (document_rules json_loads doc_rows (100, [])) as [st|e]; [|reflexivity].
  cbn [mbind outcome_bind].
  rewrite (rule_age_same_day now1 now2 a st V1 V2 E). reflexivity.
Qed.

Lemma same_day_same_result_witness :
  compute_risk FlagJson.loads Samples.now Samples.adult [Samples.flagged_doc]
  = compute_risk FlagJson.loads (Datetime.mk_datetime 2026 11 4 23 59 59 999999)
      Samples.adult [Samples.flagged_doc].
Proof.
  apply same_day_same_result; reflexivity.
Defined.

(** C9, as stated, fails: the applicant born on 8 November 2008 is evaluated
    on 3 November 2026 and again the day after, with the same snapshot and
    no documents; the first evaluation gives score 0 and tier High, the
    second score 100 and tier Low, with different signals. *)
Lemma evaluation_day_changes_result :
  ∃ r1 r2 : risk_result,
    compute_risk FlagJson.loads (Datetime.mk_datetime 2026 11 3 10 30 0 0)
      Samples.coming_of_age [] = Return r1 ∧
    compute_risk FlagJson.loads (Datetime.mk_datetime 2026 11 4 10 30 0 0)
      Samples.coming_of_age [] = Return r2 ∧
    score r1 = 0 ∧ level r1 = "High" ∧
    score r2 = 100 ∧ level r2 = "Low" ∧
    signals r1 ≠ signals r2.
Proof.
  eexists _, _. split; [vm_compute; reflexivity|].
  split; [vm_compute; reflexivity|].
  repeat split. discriminate.
Qed.

(** ** No exception escapes the engine *)

Lemma rule_age_recovers (now : Datetime.datetime) (a : App.row) (st : scoring)
    (e : exn) :
  Datetime.strptime_ymd (App.dob a) = Raise e ->
  rule_age now a st
  = append (mk_signal "Age Gate" (-10) "DOB parse error") (deduct 10 st).
Proof. intros H. unfold rule_age. rewrite H. reflexivity. Qed.

Lemma rule_face_emits (a : App.row) (st : scoring) :
  ∃ s : signal, snd (rule_face a st) = snd st ++ [s].
Proof.
  unfold rule_face.
  destruct (90 <=? _); [eexists; reflexivity|].
  destruct (75 <=? _); [eexists; reflexivity|].
  destruct (0 <? _); eexists; reflexivity.
Qed.

(** C8: for well-typed rows [compute_risk] raises nothing and returns a
    complete result: a score in [0,100], one of the three tiers, a
    non-empty signal list and a rationale.  When the date of birth is absent
    or does not parse, the exception is caught inside the age rule, which
    deducts 10 points and reports 'DOB parse error'. *)
Theorem compute_risk_never_raises (json_loads : string -> option pyval)
    (now : Datetime.datetime) (a : App.row) (doc_rows : list Doc.row) :
  Forall (flags_well_typed json_loads) doc_rows ->
  (∃ r : risk_result,
     compute_risk json_loads now a doc_rows = Return r ∧
     0 <= score r <= 100 ∧
     level r ∈ ["Low"; "Medium"; "High"] ∧
     signals r ≠ [] ∧
     reason r ≠ "" ∧
     (∀ e : exn, Datetime.strptime_ymd (App.dob a) = Raise e ->
        mk_signal "Age Gate" (-10) "DOB parse error" ∈ signals r)) ∧
  (∀ (e : exn) (st : scoring),
     Datetime.strptime_ymd (App.dob a) = Raise e ->
     rule_age now a st
     = append (mk_signal "Age Gate" (-10) "DOB parse error") (deduct 10 st)) ∧
  Datetime.strptime_ymd None = Raise TypeError.
Proof.
  intros H. split; [|split; [intros e st; apply rule_age_recovers | reflexivity]].
  destruct (compute_risk_returns json_loads now a doc_rows H)
    as (st1 & st & _ & _ & Hst & _ & ->).
  exists (result_of st). split; [reflexivity|].
  unfold result_of. cbn [score level signals reason].
  split; [lia|]. split; [|split; [|split]].
  - unfold level_of. repeat (destruct (_ <=? _)); set_solver.
  - assert (X : extends ([otp_factor] ++ [email_factor])
                  (rule_face a (rule_age now a st1)) st).
    { rewrite Hst. eapply extends_trans;
        [apply rule_otp_extends | apply rule_email_extends]. }
    destruct (rule_face_emits a (rule_age now a st1)) as [s Hs].
    destruct X as (n & -> & _). simpl. rewrite Hs.
    intros E. apply (f_equal length) in E. rewrite !length_app in E.
    simpl in E. lia.
  - unfold compose_reason. repeat (destruct (String.eqb _ _)); discriminate.
  - intros e He.
    assert (X : extends ([face_factor; otp_factor] ++ [email_factor])
                  (rule_age now a st1) st).
    { rewrite Hst. eapply extends_trans; [|apply rule_email_extends].
      apply (extends_trans [face_factor] [otp_factor] _ _ _
               (rule_face_extends a _) (rule_otp_extends a _)). }
    eapply extends_member; [exact X|].
    rewrite (rule_age_recovers now a st1 e He). simpl.
    apply elem_of_app. right. apply list_elem_of_singleton. done.
Qed.

Lemma compute_risk_never_raises_witness :
  Forall (flags_well_typed FlagJson.loads) [Samples.flagged_doc] ∧
  ∃ r : risk_result,
    compute_risk FlagJson.loads Samples.now (Samples.applicant_born (Some "05/01/1996"))
      [Samples.flagged_doc] = Return r ∧
    mk_signal "Age Gate" (-10) "DOB parse error" ∈ signals r.
Proof.
  assert (W : Forall (flags_well_typed FlagJson.loads) [Samples.flagged_doc]).
  { repeat constructor. exists ["Unusually high text density"]. reflexivity. }
  split; [exact W|].
  destruct (compute_risk_never_raises FlagJson.loads Samples.now
              (Samples.applicant_born (Some "05/01/1996")) [Samples.flagged_doc] W)
    as [(r & Hr & _ & _ & _ & _ & Hdob) _].
  exists r. split; [exact Hr|]. apply (Hdob ValueError). reflexivity.
Defined.

(** ** The extractor's confidence *)

Lemma split_aux_length (cur : list ascii) (s : string) :
  length (Py.split_aux cur s)
  = (token_starts (match cur with [] => true | _ => false end) s
     + match cur with [] => 0 | _ => 1 end)%nat.
Proof.
  revert cur. induction s as [|c rest IH]; intros cur.
  - destruct cur; reflexivity.
  - cbn [Py.split_aux token_starts]. destruct (Py.isspace c) eqn:Hc.
    + destruct cur as [|x cur]; cbn [length].
      * rewrite (IH []). simpl. lia.
      * rewrite (IH []). simpl. lia.
    + rewrite (IH (c :: cur)). destruct cur; simpl; lia.
Qed.

Lemma word_count_tokens (text : string) : Ocr.word_count text = count_tokens text.
Proof.
  unfold Ocr.word_count, count_tokens, len, Py.split.
  rewrite split_aux_length. f_equal. lia.
Qed.

(** C10: on the successful path of [run_ocr] the confidence is
    [min(95, max(30, wordCount * 3))], [wordCount] being the number of
    whitespace-delimited tokens of the recognised text, and therefore lies
    between 30 and 95. *)
Theorem confidence_formula (text : string) :
  let r := Ocr.run_ocr true (Ocr.Recognised text) in
  Ocr.raw_text r = text ∧
  Ocr.confidence r = Z.min 95 (Z.max 30 (count_tokens text * 3)) ∧
  30 <= Ocr.confidence r <= 95.
Proof.
  cbn [Ocr.run_ocr negb Ocr.raw_text Ocr.confidence].
  rewrite word_count_tokens. split; [reflexivity|]. split; [reflexivity | lia].
Qed.

(** ** The OCR-confidence rule *)

Lemma average_threshold (k total : Z) (p : positive) :
  Qle_bool (inject_Z k) (inject_Z total / inject_Z (Z.pos p)) = (k * Z.pos p <=? total).
Proof.
  unfold Qle_bool, Qdiv, Qmult, Qinv, inject_Z. cbn [Qnum Qden].
  rewrite Pos.mul_1_l, !Z.mul_1_r. reflexivity.
Qed.

Lemma int_or_effective (doc_rows : list Doc.row) :
  map (fun d => Py.int_or (Doc.confidence d) 50) doc_rows
  = effective_confidence <$> doc_rows.
Proof.
  apply map_ext. intros d. unfold Py.int_or, effective_confidence.
  destruct (Doc.confidence d) as [n|]; [|reflexivity].
  destruct n; reflexivity.
Qed.

Lemma rule_ocr_confidence_penalty (doc_rows : list Doc.row) (st : scoring) :
  doc_rows ≠ [] ->
  let p := ocr_penalty (sum (effective_confidence <$> doc_rows)) (len doc_rows) in
  ∃ text : string,
    rule_ocr_confidence doc_rows st
    = append (mk_signal "OCR Confidence" (- p) text) (deduct p st).
Proof.
  intros Hne p. unfold rule_ocr_confidence.
  rewrite int_or_effective.
  assert (Hlen : ∃ q, len (effective_confidence <$> doc_rows) = Z.pos q
                      ∧ len doc_rows = Z.pos q).
  { unfold len. rewrite length_fmap. destruct doc_rows as [|d rest]; [done|].
    exists (Pos.of_succ_nat (length rest)). cbn [length].
    rewrite Znat.Zpos_P_of_succ_nat. split; lia. }
  destruct Hlen as (q & Hq & Hq').
  rewrite Hq. change 75%Q with (inject_Z 75). change 50%Q with (inject_Z 50).
  rewrite !average_threshold.
  subst p. unfold ocr_penalty. rewrite Hq'.
  destruct (75 * Z.pos q <=? _).
  - eexists. replace (deduct 0 st) with st
      by (destruct st; unfold deduct; simpl; f_equal; lia).
    reflexivity.
  - destruct (50 * Z.pos q <=? _); eexists; reflexivity.
Qed.

Lemma extends_signals (fs : list string) (st st' : scoring) :
  extends fs st st' ->
  ∃ new : list signal,
    snd st' = snd st ++ new ∧ Forall (fun s => factor s ∈ fs) new.
Proof.
  intros (n & -> & H). exists n. split; [reflexivity|].
  eapply Forall_impl; [exact H|]. by intros s [? _].
Qed.

(** [H] places a factor in a list of other factors. *)
Ltac not_among H :=
  unfold applicant_factors, ocr_factor, tamper_factor, age_factor, face_factor,
    otp_factor, email_factor in H;
  cbn [app] in H;
  repeat (apply elem_of_cons in H as [H|H]; [discriminate H|]);
  by apply elem_of_nil in H.

(** C4, as the code has it: with at least one document the first signal is
    the OCR-confidence one and no other signal has that factor; its penalty
    is 0, 10 or 25 according to the mean of the confidences in which an
    absent or zero stored value counts as 50 (mean at least 75, at least 50,
    below 50; the mean is [total / n], compared here as [75 * n <= total]).  With no document neither the OCR-confidence nor the
    tamper-detection signal is emitted and the score is the clamped balance
    of the remaining signals. *)
Theorem ocr_rule_uses_effective_mean (json_loads : string -> option pyval)
    (now : Datetime.datetime) (a : App.row) (doc_rows : list Doc.row) :
  (doc_rows ≠ [] ->
   Forall (flags_well_typed json_loads) doc_rows ->
   let total := sum (effective_confidence <$> doc_rows) in
   let n := len doc_rows in
   ∃ (r : risk_result) (text : string) (rest : list signal),
     compute_risk json_loads now a doc_rows = Return r ∧
     signals r = mk_signal "OCR Confidence" (- ocr_penalty total n) text :: rest ∧
     Forall (fun s => factor s ≠ "OCR Confidence") rest ∧
     (75 * n <= total -> ocr_penalty total n = 0) ∧
     (50 * n <= total < 75 * n -> ocr_penalty total n = 10) ∧
     (total < 50 * n -> ocr_penalty total n = 25)) ∧
  (∃ r : risk_result,
     compute_risk json_loads now a [] = Return r ∧
     Forall (fun s => factor s ≠ "OCR Confidence" ∧ factor s ≠ "Tamper Detection")
       (signals r) ∧
     score r = clamp (100 - sum_penalties (signals r)) 0 100).
Proof.
  split.
  - intros Hne H total n.
    destruct (rule_ocr_confidence_penalty doc_rows (100, []) Hne) as [text Hocr].
    fold total n in Hocr.
    destruct (rule_tamper_extends json_loads doc_rows
                (rule_ocr_confidence doc_rows (100, [])) H) as (st1 & E1 & X1).
    pose proof (applicant_rules_extends now a st1) as X2.
    pose proof (extends_trans _ _ _ _ _ X1 X2) as X.
    apply extends_signals in X as (new & Hnew & Hfs).
    exists (result_of (rule_email a (rule_otp a (rule_face a (rule_age now a st1))))),
      text, new.
    split.
    { rewrite compute_risk_unfold. unfold document_rules.
      destruct doc_rows as [|d rest]; [done|]. rewrite E1. reflexivity. }
    split; [cbn [result_of signals]; rewrite Hnew, Hocr; reflexivity|].
    split.
    { eapply Forall_impl; [exact Hfs|]. intros s Hs E.
      cbv beta in Hs. rewrite E in Hs. not_among Hs. }
    assert (0 <= n) by (unfold n, len; lia).
    unfold ocr_penalty.
    destruct (Z.leb_spec (75 * n) total); destruct (Z.leb_spec (50 * n) total);
      repeat split; intros; try lia; reflexivity.
  - pose proof (applicant_rules_extends now a (100, [])) as X.
    exists (result_of (rule_email a (rule_otp a (rule_face a (rule_age now a (100, [])))))).
    split; [reflexivity|].
    pose proof (extends_score _ _ _ X) as Hs.
    apply extends_signals in X as (new & Hnew & Hfs).
    cbn [result_of signals score]. split.
    + rewrite Hnew. simpl. eapply Forall_impl; [exact Hfs|].
      intros s Hs'. cbv beta in Hs'. split; intros E; rewrite E in Hs'; not_among Hs'.
    + rewrite clamp_max_min. f_equal. simpl in Hs. rewrite sum_penalties_nil in Hs. lia.
Qed.

Lemma ocr_rule_uses_effective_mean_witness :
  [Samples.clean_doc; Samples.unread_doc] ≠ [] ∧
  Forall (flags_well_typed FlagJson.loads) [Samples.clean_doc; Samples.unread_doc] ∧
  ∃ (r : risk_result) (text : string) (rest : list signal),
    compute_risk FlagJson.loads Samples.now Samples.adult
      [Samples.clean_doc; Samples.unread_doc] = Return r ∧
    signals r = mk_signal "OCR Confidence" (-10) text :: rest.
Proof.
  assert (N : [Samples.clean_doc; Samples.unread_doc] ≠ []) by discriminate.
  assert (W : Forall (flags_well_typed FlagJson.loads)
                [Samples.clean_doc; Samples.unread_doc]).
  { repeat constructor; exists []; reflexivity. }
  split; [exact N|]. split; [exact W|].
  destruct (ocr_rule_uses_effective_mean FlagJson.loads Samples.now Samples.adult
              [Samples.clean_doc; Samples.unread_doc]) as [H _].
  destruct (H N W) as (r & text & rest & Hr & Hs & _).
  exists r, text, rest. split; [exact Hr | exact Hs].
Defined.

(** C4, as stated, fails: a single document whose stored confidence is 0 has
    mean stored confidence 0, for which the claim asks penalty 25; the engine
    counts the document as 50 and deducts 10. *)
Lemma zero_confidence_counts_as_fifty :
  sum (stored_confidence <$> [Samples.unread_doc]) = 0 ∧
  ocr_penalty (sum (stored_confidence <$> [Samples.unread_doc])) 1 = 25 ∧
  ∃ (r : risk_result) (rest : list signal),
    compute_risk FlagJson.loads Samples.now Samples.adult [Samples.unread_doc]
      = Return r ∧
    signals r = mk_signal "OCR Confidence" (-10) "50% — moderate quality" :: rest ∧
    score r = 90.
Proof.
  split; [reflexivity|]. split; [reflexivity|].
  eexists _, _. split; [vm_compute; reflexivity|]. split; reflexivity.
Qed.

(** ** The email rule *)

Lemma prefix_iff (d e : string) :
  String.prefix d e = true ↔ ∃ post : string, e = d +:+ post.
Proof.
  revert e. induction d as [|c d IH]; intros e.
  - split; [intros _; exists e; reflexivity | intros _; destruct e; reflexivity].
  - destruct e as [|c' e]; cbn [String.prefix].
    + split; [discriminate | intros [post H]; discriminate H].
    + destruct (ascii_dec c c') as [->|Hne].
      * rewrite IH. split; intros [post H]; exists post.
        -- cbn. by rewrite H.
        -- by injection H.
      * split; [discriminate|]. intros [post H]. injection H as -> _. done.
Qed.

Lemma contains_iff (d e : string) :
  Py.contains d e = true ↔ substring_of d e.
Proof.
  unfold substring_of. induction e as [|c e IH]; cbn [Py.contains].
  - rewrite orb_false_r, prefix_iff. split.
    + intros [post H]. exists "", post. exact H.
    + intros (pre & post & H). destruct pre; [by exists post|discriminate H].
  - rewrite orb_true_iff, prefix_iff, IH. split.
    + intros [[post H]|(pre & post & H)].
      * exists "", post. exact H.
      * exists (String c pre), post. cbn. by rewrite H.
    + intros (pre & post & H). destruct pre as [|c' pre].
      * left. by exists post.
      * right. exists pre, post. by injection H.
Qed.

Lemma disposable_match_iff (email : string) :
  existsb (fun d => Py.contains d email) disposable = true
  ↔ ∃ d : string, d ∈ disposable ∧ substring_of d email.
Proof.
  rewrite existsb_exists. split; intros (d & Hin & Hd); exists d.
  - split; [by apply list_elem_of_In | by apply contains_iff].
  - split; [by apply list_elem_of_In | by apply contains_iff].
Qed.

(** C5, as the code has it: the fragments are searched in the whole address,
    local part included.  The email signal is the last one and the only one
    with factor Email Trust; it carries penalty 20 exactly when a fragment of
    the denylist occurs in the address, penalty 0 when the address is present
    and holds no fragment, and is missing when the address is absent. *)
Theorem email_rule_matches_whole_address (json_loads : string -> option pyval)
    (now : Datetime.datetime) (a : App.row) (doc_rows : list Doc.row) :
  Forall (flags_well_typed json_loads) doc_rows ->
  let email := Py.str_or (App.email a) "" in
  let listed := ∃ d : string, d ∈ disposable ∧ substring_of d email in
  ∃ (r : risk_result) (before : list signal),
    compute_risk json_loads now a doc_rows = Return r ∧
    Forall (fun s => factor s ≠ "Email Trust") before ∧
    (listed ->
     signals r = before ++ [mk_signal "Email Trust" (-20) "Disposable email detected"]) ∧
    (¬ listed -> email ≠ "" ->
     signals r = before ++ [mk_signal "Email Trust" 0 "Email domain OK"]) ∧
    (email = "" -> signals r = before) ∧
    (email = "" ↔ App.email a = None ∨ App.email a = Some "").
Proof.
  intros H email listed.
  destruct (document_rules_extends json_loads doc_rows (100, []) H)
    as (st1 & E1 & X1).
  set (st := rule_otp a (rule_face a (rule_age now a st1))).
  assert (X : extends ([ocr_factor; tamper_factor]
                       ++ [age_factor; face_factor; otp_factor]) (100, []) st).
  { eapply extends_trans; [exact X1|]. unfold st.
    apply (extends_trans [age_factor; face_factor] [otp_factor] _
             (rule_face a (rule_age now a st1))); [|apply rule_otp_extends].
    apply (extends_trans [age_factor] [face_factor] _ (rule_age now a st1));
      [apply rule_age_extends | apply rule_face_extends]. }
  apply extends_signals in X as (before & Hbefore & Hfs). simpl in Hbefore.
  exists (result_of (rule_email a st)), before.
  split; [rewrite compute_risk_unfold, E1; reflexivity|].
  split.
  { eapply Forall_impl; [exact Hfs|]. intros s Hs E.
    cbv beta in Hs. rewrite E in Hs. not_among Hs. }
  cbn [result_of signals]. unfold rule_email. fold email.
  pose proof (disposable_match_iff email) as M. fold listed in M.
  split; [|split; [|split]].
  - intros L. apply M in L. rewrite L. simpl. by rewrite Hbefore.
  - intros NL Hne.
    destruct (existsb _ _); [exfalso; apply NL, M; reflexivity|].
    destruct email; [done|]. simpl. by rewrite Hbefore.
  - intros ->. simpl. exact Hbefore.
  - unfold email, Py.str_or. destruct (App.email a) as [[|c e]|]; split;
      try discriminate; auto; intros [?|?]; discriminate.
Qed.

Lemma email_rule_matches_whole_address_witness :
  Forall (flags_well_typed FlagJson.loads) [Samples.clean_doc] ∧
  ∃ (r : risk_result) (before : list signal),
    compute_risk FlagJson.loads Samples.now
      (Samples.applicant_mailed (Some "kiran@mailinator.com")) [Samples.clean_doc]
      = Return r ∧
    signals r = before ++ [mk_signal "Email Trust" (-20) "Disposable email detected"].
Proof.
  assert (W : Forall (flags_well_typed FlagJson.loads) [Samples.clean_doc]).
  { repeat constructor. exists []. reflexivity. }
  split; [exact W|].
  destruct (email_rule_matches_whole_address FlagJson.loads Samples.now
              (Samples.applicant_mailed (Some "kiran@mailinator.com"))
              [Samples.clean_doc] W) as (r & before & Hr & _ & Hl & _).
  exists r, before. split; [exact Hr|]. apply Hl.
  exists "mailinator". split; [set_solver|].
  exists "kiran@", ".com". reflexivity.
Defined.

(** C5, as stated, fails: in [mailinator.fan@gmail.com] the host part
    [gmail.com] holds no fragment of the denylist, yet the rule deducts 20. *)
Lemma fragment_in_local_part_is_penalised :
  host_part "mailinator.fan@gmail.com" = "gmail.com" ∧
  existsb (fun d => Py.contains d (host_part "mailinator.fan@gmail.com")) disposable
    = false ∧
  rule_email (Samples.applicant_mailed (Some "mailinator.fan@gmail.com")) (100, [])
    = (80, [mk_signal "Email Trust" (-20) "Disposable email detected"]) ∧
  ∃ r : risk_result,
    compute_risk FlagJson.loads Samples.now
      (Samples.applicant_mailed (Some "mailinator.fan@gmail.com")) [] = Return r ∧
    mk_signal "Email Trust" (-20) "Disposable email detected" ∈ signals r ∧
    score r = 80.
Proof.
  split; [reflexivity|]. split; [reflexivity|]. split; [reflexivity|].
  eexists. split; [vm_compute; reflexivity|]. split; [set_solver | reflexivity].
Qed.

(** ** Account numbers *)

Lemma str_digit (d : Z) :
  0 <= d <= 9 ->
  ∃ c : ascii, Py.str d = String c EmptyString ∧ Py.isdigit c = true.
Proof.
  intros H.
  assert (C : d = 0 ∨ d = 1 ∨ d = 2 ∨ d = 3 ∨ d = 4 ∨ d = 5 ∨ d = 6 ∨ d = 7
              ∨ d = 8 ∨ d = 9) by lia.
  repeat (destruct C as [->|C]; [eexists; split; reflexivity|]).
  subst d. eexists; split; reflexivity.
Qed.

Lemma randint_range (a b : Z) (g : rng) :
  a <= b -> a <= fst (randint a b g) <= b.
Proof.
  intros H. unfold randint. cbn [fst].
  pose proof (Z.mod_pos_bound (draws g (cursor g)) (b - a + 1)). lia.
Qed.

Lemma random_digits_chars (n : nat) (g : rng) :
  ∃ cs : list ascii,
    fst (random_digits n g) = map (fun c => String c EmptyString) cs ∧
    length cs = n ∧
    Forall (fun c => Py.isdigit c = true) cs.
Proof.
  revert g. induction n as [|n IH]; intros g.
  - exists []. repeat split. constructor.
  - cbn [random_digits].
    destruct (randint 0 9 g) as [d g1] eqn:R.
    destruct (IH g1) as (cs & Hcs & Hlen & Hall).
    destruct (random_digits n g1) as [ds g2]. cbn [fst] in *.
    destruct (str_digit d) as (c & Hc & Hd).
    { pose proof (randint_range 0 9 g). rewrite R in *. cbn [fst] in *. lia. }
    exists (c :: cs). rewrite Hc, Hcs. repeat split.
    + cbn [length]. by rewrite Hlen.
    + by constructor.
Qed.

Lemma join_chars (cs : list ascii) :
  Py.join "" (map (fun c => String c EmptyString) cs) = string_of_list_ascii cs.
Proof.
  unfold Py.join. induction cs as [|c cs IH]; [reflexivity|].
  cbn [map String.concat string_of_list_ascii].
  destruct cs as [|c' cs]; [reflexivity|].
  cbn [map] in *. rewrite IH. reflexivity.
Qed.

(** Every generated account number has the 4-4-4 format. *)
Lemma new_account_number_format (g : rng) :
  is_account_format (fst (new_account_number g)) = true.
Proof.
  unfold new_account_number.
  destruct (random_digits_chars 12 g) as (cs & Hcs & Hlen & Hall).
  destruct (random_digits 12 g) as [ds g']. cbn [fst] in *. subst ds.
  rewrite join_chars.
  do 12 (destruct cs as [|? cs]; [discriminate Hlen|]).
  destruct cs; [|discriminate Hlen].
  repeat match goal with
         | H : Forall _ (_ :: _) |- _ => apply Forall_cons in H as [? H]
         end.
  vm_compute string_of_list_ascii.
  unfold is_account_format, Py.slice, Py.slice_from.
  simpl.
  repeat match goal with H : Py.isdigit _ = true |- _ => rewrite H; clear H end.
  reflexivity.
Qed.

(** ** Risk evaluation as a route *)

Lemma level_of_three (sc : Z) :
  level_of sc = "Low" ∨ level_of sc = "Medium" ∨ level_of sc = "High".
Proof. unfold level_of. repeat (destruct (_ <=? sc)); auto. Qed.

Section RouteFacts.

Variable json_loads : string -> option pyval.

Lemma ensure_application_known (uuid4_hex : string) (data : option string)
    (s : state) (app_id : string) :
  str_or_else (sess_app_id (sess s)) data = Some app_id ->
  app_id ≠ "" ->
  ensure_application uuid4_hex data s = Return (app_id, s).
Proof.
  intros H N. unfold ensure_application. rewrite H.
  destruct app_id; [done | reflexivity].
Qed.

(** What the evaluation of an existing application with well-typed documents
    returns and stores, by tier. *)
Lemma evaluate_application_result (now : Datetime.datetime) (app_id : string)
    (s : state) (row : App.row) :
  let doc_rows := filter (fun d => Doc.application_id d = app_id) (documents s) in
  applications s !! app_id = Some row ->
  Forall (flags_well_typed json_loads) doc_rows ->
  ∃ (r : risk_result) (new_status : string) (account ifsc : option string) (g : rng),
    compute_risk json_loads now row doc_rows = Return r ∧
    ((level r = "Low" ∧ new_status = "Approved"
      ∧ account = Some (fst (new_account_number (random s)))
      ∧ ifsc = Some "NXBA0001234" ∧ g = snd (new_account_number (random s)))
     ∨ (level r = "Medium" ∧ new_status = "Pending"
        ∧ account = Some (fst (new_account_number (random s)))
        ∧ ifsc = Some "NXBA0001234" ∧ g = snd (new_account_number (random s)))
     ∨ (level r = "High" ∧ new_status = "Escalated"
        ∧ account = None ∧ ifsc = None ∧ g = random s)) ∧
    evaluate_application json_loads now app_id s
    = (Return (Ok (mk_risk_body true (score r) (level r) (reason r) (signals r)
                     new_status account ifsc "NexaBank Digital Branch")),
       mk_state
         (<[app_id := App.mk (App.id row) (App.dob row) (App.email row)
                        (App.face_score row) (App.otp_verified row)
                        (Some (score r)) (Some (level r)) (Some (signals r))
                        (Some (reason r)) account ifsc (Some new_status)]>
            (applications s))
         (documents s) (admin_decisions s)
         (log app_id "RISK_EVALUATED"
            ("Score:" +:+ Py.str (score r) +:+ " | Level:" +:+ level r
             +:+ " | Status:" +:+ new_status)
            "SYSTEM" (audit_log s))
         (sess s) g).
Proof.
  intros doc_rows Hrow W.
  destruct (compute_risk_returns json_loads now row doc_rows W)
    as (st1 & st & _ & _ & _ & _ & Hr).
  set (r := result_of st) in *.
  assert (L : level r = "Low" ∨ level r = "Medium" ∨ level r = "High")
    by apply level_of_three.
  unfold evaluate_application. rewrite Hrow. fold doc_rows. rewrite Hr.
  destruct (new_account_number (random s)) as [acc g'] eqn:G.
  destruct L as [L|[L|L]]; rewrite L.
  - exists r, "Approved", (Some acc), (Some "NXBA0001234"), g'.
    split; [reflexivity|]. split; [left; by rewrite L|].
    rewrite L. reflexivity.
  - exists r, "Pending", (Some acc), (Some "NXBA0001234"), g'.
    split; [reflexivity|]. split; [right; left; by rewrite L|].
    rewrite L. reflexivity.
  - exists r, "Escalated", None, None, (random s).
    split; [reflexivity|]. split; [right; right; by rewrite L|].
    rewrite L. reflexivity.
Qed.

End RouteFacts.

(** C1, as the code has it: for an existing application with well-typed
    documents the route answers with the tier's status and stores it: Low
    gives Approved, Medium gives Pending, and both are issued a fresh account
    number with the routing code; High gives Escalated with no account number
    and no routing code.  An issued account number is 12 digits grouped 4-4-4
    with single spaces. *)
Theorem decision_mapper_by_tier (json_loads : string -> option pyval)
    (now : Datetime.datetime) (uuid4_hex : string) (data : option string)
    (s : state) (app_id : string) (row : App.row) :
  str_or_else (sess_app_id (sess s)) data = Some app_id ->
  app_id ≠ "" ->
  applications s !! app_id = Some row ->
  Forall (flags_well_typed json_loads) (documents_of app_id s) ->
  ∃ (body : risk_body) (s' : state) (row' : App.row),
    risk_evaluate json_loads now uuid4_hex data s = (Return (Ok body), s') ∧
    applications s' !! app_id = Some row' ∧
    App.status row' = Some (rb_status body) ∧
    App.account_number row' = rb_account_number body ∧
    App.ifsc row' = rb_ifsc body ∧
    ((rb_risk_level body = "Low" ∧ rb_status body = "Approved"
      ∧ (∃ n, rb_account_number body = Some n) ∧ rb_ifsc body = Some "NXBA0001234")
     ∨ (rb_risk_level body = "Medium" ∧ rb_status body = "Pending"
        ∧ (∃ n, rb_account_number body = Some n) ∧ rb_ifsc body = Some "NXBA0001234")
     ∨ (rb_risk_level body = "High" ∧ rb_status body = "Escalated"
        ∧ rb_account_number body = None ∧ rb_ifsc body = None)) ∧
    (∀ n : string, rb_account_number body = Some n -> is_account_format n = true).
Proof.
  intros Hid Hne Hrow W. unfold risk_evaluate.
  rewrite (ensure_application_known uuid4_hex data s app_id Hid Hne).
  destruct (evaluate_application_result json_loads now app_id s row Hrow W)
    as (r & st & acc & ifsc & g & _ & Cases & ->).
  eexists _, _, _. split; [reflexivity|].
  cbn [applications]. rewrite lookup_insert_eq. split; [reflexivity|].
  cbn [App.status App.account_number App.ifsc rb_status rb_account_number
       rb_ifsc rb_risk_level].
  split; [reflexivity|]. split; [reflexivity|]. split; [reflexivity|]. split.
  - destruct Cases as [(L & S & A & I & _)|[(L & S & A & I & _)|(L & S & A & I & _)]];
      subst st acc ifsc; eauto 10.
  - intros n Hn.
    destruct Cases as [(_ & _ & A & _)|[(_ & _ & A & _)|(_ & _ & A & _)]];
      rewrite A in Hn; try discriminate;
      injection Hn as <-; apply new_account_number_format.
Qed.

Lemma decision_mapper_by_tier_witness :
  ∃ (body : risk_body) (s' : state),
    risk_evaluate FlagJson.loads Samples.now Samples.uuid4_hex None
      (Samples.server Samples.adult [Samples.clean_doc] false)
    = (Return (Ok body), s') ∧
    ((rb_risk_level body = "Low" ∧ rb_status body = "Approved"
      ∧ (∃ n, rb_account_number body = Some n) ∧ rb_ifsc body = Some "NXBA0001234")
     ∨ (rb_risk_level body = "Medium" ∧ rb_status body = "Pending"
        ∧ (∃ n, rb_account_number body = Some n) ∧ rb_ifsc body = Some "NXBA0001234")
     ∨ (rb_risk_level body = "High" ∧ rb_status body = "Escalated"
        ∧ rb_account_number body = None ∧ rb_ifsc body = None)).
Proof.
  destruct (decision_mapper_by_tier FlagJson.loads Samples.now Samples.uuid4_hex None
              (Samples.server Samples.adult [Samples.clean_doc] false)
              "NXB-1A2B3C4D" Samples.adult)
    as (body & s' & row' & E & _ & _ & _ & _ & C & _).
  - reflexivity.
  - discriminate.
  - reflexivity.
  - repeat constructor. exists []. reflexivity.
  - exists body, s'. split; [exact E | exact C].
Defined.

(** C1, as stated, fails for Medium: the adult applicant without selfie and
    without OTP confirmation scores 65, is placed in tier Medium with status
    Pending, and is issued an account number and the routing code, which
    are stored with the application. *)
Lemma medium_tier_is_issued_account :
  ∃ (body : risk_body) (s' : state),
    risk_evaluate FlagJson.loads Samples.now Samples.uuid4_hex None
      (Samples.server Samples.unverified [] false)
    = (Return (Ok body), s') ∧
    rb_risk_score body = 65 ∧
    rb_risk_level body = "Medium" ∧
    rb_status body = "Pending" ∧
    rb_account_number body = Some "3074 1852 9630" ∧
    rb_ifsc body = Some "NXBA0001234" ∧
    App.account_number <$> applications s' !! "NXB-1A2B3C4D"
      = Some (Some "3074 1852 9630").
Proof.
  eexists _, _. split; [vm_compute; reflexivity|].
  repeat split.
Qed.

(** ** The account columns are overwritten *)

Lemma compute_risk_ignores_account (json_loads : string -> option pyval)
    (now : Datetime.datetime) (row : App.row) (account ifsc : option string)
    (doc_rows : list Doc.row) :
  compute_risk json_loads now (with_account row account ifsc) doc_rows
  = compute_risk json_loads now row doc_rows.
Proof. destruct row. reflexivity. Qed.

(** C7: whatever account number and routing code the application holds,
    an evaluation stores new values for both: none when the tier is High, and
    the number drawn from the generator with the fixed routing code when the
    tier is Low or Medium.  The tier itself does not depend on the values
    held before. *)
Theorem evaluation_overwrites_account (json_loads : string -> option pyval)
    (now : Datetime.datetime) (uuid4_hex : string) (data : option string)
    (s : state) (app_id : string) (row : App.row) :
  str_or_else (sess_app_id (sess s)) data = Some app_id ->
  app_id ≠ "" ->
  applications s !! app_id = Some row ->
  Forall (flags_well_typed json_loads) (documents_of app_id s) ->
  ∃ (body : risk_body) (s' : state) (row' : App.row),
    risk_evaluate json_loads now uuid4_hex data s = (Return (Ok body), s') ∧
    applications s' !! app_id = Some row' ∧
    App.risk_level row' = Some (rb_risk_level body) ∧
    (rb_risk_level body = "High" ∨ rb_risk_level body = "Low"
     ∨ rb_risk_level body = "Medium") ∧
    (rb_risk_level body = "High" ->
     App.account_number row' = None ∧ App.ifsc row' = None) ∧
    (rb_risk_level body = "Low" ∨ rb_risk_level body = "Medium" ->
     App.account_number row' = Some (fst (new_account_number (random s))) ∧
     App.ifsc row' = Some "NXBA0001234") ∧
    (∀ account ifsc : option string,
       compute_risk json_loads now (with_account row account ifsc)
         (documents_of app_id s)
       = compute_risk json_loads now row (documents_of app_id s)).
Proof.
  intros Hid Hne Hrow W. unfold risk_evaluate.
  rewrite (ensure_application_known uuid4_hex data s app_id Hid Hne).
  destruct (evaluate_application_result json_loads now app_id s row Hrow W)
    as (r & st & acc & ifsc & g & _ & Cases & ->).
  eexists _, _, _. split; [reflexivity|].
  cbn [applications]. rewrite lookup_insert_eq. split; [reflexivity|].
  cbn [App.risk_level App.account_number App.ifsc rb_risk_level].
  split; [reflexivity|].
  split; [|split; [|split]].
  - destruct Cases as [(L & _)|[(L & _)|(L & _)]]; auto.
  - intros HL.
    destruct Cases as [(L & _)|[(L & _)|(L & _ & A & I & _)]];
      [rewrite L in HL; discriminate | rewrite L in HL; discriminate | by subst].
  - intros HL.
    destruct Cases as [(L & _ & A & I & _)|[(L & _ & A & I & _)|(L & _)]];
      [by subst | by subst |].
    rewrite L in HL. destruct HL; discriminate.
  - intros account i. apply compute_risk_ignores_account.
Qed.

Lemma evaluation_overwrites_account_witness :
  App.account_number Samples.minor_with_account = Some "1111 2222 3333" ∧
  ∃ (body : risk_body) (s' : state) (row' : App.row),
    risk_evaluate FlagJson.loads Samples.now Samples.uuid4_hex None
      (Samples.server Samples.minor_with_account [Samples.clean_doc] false)
    = (Return (Ok body), s') ∧
    applications s' !! "NXB-1A2B3C4D" = Some row' ∧
    rb_risk_level body = "High" ∧
    App.account_number row' = None ∧ App.ifsc row' = None.
Proof.
  split; [reflexivity|].
  destruct (evaluation_overwrites_account FlagJson.loads Samples.now
              Samples.uuid4_hex None
              (Samples.server Samples.minor_with_account [Samples.clean_doc] false)
              "NXB-1A2B3C4D" Samples.minor_with_account)
    as (body & s' & row' & E & Hrow & _ & _ & Hhigh & _).
  - reflexivity.
  - discriminate.
  - reflexivity.
  - repeat constructor. exists []. reflexivity.
  - assert (L : rb_risk_level body = "High").
    { assert (E' : fst (risk_evaluate FlagJson.loads Samples.now Samples.uuid4_hex
                          None (Samples.server Samples.minor_with_account
                                  [Samples.clean_doc] false))
                   = Return (Ok body)) by (rewrite E; reflexivity).
      vm_compute in E'. injection E' as <-. reflexivity. }
    exists body, s', row'. split; [exact E|]. split; [exact Hrow|].
    split; [exact L|]. exact (Hhigh L).
Defined.

(** ** The reviewer's decision *)





(** The flag compares the decision text with the default status text: on a
    Medium application the decision More Info leaves the status Pending, the
    tier's default, and is recorded as an override. *)
Example more_info_on_medium :
  ∃ (body : decision_body) (s' : state),
    admin_decision
      (mk_decision_request (Some "NXB-DEMO-002") (Some "More Info") None)
      (Samples.server Samples.demo_002 [] true)
    = (Ok body, s') ∧
    db_new_status body = "Pending" ∧ db_ai_overridden body = true ∧
    db_account_number body = None.
Proof. eexists _, _. split; [vm_compute; reflexivity|]. repeat split. Qed.

(** ** The scenarios of the specification *)

(** Scenario A: age 30, one document of confidence 85 without flags,
    biometric score 95, OTP verified, trusted address. *)
Example scenario_A :
  ∃ r : risk_result,
    compute_risk FlagJson.loads Samples.now Samples.adult [Samples.clean_doc]
      = Return r ∧ score r = 100 ∧ level r = "Low".
Proof. eexists. split; [vm_compute; reflexivity|]. split; reflexivity. Qed.

(** Scenario B: age 30, one document of confidence 40 with one flag,
    biometric score 60, OTP not verified, trusted address. *)
Example scenario_B :
  ∃ r : risk_result,
    compute_risk FlagJson.loads Samples.now
      (App.mk "NXB-1A2B3C4D" (Some "1996-05-01") (Some "asha@example.org")
         (Some 60) (Some 0) None None None None None None (Some "In Progress"))
      [Samples.flagged_doc]
      = Return r ∧ score r = 5 ∧ level r = "High" ∧
    weight <$> signals r = [-25; -20; 0; -30; -20; 0].
Proof. eexists. split; [vm_compute; reflexivity|]. repeat split. Qed.

(** Scenario D: a disposable address, everything else perfect. *)
Example scenario_D :
  ∃ r : risk_result,
    compute_risk FlagJson.loads Samples.now
      (Samples.applicant_mailed (Some "kiran@yopmail.com")) [Samples.clean_doc]
      = Return r ∧ score r = 80 ∧ level r = "Low".
Proof. eexists. split; [vm_compute; reflexivity|]. split; reflexivity. Qed.

(** A row written without the OCR engine carries confidence 0. *)
Example run_ocr_unavailable (read : Ocr.recognition) :
  Ocr.run_ocr false read = Ocr.mk "" 0 [].
Proof. reflexivity. Qed.

(** A flag list that does not decode, or decodes to something that is not
    iterable, does escape: the well-typedness of the rows is needed. *)
Example malformed_flags_raise :
  compute_risk FlagJson.loads Samples.now Samples.adult
    [Doc.mk "NXB-1A2B3C4D" (Some 85) (Some "[")] = Raise JSONDecodeError ∧
  compute_risk (fun _ => Some (PInt 7)) Samples.now Samples.adult
    [Samples.clean_doc] = Raise TypeError.
Proof. split; reflexivity. Qed.


(** * Further properties of the engine *)

(** ** Documents only cost points *)

Lemma shift_step (p : Z) (s : signal) :
  p = - weight s ->
  ∀ st : scoring,
    append s (deduct p st) = (fst st - sum_penalties [s], snd st ++ [s]).
Proof. intros -> st. unfold append, deduct. rewrite sum_penalties_one. reflexivity. Qed.

Lemma shift_step0 (s : signal) :
  weight s = 0 ->
  ∀ st : scoring, append s st = (fst st - sum_penalties [s], snd st ++ [s]).
Proof.
  intros H st. unfold append. rewrite sum_penalties_one, H. f_equal. lia.
Qed.

Lemma shifts_one (rule : scoring -> scoring) (s : signal) :
  weight s <= 0 ->
  (∀ st, rule st = (fst st - sum_penalties [s], snd st ++ [s])) ->
  shifts rule.
Proof. intros Hw H. exists [s]. split; [by repeat constructor | exact H]. Qed.

Lemma shifts_none (rule : scoring -> scoring) :
  (∀ st, rule st = st) -> shifts rule.
Proof.
  intros H. exists []. split; [constructor|]. intros [sc sg]. rewrite H. simpl.
  rewrite sum_penalties_nil, app_nil_r. f_equal. lia.
Qed.

Lemma shifts_compose (f g : scoring -> scoring) :
  shifts f -> shifts g -> shifts (fun st => g (f st)).
Proof.
  intros (n1 & W1 & H1) (n2 & W2 & H2). exists (n1 ++ n2).
  split; [by apply Forall_app|]. intros st. rewrite H1, H2. simpl.
  rewrite sum_penalties_app, app_assoc. f_equal. lia.
Qed.

Lemma rule_age_shifts (now : Datetime.datetime) (a : App.row) :
  shifts (rule_age now a).
Proof.
  unfold rule_age.
  destruct (Datetime.strptime_ymd (App.dob a)) as [dob|e]; cbn [mbind outcome_bind].
  - destruct (_ <? 18); cbn [try_except].
    { eapply shifts_one; [|apply shift_step; reflexivity]. simpl. lia. }
    destruct (_ && _); cbn [try_except].
    { eapply shifts_one; [|apply shift_step0; reflexivity]. simpl. lia. }
    eapply shifts_one; [|apply shift_step; reflexivity]. simpl. lia.
  - cbn [try_except]. eapply shifts_one; [|apply shift_step; reflexivity]. simpl. lia.
Qed.

Lemma rule_face_shifts (a : App.row) : shifts (rule_face a).
Proof.
  unfold rule_face.
  destruct (90 <=? _).
  { eapply shifts_one; [|apply shift_step0; reflexivity]. simpl. lia. }
  destruct (75 <=? _).
  { eapply shifts_one; [|apply shift_step; reflexivity]. simpl. lia. }
  destruct (0 <? _);
    (eapply shifts_one; [|apply shift_step; reflexivity]); simpl; lia.
Qed.

Lemma rule_otp_shifts (a : App.row) : shifts (rule_otp a).
Proof.
  unfold rule_otp. destruct (Py.truthy_int _).
  - eapply shifts_one; [|apply shift_step0; reflexivity]. simpl. lia.
  - eapply shifts_one; [|apply shift_step; reflexivity]. simpl. lia.
Qed.

Lemma rule_email_shifts (a : App.row) : shifts (rule_email a).
Proof.
  unfold rule_email. destruct (existsb _ _).
  { eapply shifts_one; [|apply shift_step; reflexivity]. simpl. lia. }
  destruct (Py.truthy_str _).
  - eapply shifts_one; [|apply shift_step0; reflexivity]. simpl. lia.
  - by apply shifts_none.
Qed.

Lemma applicant_rules_shifts (now : Datetime.datetime) (a : App.row) :
  shifts (applicant_rules now a).
Proof.
  unfold applicant_rules.
  apply (shifts_compose (fun st => rule_otp a (rule_face a (rule_age now a st)))
           (rule_email a)); [|apply rule_email_shifts].
  apply (shifts_compose (fun st => rule_face a (rule_age now a st)) (rule_otp a));
    [|apply rule_otp_shifts].
  apply (shifts_compose (rule_age now a) (rule_face a));
    [apply rule_age_shifts | apply rule_face_shifts].
Qed.

(** X1: Documents never raise the score: with the same applicant and the same
    day, the result for any list of well-typed documents scores at most what
    the result without documents scores, and its signals are the document
    signals followed by the signals of the result without documents. *)
Theorem documents_never_raise_score (json_loads : string -> option pyval)
    (now : Datetime.datetime) (a : App.row) (doc_rows : list Doc.row) :
  Forall (flags_well_typed json_loads) doc_rows ->
  ∃ (r0 r : risk_result) (doc_signals : list signal),
    compute_risk json_loads now a [] = Return r0 ∧
    compute_risk json_loads now a doc_rows = Return r ∧
    score r <= score r0 ∧
    signals r = doc_signals ++ signals r0 ∧
    Forall (fun s => factor s = "OCR Confidence" ∨ factor s = "Tamper Detection")
      doc_signals.
Proof.
  intros W.
  destruct (document_rules_extends json_loads doc_rows (100, []) W)
    as (st1 & E1 & X1).
  destruct (applicant_rules_shifts now a) as (new & Wn & Hshift).
  exists (result_of (applicant_rules now a (100, []))),
         (result_of (applicant_rules now a st1)).
  pose proof (extends_le _ _ _ X1) as Hle.
  apply extends_signals in X1 as (ds & Hds & Hfs). simpl in Hds, Hle.
  exists ds. split; [reflexivity|].
  split; [rewrite compute_risk_unfold, E1; reflexivity|].
  unfold result_of. cbn [score signals]. rewrite !Hshift. cbn [fst snd].
  split; [lia|]. split; [by rewrite Hds|].
  eapply Forall_impl; [exact Hfs|]. intros s Hs. cbv beta in Hs.
  apply elem_of_cons in Hs as [->|Hs]; [by left|].
  apply elem_of_cons in Hs as [->|Hs]; [by right|].
  by apply elem_of_nil in Hs.
Qed.

Lemma documents_never_raise_score_witness :
  Forall (flags_well_typed FlagJson.loads) [Samples.flagged_doc] ∧
  ∃ r0 r : risk_result,
    compute_risk FlagJson.loads Samples.now Samples.adult [] = Return r0 ∧
    compute_risk FlagJson.loads Samples.now Samples.adult [Samples.flagged_doc]
      = Return r ∧
    score r <= score r0.
Proof.
  assert (W : Forall (flags_well_typed FlagJson.loads) [Samples.flagged_doc]).
  { repeat constructor. exists ["Unusually high text density"]. reflexivity. }
  split; [exact W|].
  destruct (documents_never_raise_score FlagJson.loads Samples.now Samples.adult
              [Samples.flagged_doc] W) as (r0 & r & ds & E0 & E & Hle & _).
  exists r0, r. split; [exact E0|]. split; [exact E | exact Hle].
Defined.

(** ** Flags *)

Lemma collect_flags_stored (json_loads : string -> option pyval)
    (doc_rows : list Doc.row) (acc : list pyval) :
  Forall (flags_well_typed json_loads) doc_rows ->
  collect_flags json_loads doc_rows acc
  = Return (acc ++ concat (stored_flags json_loads <$> doc_rows)).
Proof.
  intros H. revert acc.
  induction H as [|d rest [fl Hd] _ IH]; intros acc.
  - simpl. by rewrite app_nil_r.
  - cbn [collect_flags]. unfold loads. rewrite Hd.
    cbn [mbind outcome_bind iterate]. rewrite IH.
    rewrite fmap_cons. cbn [concat]. unfold stored_flags at 2. rewrite Hd.
    by rewrite app_assoc.
Qed.

Lemma rule_tamper_cost (json_loads : string -> option pyval)
    (doc_rows : list Doc.row) (st : scoring) :
  Forall (flags_well_typed json_loads) doc_rows ->
  ∃ st' : scoring,
    rule_tamper json_loads doc_rows st = Return st' ∧
    fst st' = fst st - 20 * flag_total json_loads doc_rows.
Proof.
  intros W. unfold rule_tamper, flag_total.
  rewrite (collect_flags_stored json_loads doc_rows [] W), app_nil_l.
  cbn [mbind outcome_bind].
  destruct (collect_flags_well_typed json_loads doc_rows [] W) as [fl Hfl].
  rewrite (collect_flags_stored json_loads doc_rows [] W), app_nil_l in Hfl.
  injection Hfl as Hfl. rewrite Hfl.
  destruct fl as [|f fl].
  - eexists. split; [reflexivity|]. unfold len, append. simpl. lia.
  - rewrite fmap_cons. unfold join_values.
    rewrite <- fmap_cons, strings_of_fmap. cbn [mbind outcome_bind].
    eexists. split; [reflexivity|]. reflexivity.
Qed.

(** X2: Every flag costs 20 points: the score is at most [100 - 20 * k] for [k]
    flags over all documents (and at least 0), so two flags exclude tier Low
    and three flags force tier High, whatever else the applicant shows. *)
Theorem flags_bound_score (json_loads : string -> option pyval)
    (now : Datetime.datetime) (a : App.row) (doc_rows : list Doc.row) :
  Forall (flags_well_typed json_loads) doc_rows ->
  let k := flag_total json_loads doc_rows in
  ∃ r : risk_result,
    compute_risk json_loads now a doc_rows = Return r ∧
    score r <= Z.max 0 (100 - 20 * k) ∧
    (2 <= k -> level r ≠ "Low") ∧
    (3 <= k -> level r = "High").
Proof.
  intros W k.
  assert (K0 : doc_rows = [] -> k = 0) by (intros ->; reflexivity).
  assert (Hfst : ∃ st1, document_rules json_loads doc_rows (100, []) = Return st1
                        ∧ fst st1 <= 100 - 20 * k).
  { destruct doc_rows as [|d rest].
    - exists (100, []). split; [reflexivity|]. rewrite K0 by done. simpl. lia.
    - unfold document_rules.
      destruct (rule_tamper_cost json_loads (d :: rest)
                  (rule_ocr_confidence (d :: rest) (100, [])) W) as (st1 & E & C).
      exists st1. split; [exact E|]. fold k in C.
      pose proof (extends_le _ _ _
                    (rule_ocr_confidence_extends (d :: rest) (100, []))) as L.
      simpl in L. lia. }
  destruct Hfst as (st1 & E1 & L1).
  pose proof (extends_le _ _ _ (applicant_rules_extends now a st1)) as L2.
  exists (result_of (rule_email a (rule_otp a (rule_face a (rule_age now a st1))))).
  split; [rewrite compute_risk_unfold, E1; reflexivity|].
  unfold result_of. cbn [score level].
  set (x := fst (rule_email a (rule_otp a (rule_face a (rule_age now a st1))))) in *.
  split; [lia|]. unfold level_of. split; intros Hk.
  - destruct (Z.leb_spec 70 (Z.max 0 (Z.min 100 x))); [lia|].
    destruct (45 <=? _); discriminate.
  - destruct (Z.leb_spec 70 (Z.max 0 (Z.min 100 x))); [lia|].
    destruct (Z.leb_spec 45 (Z.max 0 (Z.min 100 x))); [lia | reflexivity].
Qed.

Lemma flags_bound_score_witness :
  Forall (flags_well_typed FlagJson.loads)
    [Samples.flagged_doc; Samples.flagged_doc; Samples.flagged_doc] ∧
  ∃ r : risk_result,
    compute_risk FlagJson.loads Samples.now Samples.adult
      [Samples.flagged_doc; Samples.flagged_doc; Samples.flagged_doc] = Return r ∧
    level r = "High".
Proof.
  assert (W : Forall (flags_well_typed FlagJson.loads)
                [Samples.flagged_doc; Samples.flagged_doc; Samples.flagged_doc]).
  { repeat constructor; exists ["Unusually high text density"]; reflexivity. }
  split; [exact W|].
  destruct (flags_bound_score FlagJson.loads Samples.now Samples.adult _ W)
    as (r & E & _ & _ & H3).
  exists r. split; [exact E|]. apply H3. vm_compute. discriminate.
Defined.

(** ** The age gate counts days *)

Lemma age_in_days (d : Z) :
  (d / 365 <? 18) = (d <? 6570) ∧
  ((18 <=? d / 365) && (d / 365 <=? 65)) = ((6570 <=? d) && (d <? 24090)).
Proof.
  assert (A : d / 365 < 18 ↔ d < 6570).
  { split; intros H.
    - apply Z.nle_gt. intros C. apply (Z.div_le_mono _ _ 365) in C; [|lia].
      change (6570 / 365) with 18 in C. lia.
    - apply Z.div_lt_upper_bound; lia. }
  assert (B : d / 365 <= 65 ↔ d < 24090).
  { split; intros H.
    - apply Z.nle_gt. intros C. apply (Z.div_le_mono _ _ 365) in C; [|lia].
      change (24090 / 365) with 66 in C. lia.
    - assert (d / 365 < 66) by (apply Z.div_lt_upper_bound; lia). lia. }
  split.
  - destruct (Z.ltb_spec (d / 365) 18), (Z.ltb_spec d 6570); lia.
  - destruct (Z.leb_spec 18 (d / 365)), (Z.leb_spec (d / 365) 65),
      (Z.leb_spec 6570 d), (Z.ltb_spec d 24090); simpl; lia.
Qed.

(** X3: The age rule counts 365 days per year of age and nothing else: for a
    date of birth that parses, the age signal has weight -100 when fewer than
    6570 days separate the date of birth from the day of the evaluation
    (a date of birth in the future included), weight 0 up to 24089 days, and
    weight -5 from 24090 days on. *)
Theorem age_gate_counts_days (now dob : Datetime.datetime) (a : App.row)
    (st : scoring) :
  Datetime.valid_time now = true ->
  Datetime.strptime_ymd (App.dob a) = Return dob ->
  let days := Datetime.toordinal now - Datetime.toordinal dob in
  ∃ text : string,
    rule_age now a st
    = append (mk_signal "Age Gate" (age_weight days) text)
             (deduct (- age_weight days) st).
Proof.
  intros V P days.
  destruct (strptime_ymd_midnight _ _ P) as (Hh & Hm & Hs & Hu).
  unfold rule_age. rewrite P. cbn [mbind outcome_bind]. unfold age_at.
  rewrite (days_since_midnight now dob V Hh Hm Hs Hu). fold days.
  destruct (age_in_days days) as [-> ->]. unfold age_weight.
  destruct (days <? 6570) eqn:A; [eexists; reflexivity|].
  destruct (Z.ltb_spec days 6570) as [|A']; [discriminate|].
  destruct (Z.leb_spec 6570 days) as [_|]; [|lia]. cbn [andb].
  destruct (days <? 24090); cbn [try_except].
  - exists ("Age " +:+ Py.str (days / 365) +:+ " — valid range").
    destruct st. unfold append, deduct. simpl. f_equal. lia.
  - eexists. reflexivity.
Qed.

Lemma age_gate_counts_days_witness :
  ∃ text : string,
    rule_age (Datetime.mk_datetime 2026 11 4 10 30 0 0) Samples.coming_of_age (100, [])
    = append (mk_signal "Age Gate" 0 text) (deduct 0 (100, [])).
Proof.
  exact (age_gate_counts_days (Datetime.mk_datetime 2026 11 4 10 30 0 0)
           (Datetime.mk_datetime 2008 11 8 0 0 0 0) Samples.coming_of_age (100, [])
           eq_refl eq_refl).
Defined.

(** * The onboarding routes *)

Lemma auto_create_known (detail uuid4_hex : string) (requested : option string)
    (s : state) (app_id : string) :
  str_or_else (sess_app_id (sess s)) requested = Some app_id ->
  app_id ≠ "" ->
  auto_create detail uuid4_hex requested s = Return (app_id, s).
Proof.
  intros H N. unfold auto_create. rewrite H.
  destruct app_id; [done | reflexivity].
Qed.

(** ** Document upload *)

Lemma upload_document_accepted (json_dumps : list string -> string)
    (available : bool) (read : Ocr.recognition)
    (uuid4_hex doc_id file_hash : string) (form : upload_form) (s : state)
    (app_id : string) :
  acceptable_upload app_id form s ->
  let ocr := Ocr.run_ocr available read in
  ∃ s' : state,
    upload_document json_dumps available read uuid4_hex doc_id file_hash form s
    = (Return (Uploaded
                 (mk_upload_body (default "Aadhaar" (upf_doc_type form))
                    (Ocr.confidence ocr) (Ocr.tamper_flags ocr)
                    ((len (Ocr.tamper_flags ocr) =? 0)
                     && (30 <=? Ocr.confidence ocr)))), s') ∧
    documents s' = documents s ++ [uploaded_row json_dumps app_id ocr] ∧
    applications s' = applications s ∧
    admin_decisions s' = admin_decisions s ∧
    sess s' = sess s ∧ random s' = random s.
Proof.
  intros (Hid & Hne & Htype & fn & Hfn & Hfne & Hext) ocr.
  unfold upload_document.
  rewrite (auto_create_known _ uuid4_hex _ s app_id Hid Hne).
  rewrite (bool_decide_eq_true_2 _ Htype). cbn [negb].
  rewrite Hfn. destruct fn as [|c fn]; [done|].
  rewrite (bool_decide_eq_true_2 _ Hext). cbn [negb].
  eexists. split; [reflexivity|]. repeat split.
Qed.

Lemma ocr_result_cases (available : bool) (read : Ocr.recognition) :
  let ocr := Ocr.run_ocr available read in
  (available = false ∧ Ocr.confidence ocr = 0 ∧ Ocr.tamper_flags ocr = [])
  ∨ (available = true ∧ ∃ message, read = Ocr.Failed message
     ∧ Ocr.confidence ocr = 0
     ∧ Ocr.tamper_flags ocr = ["OCR processing error: " +:+ message])
  ∨ (available = true ∧ ∃ text, read = Ocr.Recognised text
     ∧ Ocr.confidence ocr = Z.min 95 (Z.max 30 (count_tokens text * 3))
     ∧ ((count_tokens text < 5 ∧ length (Ocr.tamper_flags ocr) = 1%nat)
        ∨ (5 <= count_tokens text <= 200 ∧ Ocr.tamper_flags ocr = [])
        ∨ (200 < count_tokens text ∧ length (Ocr.tamper_flags ocr) = 1%nat))).
Proof.
  destruct available; [|left; repeat split].
  destruct read as [text|message].
  - right; right. split; [reflexivity|]. exists text. split; [reflexivity|].
    cbn [Ocr.run_ocr negb Ocr.confidence Ocr.tamper_flags].
    rewrite word_count_tokens. split; [reflexivity|].
    destruct (Z.ltb_spec (count_tokens text) 5);
      destruct (Z.ltb_spec 200 (count_tokens text)); try lia.
    + left. split; [lia | reflexivity].
    + right; right. split; [lia | reflexivity].
    + right; left. split; [lia | reflexivity].
  - right; left. split; [reflexivity|]. exists message. repeat split.
Qed.



Lemma documents_of_upload (app_id : string) (s s' : state) (row : Doc.row) :
  documents s' = documents s ++ [row] ->
  Doc.application_id row = app_id ->
  documents_of app_id s' = documents_of app_id s ++ [row].
Proof.
  intros Hd Hrow. unfold documents_of. rewrite Hd, filter_app. f_equal.
  rewrite filter_cons_True by exact Hrow. reflexivity.
Qed.

Lemma first_document_rules (json_loads : string -> option pyval)
    (json_dumps : list string -> string) (available : bool)
    (read : Ocr.recognition) (app_id : string) :
  let ocr := Ocr.run_ocr available read in
  json_loads (Py.str_or (Some (json_dumps (Ocr.tamper_flags ocr))) "[]")
    = Some (PList (PStr <$> Ocr.tamper_flags ocr)) ->
  ∃ st : scoring,
    document_rules json_loads [uploaded_row json_dumps app_id ocr] (100, [])
      = Return st ∧
    fst st = 100 - first_document_cost available read.
Proof.
  intros ocr H. subst ocr.
  pose proof (ocr_result_cases available read) as Cases. cbv zeta in Cases.
  set (ocr := Ocr.run_ocr available read) in *. clearbody ocr.
  set (row := uploaded_row json_dumps app_id ocr).
  assert (W : Forall (flags_well_typed json_loads) [row]).
  { repeat constructor. exists (Ocr.tamper_flags ocr). exact H. }
  assert (K : flag_total json_loads [row] = len (Ocr.tamper_flags ocr)).
  { unfold flag_total, stored_flags. cbn [fmap list_fmap concat].
    cbn [row uploaded_row Doc.tamper_flags]. rewrite H, app_nil_r.
    unfold len. by rewrite length_fmap. }
  destruct (rule_ocr_confidence_penalty [row] (100, [])) as [text Hocr]; [done|].
  destruct (rule_tamper_cost json_loads [row] (rule_ocr_confidence [row] (100, [])) W)
    as (st & E & C).
  exists st. split; [exact E|]. rewrite C, K, Hocr.
  cbn [fst append deduct fmap list_fmap]. unfold effective_confidence.
  unfold row, uploaded_row. cbn [Doc.confidence]. change (len [_]) with 1.
  unfold first_document_cost.
  destruct Cases
    as [(Hav & Hc & Hf)|[(Hav & m & Hr & Hc & Hf)|(Hav & t & Hr & Hc & Hf)]];
    rewrite Hav; cbn [negb].
  - rewrite Hc, Hf. reflexivity.
  - rewrite Hc, Hf, Hr. reflexivity.
  - rewrite Hr, Hc. set (wc := count_tokens t) in *.
    assert (Hlen : len (Ocr.tamper_flags ocr)
                   = if (wc <? 5) || (200 <? wc) then 1 else 0).
    { unfold len.
      destruct Hf as [(Hw & Hl)|[(Hw & Hl)|(Hw & Hl)]]; rewrite Hl;
        destruct (Z.ltb_spec wc 5); destruct (Z.ltb_spec 200 wc);
        simpl; lia. }
    rewrite Hlen.
    assert (Hpos : 30 <= Z.min 95 (Z.max 30 (wc * 3))) by lia.
    destruct (Z.min 95 (Z.max 30 (wc * 3))) as [|c|c] eqn:Hmin; [lia| |lia].
    rewrite <- Hmin. unfold sum. cbn [fold_left]. unfold ocr_penalty.
    destruct (Z.ltb_spec wc 5); destruct (Z.ltb_spec 200 wc);
      destruct (Z.ltb_spec wc 17); destruct (Z.ltb_spec wc 25);
      destruct (Z.leb_spec wc 200);
      destruct (Z.leb_spec (75 * 1) (0 + Z.min 95 (Z.max 30 (wc * 3))));
      destruct (Z.leb_spec (50 * 1) (0 + Z.min 95 (Z.max 30 (wc * 3))));
      cbn [orb]; lia.
Qed.

(** X5: What a first document costs.  For an application without documents, an
    accepted upload leaves exactly one document, and the two document rules
    then take from the score: 10 points when the OCR engine is not installed,
    30 when it fails on the image, 45 for fewer than 5 words, 25 for 5 to 16
    words, 10 for 17 to 24 words, nothing for 25 to 200 words and 20 beyond
    200 words. *)
Theorem first_upload_cost (json_loads : string -> option pyval)
    (json_dumps : list string -> string) (available : bool)
    (read : Ocr.recognition) (uuid4_hex doc_id file_hash : string)
    (form : upload_form) (s : state) (app_id : string) :
  acceptable_upload app_id form s ->
  documents_of app_id s = [] ->
  json_loads (Py.str_or
                (Some (json_dumps (Ocr.tamper_flags (Ocr.run_ocr available read))))
                "[]")
    = Some (PList (PStr <$> Ocr.tamper_flags (Ocr.run_ocr available read))) ->
  ∃ (body : upload_body) (s' : state) (st : scoring),
    upload_document json_dumps available read uuid4_hex doc_id file_hash form s
    = (Return (Uploaded body), s') ∧
    length (documents_of app_id s') = 1%nat ∧
    document_rules json_loads (documents_of app_id s') (100, []) = Return st ∧
    fst st = 100 - first_document_cost available read.
Proof.
  intros A Hnone H.
  destruct (upload_document_accepted json_dumps available read uuid4_hex doc_id
              file_hash form s app_id A) as (s' & E & Hd & _).
  destruct (first_document_rules json_loads json_dumps available read app_id H)
    as (st & Est & Hst).
  eexists _, s', st. split; [exact E|].
  rewrite (documents_of_upload app_id s s' _ Hd eq_refl), Hnone, app_nil_l.
  split; [reflexivity|]. split; [exact Est | exact Hst].
Qed.

Lemma first_upload_cost_witness :
  ∃ (body : upload_body) (s' : state) (st : scoring),
    upload_document FlagJson.dumps true (Ocr.Recognised "blank page")
      Samples.uuid4_hex "3b9a1c52-77aa-4f0e-9d41-0c5e2f6a7b88" "ab12cd34ef56ab12cd34"
      (Scenario.upload "scan.pdf") Scenario.onboarding
    = (Return (Uploaded body), s') ∧
    document_rules FlagJson.loads (documents_of "NXB-1A2B3C4D" s') (100, [])
      = Return st ∧
    fst st = 55.
Proof.
  destruct (first_upload_cost FlagJson.loads FlagJson.dumps true
              (Ocr.Recognised "blank page") Samples.uuid4_hex
              "3b9a1c52-77aa-4f0e-9d41-0c5e2f6a7b88" "ab12cd34ef56ab12cd34"
              (Scenario.upload "scan.pdf") Scenario.onboarding "NXB-1A2B3C4D")
    as (body & s' & st & E & _ & Est & Hst).
  - split; [reflexivity|]. split; [discriminate|]. split; [set_solver|].
    exists "scan.pdf". split; [reflexivity|]. split; [discriminate|].
    vm_compute. set_solver.
  - reflexivity.
  - reflexivity.
  - exists body, s', st. split; [exact E|]. split; [exact Est | exact Hst].
Defined.

(** ** Selfie *)

Lemma lookup_update_application (app_id key : string) (f : App.row -> App.row)
    (s : state) :
  applications (update_application app_id f s) !! key
  = if decide (app_id = key) then f <$> applications s !! key
    else applications s !! key.
Proof.
  unfold update_application. cbn [with_applications applications].
  rewrite lookup_alter. by destruct (decide (app_id = key)) as [->|].
Qed.

(** X6: A selfie always matches.  For a request that names its application and
    carries a selfie part, the route stores a biometric score between 82 and
    98 with status Matched, under a file name whose extension is one of png,
    jpg, jpeg and webp whatever the uploaded file was called; the score is
    written to the application's row, if there is one, and nothing else in
    the row changes.  The biometric rule then deducts nothing (score from
    90) or 10 points. *)
Theorem selfie_always_matches (uuid4_hex : string) (requested : option string)
    (filename : option string) (s : state) (app_id : string) :
  str_or_else (sess_app_id (sess s)) requested = Some app_id ->
  app_id ≠ "" ->
  ∃ (body : selfie_body) (s' : state) (ext : string),
    upload_selfie uuid4_hex requested (Some filename) s
    = (Return (SelfieStored body), s') ∧
    82 <= sb_face_score body <= 98 ∧
    sb_face_status body = "Matched" ∧
    sb_selfie_stored body = app_id +:+ "_selfie." +:+ ext ∧
    ext ∈ ALLOWED_SELFIE ∧
    applications s' !! app_id
    = set_face_score (sb_face_score body) <$> applications s !! app_id ∧
    (∀ other, other ≠ app_id -> applications s' !! other = applications s !! other) ∧
    ∀ (row : App.row) (st : scoring),
      ∃ (w : Z) (text : string),
        rule_face (set_face_score (sb_face_score body) row) st
        = append (mk_signal "Biometric Match" w text) (deduct (- w) st) ∧
        ((w = 0 ∧ 90 <= sb_face_score body) ∨ (w = -10 ∧ sb_face_score body < 90)).
Proof.
  intros Hid Hne. unfold upload_selfie.
  rewrite (auto_create_known _ uuid4_hex _ s app_id Hid Hne).
  pose proof (randint_range 82 98 (random s)) as R.
  destruct (randint 82 98 (random s)) as [score g]. cbn [fst] in R.
  assert (Hs : 82 <= score <= 98) by lia. clear R.
  set (raw := PyStr.lower (PyStr.after_last "." (Py.str_or filename "selfie.jpg"))).
  set (ext := if bool_decide (raw ∈ ALLOWED_SELFIE) then raw else "jpg").
  assert (Hext : ext ∈ ALLOWED_SELFIE).
  { unfold ext. destruct (bool_decide_reflect (raw ∈ ALLOWED_SELFIE)); [done|].
    unfold ALLOWED_SELFIE. apply elem_of_cons. right. apply elem_of_cons. by left. }
  destruct (Z.leb_spec 75 score) as [_|]; [|lia].
  eexists _, _, ext. split; [reflexivity|].
  cbn [sb_face_score sb_face_status sb_selfie_stored].
  split; [exact Hs|]. split; [reflexivity|]. split; [reflexivity|].
  split; [exact Hext|]. split; [|split].
  - cbn [with_log applications]. rewrite lookup_update_application.
    by rewrite decide_True.
  - intros other Ho. cbn [with_log applications].
    rewrite lookup_update_application. by rewrite decide_False.
  - intros row st. unfold rule_face. cbn [set_face_score App.face_score Py.int_or].
    destruct (Z.eqb_spec score 0) as [|_]; [lia|].
    destruct (Z.leb_spec 90 score).
    + eexists 0, _. split; [|left; split; [reflexivity | lia]].
      destruct st. unfold append, deduct. simpl. f_equal. lia.
    + destruct (Z.leb_spec 75 score) as [_|]; [|lia].
      eexists (-10), _. split; [reflexivity|]. right. split; [reflexivity | lia].
Qed.

Lemma selfie_always_matches_witness :
  ∃ (body : selfie_body) (s' : state),
    upload_selfie Samples.uuid4_hex None (Some (Some "IMG_2041.HEIC"))
      Scenario.onboarding
    = (Return (SelfieStored body), s') ∧
    sb_selfie_stored body = "NXB-1A2B3C4D_selfie.jpg" ∧
    82 <= sb_face_score body <= 98.
Proof.
  destruct (selfie_always_matches Samples.uuid4_hex None (Some "IMG_2041.HEIC")
              Scenario.onboarding "NXB-1A2B3C4D")
    as (body & s' & ext & E & Hs & _ & Hn & _).
  - reflexivity.
  - discriminate.
  - exists body, s'. split; [exact E|]. split; [|exact Hs].
    assert (E' : fst (upload_selfie Samples.uuid4_hex None
                        (Some (Some "IMG_2041.HEIC")) Scenario.onboarding)
                 = Return (SelfieStored body)) by (rewrite E; reflexivity).
    vm_compute in E'. injection E' as <-. reflexivity.
Defined.

(** ** Identity *)

Lemma submit_identity_accepted (now : Datetime.datetime) (uuid4_hex : string)
    (data : identity_form) (s s' : state) (app_id app_id' name : string) (age : Z) :
  str_or_else (sess_app_id (sess s)) (idf_application_id data) = Some app_id ->
  app_id ≠ "" ->
  submit_identity now uuid4_hex data s
    = (Return (IdentityAccepted app_id' age name), s') ->
  let dob := Py.strip (Py.str_or (idf_dob data) "") in
  let email := Py.strip (Py.str_or (idf_email data) "") in
  ∃ dob_dt : Datetime.datetime,
    app_id' = app_id ∧
    name = Py.strip (Py.str_or (idf_name data) "") ∧
    (2 <= String.length name)%nat ∧
    PyStr.matches_dob dob = true ∧
    PyStr.matches_email email = true ∧
    Datetime.strptime_ymd (Some dob) = Return dob_dt ∧
    age = age_at now dob_dt ∧ 18 <= age ∧
    applications s' = alter (set_identity dob email) app_id (applications s) ∧
    documents s' = documents s.
Proof.
  intros Hid Hne. unfold submit_identity.
  rewrite (auto_create_known _ uuid4_hex _ s app_id Hid Hne).
  intros H. cbv zeta.
  set (dob := Py.strip (Py.str_or (idf_dob data) "")) in *.
  set (email := Py.strip (Py.str_or (idf_email data) "")) in *.
  set (nm := Py.strip (Py.str_or (idf_name data) "")) in *.
  destruct (Nat.ltb_spec (String.length nm) 2); [discriminate H|].
  destruct (PyStr.matches_dob dob) eqn:Md; [|discriminate H].
  destruct (PyStr.matches_email email) eqn:Me; [|discriminate H].
  cbn [negb app] in H.
  destruct (Datetime.strptime_ymd (Some dob)) as [dob_dt|e] eqn:P.
  - destruct (Z.ltb_spec (age_at now dob_dt) 18); [discriminate H|].
    injection H as <- <- <- <-. exists dob_dt. repeat split; auto.
  - destruct e; discriminate H.
Qed.

(** X7: An accepted identity clears the age gate.  When the route accepts, the
    date of birth has the shape YYYY-MM-DD and is a date, the applicant is
    at least 18 at that moment, and the row of the application, if there is
    one, now holds that date of birth and the address.  For an evaluation on
    the same or a later day the age rule then deducts nothing or the 5 points
    of a senior applicant: never the 100 points of the age gate and never
    the 10 points of a parse error. *)
Theorem accepted_identity_clears_age_gate (now1 now2 : Datetime.datetime)
    (uuid4_hex : string) (data : identity_form) (s s' : state)
    (app_id app_id' name : string) (age : Z) (row : App.row) :
  str_or_else (sess_app_id (sess s)) (idf_application_id data) = Some app_id ->
  app_id ≠ "" ->
  applications s !! app_id = Some row ->
  submit_identity now1 uuid4_hex data s
    = (Return (IdentityAccepted app_id' age name), s') ->
  Datetime.valid_time now1 = true ->
  Datetime.valid_time now2 = true ->
  Datetime.toordinal now1 <= Datetime.toordinal now2 ->
  18 <= age ∧
  ∃ row' : App.row,
    applications s' !! app_id = Some row' ∧
    App.dob row' = Some (Py.strip (Py.str_or (idf_dob data) "")) ∧
    App.email row' = Some (Py.strip (Py.str_or (idf_email data) "")) ∧
    ∀ st : scoring,
      ∃ (w : Z) (text : string),
        rule_age now2 row' st
        = append (mk_signal "Age Gate" w text) (deduct (- w) st) ∧
        (w = 0 ∨ w = -5).
Proof.
  intros Hid Hne Hrow Hacc V1 V2 Hord.
  destruct (submit_identity_accepted now1 uuid4_hex data s s' app_id app_id' name
              age Hid Hne Hacc)
    as (dob_dt & _ & _ & _ & _ & _ & P & Hage & H18 & Happs & _).
  split; [exact H18|].
  eexists. split; [rewrite Happs, lookup_alter_eq, Hrow; reflexivity|].
  cbn [set_identity App.dob App.email]. split; [reflexivity|]. split; [reflexivity|].
  intros st. unfold rule_age. cbn [set_identity App.dob]. rewrite P. cbn [mbind outcome_bind].
  destruct (strptime_ymd_midnight _ _ P) as (Hh & Hm & Hs & Hu).
  assert (D1 : 6570 <= Datetime.toordinal now1 - Datetime.toordinal dob_dt).
  { subst age. unfold age_at in H18.
    rewrite (days_since_midnight now1 dob_dt V1 Hh Hm Hs Hu) in H18.
    destruct (age_in_days (Datetime.toordinal now1 - Datetime.toordinal dob_dt))
      as [A _].
    destruct (Z.ltb_spec ((Datetime.toordinal now1 - Datetime.toordinal dob_dt) / 365) 18);
      [lia|].
    destruct (Z.ltb_spec (Datetime.toordinal now1 - Datetime.toordinal dob_dt) 6570);
      [discriminate A | lia]. }
  unfold age_at. rewrite (days_since_midnight now2 dob_dt V2 Hh Hm Hs Hu).
  set (days := Datetime.toordinal now2 - Datetime.toordinal dob_dt).
  destruct (age_in_days days) as [-> ->].
  destruct (Z.ltb_spec days 6570); [unfold days in *; lia|].
  destruct (Z.leb_spec 6570 days); [|lia]. cbn [andb].
  destruct (days <? 24090); cbn [try_except].
  - eexists 0, _. split; [|by left].
    destruct st. unfold append, deduct. simpl. f_equal. lia.
  - eexists (-5), _. split; [reflexivity | by right].
Qed.

Lemma accepted_identity_clears_age_gate_witness :
  submit_identity Samples.now Samples.uuid4_hex
    (identity "Asha Verma" "1996-05-01" "asha.verma@example.org") Scenario.onboarding
  = (Return (IdentityAccepted "NXB-1A2B3C4D" 30 "Asha Verma"),
     snd (submit_identity Samples.now Samples.uuid4_hex
            (identity "Asha Verma" "1996-05-01" "asha.verma@example.org")
            Scenario.onboarding)) ∧
  ∃ row' : App.row,
    applications
      (snd (submit_identity Samples.now Samples.uuid4_hex
              (identity "Asha Verma" "1996-05-01" "asha.verma@example.org")
              Scenario.onboarding)) !! "NXB-1A2B3C4D" = Some row' ∧
    App.dob row' = Some "1996-05-01".
Proof.
  assert (E : submit_identity Samples.now Samples.uuid4_hex
                (identity "Asha Verma" "1996-05-01" "asha.verma@example.org")
                Scenario.onboarding
              = (Return (IdentityAccepted "NXB-1A2B3C4D" 30 "Asha Verma"),
                 snd (submit_identity Samples.now Samples.uuid4_hex
                        (identity "Asha Verma" "1996-05-01" "asha.verma@example.org")
                        Scenario.onboarding))) by reflexivity.
  split; [exact E|].
  destruct (accepted_identity_clears_age_gate Samples.now
              (Datetime.mk_datetime 2027 1 15 9 0 0 0) Samples.uuid4_hex
              (identity "Asha Verma" "1996-05-01" "asha.verma@example.org")
              Scenario.onboarding _ "NXB-1A2B3C4D" _ _ _ Samples.adult
              eq_refl ltac:(discriminate) eq_refl E eq_refl eq_refl
              ltac:(vm_compute; discriminate))
    as (_ & row' & Hr & Hd & _).
  exists row'. split; [exact Hr | exact Hd].
Defined.



(** ** The shape of an accepted address *)

Lemma span_spec (p : ascii -> bool) (s a b : string) :
  PyStr.span p s = (a, b) ->
  s = a +:+ b ∧ forallb p (list_ascii_of_string a) = true.
Proof.
  revert a b. induction s as [|c s IH]; intros a b; cbn [PyStr.span].
  - intros [= <- <-]. by split.
  - destruct (p c) eqn:Hc.
    + destruct (PyStr.span p s) as [a' b'] eqn:E. intros [= <- <-].
      destruct (IH a' b' eq_refl) as [-> Hall]. split; [reflexivity|].
      cbn. by rewrite Hc, Hall.
    + intros [= <- <-]. by split.
Qed.

Lemma count_char_app (c : ascii) (a b : string) :
  count_char c (a +:+ b) = (count_char c a + count_char c b)%nat.
Proof. induction a as [|x a IH]; [reflexivity|]. simpl. rewrite IH. lia. Qed.

Lemma count_char_cons (c x : ascii) (s : string) :
  count_char c (String x s)
  = ((if Ascii.eqb x c then 1 else 0) + count_char c s)%nat.
Proof. reflexivity. Qed.

Lemma count_char_outside (p : ascii -> bool) (c : ascii) (s : string) :
  forallb p (list_ascii_of_string s) = true -> p c = false ->
  count_char c s = 0%nat.
Proof.
  intros Hall Hc. induction s as [|x s IH]; [reflexivity|].
  simpl in Hall. apply andb_true_iff in Hall as [Hx Hs]. simpl.
  rewrite (IH Hs). destruct (Ascii.eqb_spec x c) as [->|_]; [congruence | reflexivity].
Qed.

(** X9: The identity route accepts an address only if it has exactly one [@],
    a non-empty part before it, and after it a non-empty label, one dot,
    and at least two letters, followed by nothing but possibly a newline:
    an address in a subdomain, such as [user@mail.example.org], is
    refused. *)
Theorem accepted_email_shape (email : string) :
  PyStr.matches_email email = true ->
  ∃ local host tld tail : string,
    email = local +:+ "@" +:+ host +:+ "." +:+ tld +:+ tail ∧
    local ≠ "" ∧ host ≠ "" ∧ (2 <= String.length tld)%nat ∧
    forallb PyStr.isletter (list_ascii_of_string tld) = true ∧
    PyStr.at_end tail = true ∧
    count_char "@" email = 1%nat ∧
    count_char "." (host +:+ "." +:+ tld +:+ tail) = 1%nat.
Proof.
  unfold PyStr.matches_email.
  set (p1 := fun c => PyStr.isword c || Ascii.eqb c "." || Ascii.eqb c "+"
                      || Ascii.eqb c "-").
  set (p2 := fun c => PyStr.isword c || Ascii.eqb c "-").
  destruct (PyStr.span p1 email) as [local r1] eqn:E1.
  destruct local as [|l0 local]; [discriminate|].
  destruct r1 as [|c1 r1]; [discriminate|].
  destruct (Ascii.eqb_spec c1 "@") as [->|Hc1].
  2: { intros H. exfalso. revert H.
       destruct c1 as [[] [] [] [] [] [] [] []]; try discriminate. by destruct Hc1. }
  cbv iota beta.
  destruct (PyStr.span p2 r1) as [host r2] eqn:E2.
  destruct host as [|h0 host]; [discriminate|].
  destruct r2 as [|c2 r2]; [discriminate|].
  destruct (Ascii.eqb_spec c2 ".") as [->|Hc2].
  2: { intros H. exfalso. revert H.
       destruct c2 as [[] [] [] [] [] [] [] []]; try discriminate. by destruct Hc2. }
  cbv iota beta.
  destruct (PyStr.span PyStr.isletter r2) as [tld tail] eqn:E3.
  intros H. apply andb_true_iff in H as [Hlen Hend].
  apply Nat.leb_le in Hlen.
  apply span_spec in E1 as [-> A1]. apply span_spec in E2 as [-> A2].
  apply span_spec in E3 as [-> A3].
  exists (String l0 local), (String h0 host), tld, tail.
  assert (T0 : ∀ c, c = "@"%char ∨ c = "."%char -> count_char c tail = 0%nat).
  { intros c Hc. destruct tail as [|t tail]; [reflexivity|].
    destruct tail; [|discriminate Hend]. cbn in Hend.
    apply Ascii.eqb_eq in Hend as ->. destruct Hc as [->| ->]; reflexivity. }
  repeat split; try done.
  - rewrite !count_char_app.
    rewrite (count_char_outside p1 "@" _ A1 eq_refl).
    rewrite count_char_cons, !count_char_app.
    rewrite (count_char_outside p2 "@" _ A2 eq_refl).
    rewrite count_char_cons, !count_char_app.
    rewrite (count_char_outside PyStr.isletter "@" _ A3 eq_refl).
    rewrite T0 by auto. reflexivity.
  - rewrite !count_char_app.
    rewrite (count_char_outside p2 "." _ A2 eq_refl).
    rewrite (count_char_outside PyStr.isletter "." _ A3 eq_refl).
    rewrite T0 by auto. reflexivity.
Qed.

Lemma accepted_email_shape_witness :
  ∃ local host tld tail : string,
    "asha.verma@example.org" = local +:+ "@" +:+ host +:+ "." +:+ tld +:+ tail ∧
    count_char "@" "asha.verma@example.org" = 1%nat.
Proof.
  destruct (accepted_email_shape "asha.verma@example.org" eq_refl)
    as (local & host & tld & tail & E & _ & _ & _ & _ & _ & C & _).
  exists local, host, tld, tail. split; [exact E | exact C].
Defined.

Example subdomain_address_refused :
  PyStr.matches_email "user@mail.example.org" = false
  ∧ PyStr.matches_email "user@example.org" = true.
Proof. split; reflexivity. Qed.

(** ** OTP *)

Lemma string_eqb_refl_true (s : string) : String.eqb s s = true.
Proof. apply String.eqb_refl. Qed.

(** X10: Storing a hash and presenting the same hash verifies.  For an existing
    application, [otp_store] followed by [otp_verify] with the same form
    answers verified and sets the row's OTP flag, after which the OTP rule
    deducts nothing; presenting another hash answers incorrect and leaves
    the row as it was. *)
Theorem otp_round_trip (data : otp_form) (b : backend) (app_id hash : string)
    (row : App.row) :
  str_or_else (sess_app_id (sess (tables b))) (otp_application_id data)
    = Some app_id ->
  app_id ≠ "" ->
  otp_hash data = Some hash -> hash ≠ "" ->
  applications (tables b) !! app_id = Some row ->
  let b1 := snd (otp_store data b) in
  fst (otp_store data b) = OtpStored ∧
  otp_hashes b1 !! app_id = Some hash ∧
  fst (otp_verify data b1) = OtpVerified ∧
  applications (tables (snd (otp_verify data b1))) !! app_id
    = Some (set_otp_verified row) ∧
  (∀ st : scoring,
     rule_otp (set_otp_verified row) st
     = append (mk_signal "OTP Verification" 0 "Mobile/email OTP verified") st) ∧
  ∀ other : string,
    other ≠ "" -> other ≠ hash ->
    fst (otp_verify (mk_otp_form (otp_application_id data) (Some other)) b1)
      = OtpIncorrect ∧
    applications
      (tables (snd (otp_verify (mk_otp_form (otp_application_id data) (Some other))
                      b1))) !! app_id = Some row.
Proof.
  intros Hid Hne Hh Hhne Hrow b1.
  assert (Hstore : otp_store data b
                   = (OtpStored,
                      mk_backend
                        (with_log app_id "OTP_GENERATED" "OTP hash stored in DB"
                           (with_applications (applications (tables b)) (tables b)))
                        (<[app_id := hash]> (otp_hashes b)) (admin_users b)
                        (chat_messages b))).
  { unfold otp_store. rewrite Hh, Hid.
    destruct hash as [|c0 r0]; [done|]. destruct app_id as [|c1 r1]; [done|].
    destruct (PyStr.startswith "NXB-OFFLINE" (String c1 r1)); rewrite ?Hrow;
      reflexivity. }
  subst b1. rewrite Hstore. cbn [fst snd].
  set (b1 := mk_backend
               (with_log app_id "OTP_GENERATED" "OTP hash stored in DB"
                  (with_applications (applications (tables b)) (tables b)))
               (<[app_id := hash]> (otp_hashes b)) (admin_users b)
               (chat_messages b)).
  split; [reflexivity|]. split; [apply lookup_insert_eq|].
  assert (Hverify : ∀ presented : string,
            presented ≠ "" ->
            otp_verify (mk_otp_form (otp_application_id data) (Some presented)) b1
            = if negb (String.eqb hash presented)
              then (OtpIncorrect,
                    with_tables
                      (with_log app_id "OTP_FAILED" "Incorrect OTP entered"
                         (tables b1)) b1)
              else (OtpVerified,
                    with_tables
                      (with_log app_id "OTP_VERIFIED" "OTP verified successfully"
                         (update_application app_id set_otp_verified (tables b1)))
                      b1)).
  { intros presented Hp. unfold otp_verify.
    cbn [b1 otp_hash otp_application_id tables with_log with_applications sess
         applications otp_hashes].
    rewrite Hid. destruct presented as [|p0 pr]; [done|].
    destruct app_id as [|c1 r1]; [done|]. rewrite Hrow, lookup_insert_eq.
    destruct hash as [|c0 r0]; [done|]. reflexivity. }
  split; [|split; [|split]].
  - replace data with (mk_otp_form (otp_application_id data) (Some hash))
      by (destruct data; cbn in *; by subst).
    rewrite (Hverify hash Hhne), string_eqb_refl_true. reflexivity.
  - replace data with (mk_otp_form (otp_application_id data) (Some hash))
      by (destruct data; cbn in *; by subst).
    rewrite (Hverify hash Hhne), string_eqb_refl_true. cbn [negb snd tables with_tables].
    cbn [with_log applications]. rewrite lookup_update_application.
    rewrite decide_True by done. unfold b1.
    cbn [tables with_log with_applications applications].
    by rewrite Hrow.
  - intros st. reflexivity.
  - intros other Ho Hoh. rewrite (Hverify other Ho).
    destruct (String.eqb_spec hash other) as [->|_]; [done|].
    unfold b1.
    cbn [negb fst snd tables with_tables with_log with_applications applications].
    split; [reflexivity | exact Hrow].
Qed.

Lemma otp_round_trip_witness :
  let b := mk_backend Scenario.onboarding ∅ [] [] in
  let data := mk_otp_form None (Some "5e884898da28047151d0e56f8dc62927") in
  fst (otp_verify data (snd (otp_store data b))) = OtpVerified ∧
  App.otp_verified
    <$> applications (tables (snd (otp_verify data (snd (otp_store data b)))))
        !! "NXB-1A2B3C4D" = Some (Some 1).
Proof.
  intros b data.
  destruct (otp_round_trip data b "NXB-1A2B3C4D" "5e884898da28047151d0e56f8dc62927"
              Samples.adult eq_refl ltac:(discriminate) eq_refl ltac:(discriminate)
              eq_refl) as (_ & _ & Hv & Hrow & _).
  split; [exact Hv|]. rewrite Hrow. reflexivity.
Defined.

(** X11: [otp_verify] marks an application verified only for the stored hash.
    Whatever the request, the table of applications stays as it was unless
    the presented hash equals the non-empty hash stored for an existing
    application, in which case only that row's OTP flag is set.  The answer
    verified is given in that case, and besides only for an id beginning
    with NXB-OFFLINE that is not in the table, where nothing is written. *)
Theorem otp_verify_sound (data : otp_form) (b : backend) :
  let r := otp_verify data b in
  (applications (tables (snd r)) = applications (tables b)
   ∨ ∃ app_id hash : string,
       hash ≠ "" ∧ otp_hash data = Some hash ∧
       otp_hashes b !! app_id = Some hash ∧
       is_Some (applications (tables b) !! app_id) ∧
       applications (tables (snd r))
       = alter set_otp_verified app_id (applications (tables b))) ∧
  (fst r = OtpVerified ->
   ∃ app_id hash : string,
     app_id ≠ "" ∧ otp_hash data = Some hash ∧
     str_or_else (sess_app_id (sess (tables b))) (otp_application_id data)
       = Some app_id ∧
     ((otp_hashes b !! app_id = Some hash
       ∧ is_Some (applications (tables b) !! app_id))
      ∨ (applications (tables b) !! app_id = None
         ∧ PyStr.startswith "NXB-OFFLINE" app_id = true ∧ snd r = b))) ∧
  otp_hashes (snd r) = otp_hashes b ∧
  documents (tables (snd r)) = documents (tables b).
Proof.
  cbv zeta. unfold otp_verify.
  destruct (otp_hash data) as [[|c0 r0]|] eqn:Hh;
    [repeat split; auto; discriminate| |repeat split; auto; discriminate].
  destruct (str_or_else _ _) as [[|c1 r1]|] eqn:Hid;
    [repeat split; auto; discriminate| |repeat split; auto; discriminate].
  set (app_id := String c1 r1) in *.
  destruct (applications (tables b) !! app_id) as [row|] eqn:Hrow.
  - destruct (otp_hashes b !! app_id) as [[|s0 sr]|] eqn:Hs;
      [repeat split; auto; discriminate| |repeat split; auto; discriminate].
    destruct (String.eqb_spec (String s0 sr) (String c0 r0)) as [E|NE];
      cbn [negb fst snd].
    + rewrite E in Hs. split; [|split; [|split; reflexivity]].
      * right. exists app_id, (String c0 r0).
        split; [discriminate|]. split; [reflexivity|]. split; [exact Hs|].
        split; [by eexists | reflexivity].
      * intros _. exists app_id, (String c0 r0).
        split; [discriminate|]. split; [reflexivity|]. split; [reflexivity|].
        left. split; [exact Hs | by eexists].
    + split; [by left|]. split; [discriminate|]. split; reflexivity.
  - destruct (PyStr.startswith "NXB-OFFLINE" app_id) eqn:Hoff; cbn [fst snd].
    + split; [by left|]. split; [|split; reflexivity].
      intros _. exists app_id, (String c0 r0).
      split; [discriminate|]. split; [reflexivity|]. split; [reflexivity|].
      right. split; [exact Hrow|]. split; [exact Hoff | reflexivity].
    + split; [by left|]. split; [discriminate|]. split; reflexivity.
Qed.

Lemma otp_verify_sound_witness :
  ∃ app_id hash : string,
    otp_hash (mk_otp_form (Some "NXB-OFFLINE-7") (Some "abc")) = Some hash ∧
    applications (tables (mk_backend
                            (with_session (mk_session None false None)
                               Scenario.onboarding) ∅ [] [])) !! app_id = None ∧
    PyStr.startswith "NXB-OFFLINE" app_id = true.
Proof.
  destruct (otp_verify_sound (mk_otp_form (Some "NXB-OFFLINE-7") (Some "abc"))
              (mk_backend (with_session (mk_session None false None)
                             Scenario.onboarding) ∅ [] []))
    as (_ & H & _).
  destruct (H eq_refl) as (app_id & hash & _ & Hh & _ & [[Hs _]|(Hn & Ho & _)]).
  - discriminate Hs.
  - exists app_id, hash. split; [exact Hh|]. split; [exact Hn | exact Ho].
Defined.

(** ** Reviewers *)

(** X12: Decisions need a login, and a login needs the stored credentials.
    [admin_login] succeeds only for a user of [admin_users] with the given
    name (stripped) and the hash of the given password, and then opens the
    session under that name; a failed login changes nothing.  Without an open
    reviewer session, in particular after [admin_logout], [admin_decision]
    answers 401 and leaves the state as it was. *)
Theorem decisions_need_login (hash_pw : string -> string)
    (username password : option string) (data : decision_request) (b : backend) :
  let r := admin_login hash_pw username password b in
  (∀ user : admin_user,
     fst r = Some user ->
     user ∈ admin_users b ∧
     au_username user = Py.strip (Py.str_or username "") ∧
     au_password_hash user = hash_pw (Py.str_or password "") ∧
     admin_logged_in (sess (tables (snd r))) = true ∧
     admin_username (sess (tables (snd r))) = Some (au_username user) ∧
     applications (tables (snd r)) = applications (tables b)) ∧
  (fst r = None -> snd r = b) ∧
  (admin_logged_in (sess (tables b)) = false ->
   admin_decision data (tables b) = (Error 401 "Unauthorized. Please login.", tables b)) ∧
  admin_decision data (tables (admin_logout (snd r)))
  = (Error 401 "Unauthorized. Please login.", tables (admin_logout (snd r))).
Proof.
  cbv zeta. unfold admin_login.
  set (u := Py.strip (Py.str_or username "")).
  set (p := hash_pw (Py.str_or password "")).
  split; [|split; [|split]].
  - destruct (find_admin u p (admin_users b)) as [user|] eqn:F; [|discriminate].
    intros user' [= <-]. unfold find_admin in F.
    apply head_Some_elem_of in F. apply list_elem_of_filter in F as [[Hu Hp] Hin].
    cbn [snd with_tables tables with_session sess applications admin_logged_in
         admin_username].
    repeat split; auto.
  - destruct (find_admin u p (admin_users b)); [discriminate | reflexivity].
  - intros H. unfold admin_decision. by rewrite H.
  - reflexivity.
Qed.

Lemma decisions_need_login_witness :
  let users := [mk_admin_user "reviewer" "h:reviewer123" "KYC Reviewer" "reviewer"] in
  let b := mk_backend Scenario.onboarding ∅ users [] in
  ∃ user : admin_user,
    fst (admin_login (fun pw => "h:" +:+ pw) (Some " reviewer ") (Some "reviewer123") b)
      = Some user ∧
    user ∈ users ∧
    admin_logged_in
      (sess (tables (snd (admin_login (fun pw => "h:" +:+ pw) (Some " reviewer ")
                            (Some "reviewer123") b)))) = true.
Proof.
  intros users b.
  destruct (decisions_need_login (fun pw => "h:" +:+ pw) (Some " reviewer ")
              (Some "reviewer123") (mk_decision_request None None None) b)
    as (H & _).
  eexists. split; [reflexivity|].
  destruct (H _ eq_refl) as (Hin & _ & _ & Hlog & _). split; [exact Hin | exact Hlog].
Defined.

Lemma status_of_decision_cases (decision : string) :
  dict_get status_of_decision (Some decision) "Pending" ∈ recognised_status.
Proof.
  unfold dict_get, recognised_status. cbn [mbind option_bind].
  destruct (status_of_decision !! decision) as [st|] eqn:E; cbn [default];
    [|set_solver].
  unfold status_of_decision in E.
  apply lookup_insert_Some in E as [[_ <-]|[_ E]]; [set_solver|].
  apply lookup_insert_Some in E as [[_ <-]|[_ E]]; [set_solver|].
  apply lookup_singleton_Some in E as [_ <-]. set_solver.
Qed.

(** X13: What a decision leaves alone.  Whatever the request, [admin_decision]
    never touches the documents, the session or another application, and in
    the application it decides it changes the status and the account number
    only: date of birth, address, biometric score, OTP flag, score, tier,
    signals, rationale and the routing code stay as they were, so that an
    application approved by a reviewer after an escalation has an account
    number and no routing code.  It records at most one decision. *)
Theorem admin_decision_frame (data : decision_request) (s : state) :
  let s' := snd (admin_decision data s) in
  documents s' = documents s ∧ sess s' = sess s ∧
  (∀ other : string,
     req_application_id data ≠ Some other ->
     applications s' !! other = applications s !! other) ∧
  (∀ (app_id : string) (row' : App.row),
     applications s' !! app_id = Some row' ->
     ∃ row : App.row,
       applications s !! app_id = Some row ∧
       App.id row' = App.id row ∧ App.dob row' = App.dob row ∧
       App.email row' = App.email row ∧ App.face_score row' = App.face_score row ∧
       App.otp_verified row' = App.otp_verified row ∧
       App.risk_score row' = App.risk_score row ∧
       App.risk_level row' = App.risk_level row ∧
       App.risk_signals row' = App.risk_signals row ∧
       App.risk_reason row' = App.risk_reason row ∧
       App.ifsc row' = App.ifsc row) ∧
  (admin_decisions s' = admin_decisions s
   ∨ ∃ rec : decision_row, admin_decisions s' = admin_decisions s ++ [rec]).
Proof.
  cbv zeta. unfold admin_decision.
  destruct (admin_logged_in (sess s)); cbn [negb];
    [|repeat split; eauto 15].
  destruct (req_application_id data) as [[|c1 r1]|];
    [repeat split; eauto 15| |repeat split; eauto 15].
  destruct (req_decision data) as [[|c2 r2]|];
    [repeat split; eauto 15| |repeat split; eauto 15].
  set (app_id := String c1 r1). set (decision := String c2 r2).
  destruct (applications s !! app_id) as [row|] eqn:Hrow;
    [|repeat split; eauto 15].
  destruct (String.eqb decision "Approved" && negb (Py.truthy_str (App.account_number row)));
    [destruct (new_account_number (random s)) as [n g]|];
    cbn [snd documents sess applications admin_decisions];
    (split; [reflexivity|]; split; [reflexivity|]; split; [|split; [|eauto]]).
  all: try (intros other Ho; rewrite lookup_insert_ne; [reflexivity | congruence]).
  all: intros k row' Hk;
    destruct (decide (app_id = k)) as [<-|Hne];
    [rewrite lookup_insert_eq in Hk; injection Hk as <-; exists row;
     repeat split; auto
    |rewrite lookup_insert_ne in Hk by done; exists row'; repeat split; auto].
Qed.

Lemma admin_decision_frame_witness :
  ∃ row' : App.row,
    applications
      (snd (admin_decision
              (mk_decision_request (Some "NXB-1A2B3C4D") (Some "Approved") None)
              (Samples.server Samples.minor [] true))) !! "NXB-1A2B3C4D" = Some row' ∧
    App.ifsc row' = None ∧ App.status row' = Some "Approved" ∧
    ∃ n : string, App.account_number row' = Some n.
Proof.
  destruct (admin_decision_frame
              (mk_decision_request (Some "NXB-1A2B3C4D") (Some "Approved") None)
              (Samples.server Samples.minor [] true)) as (_ & _ & _ & H & _).
  eexists. split; [reflexivity|].
  destruct (H "NXB-1A2B3C4D" _ eq_refl) as (row & Hrow & _).
  vm_compute. repeat split. by eexists.
Defined.

(** ** Evaluation and decision together *)

Lemma compute_risk_inputs (json_loads : string -> option pyval)
    (now : Datetime.datetime) (a b : App.row) (doc_rows : list Doc.row) :
  App.dob a = App.dob b -> App.email a = App.email b ->
  App.face_score a = App.face_score b -> App.otp_verified a = App.otp_verified b ->
  compute_risk json_loads now a doc_rows = compute_risk json_loads now b doc_rows.
Proof.
  destruct a, b. cbn [App.dob App.email App.face_score App.otp_verified].
  intros -> -> -> ->. reflexivity.
Qed.

Lemma admin_decision_recorded (data : decision_request) (s : state)
    (app_id decision : string) (row : App.row) :
  admin_logged_in (sess s) = true ->
  req_application_id data = Some app_id -> app_id ≠ "" ->
  req_decision data = Some decision -> decision ≠ "" ->
  applications s !! app_id = Some row ->
  ∃ (row' : App.row) (s' : state),
    snd (admin_decision data s) = s' ∧
    applications s' = <[app_id := row']> (applications s) ∧
    documents s' = documents s ∧ sess s' = sess s ∧
    App.dob row' = App.dob row ∧ App.email row' = App.email row ∧
    App.face_score row' = App.face_score row ∧
    App.otp_verified row' = App.otp_verified row ∧
    App.status row'
    = Some (dict_get status_of_decision (Some decision) "Pending").
Proof.
  intros Hlog Hid Hne Hdec Hne' Hrow. unfold admin_decision.
  rewrite Hlog, Hid, Hdec. cbn [negb].
  destruct app_id as [|c1 r1]; [done|]. destruct decision as [|c2 r2]; [done|].
  rewrite Hrow.
  destruct (String.eqb (String c2 r2) "Approved"
            && negb (Py.truthy_str (App.account_number row)));
    [destruct (new_account_number (random s)) as [n g]|];
    eexists _, _; (split; [reflexivity|]); cbn [applications documents sess];
    repeat split.
Qed.

(** X14: A later evaluation ignores the reviewer.  After a recorded decision, an
    evaluation of the same application returns the score, tier, signals,
    rationale and status that an evaluation without the decision returns at
    the same moment, and stores that status: one of Approved, Pending and
    Escalated, so that a rejection does not survive a re-evaluation. *)
Theorem evaluation_ignores_decision (json_loads : string -> option pyval)
    (now : Datetime.datetime) (uuid4_hex : string) (requested : option string)
    (data : decision_request) (s : state) (app_id decision : string)
    (row : App.row) :
  admin_logged_in (sess s) = true ->
  req_application_id data = Some app_id -> app_id ≠ "" ->
  req_decision data = Some decision -> decision ≠ "" ->
  applications s !! app_id = Some row ->
  str_or_else (sess_app_id (sess s)) requested = Some app_id ->
  Forall (flags_well_typed json_loads) (documents_of app_id s) ->
  ∃ (body0 body : risk_body) (s0 s1 : state) (row1 : App.row),
    risk_evaluate json_loads now uuid4_hex requested s = (Return (Ok body0), s0) ∧
    risk_evaluate json_loads now uuid4_hex requested (snd (admin_decision data s))
      = (Return (Ok body), s1) ∧
    rb_risk_score body = rb_risk_score body0 ∧
    rb_risk_level body = rb_risk_level body0 ∧
    rb_signals body = rb_signals body0 ∧
    rb_risk_reason body = rb_risk_reason body0 ∧
    rb_status body = rb_status body0 ∧
    applications s1 !! app_id = Some row1 ∧
    App.status row1 = Some (rb_status body) ∧
    rb_status body ∈ ["Approved"; "Pending"; "Escalated"].
Proof.
  intros Hlog Hid Hne Hdec Hne' Hrow Hreq W.
  destruct (admin_decision_recorded data s app_id decision row Hlog Hid Hne Hdec
              Hne' Hrow)
    as (row' & s' & -> & Happs & Hdocs & Hsess & Hd & He & Hf & Ho & _).
  assert (Hrow' : applications s' !! app_id = Some row')
    by (rewrite Happs; apply lookup_insert_eq).
  assert (Hdocs' : filter (fun d => Doc.application_id d = app_id) (documents s')
                   = documents_of app_id s) by (by rewrite Hdocs).
  assert (W' : Forall (flags_well_typed json_loads)
                 (filter (fun d => Doc.application_id d = app_id) (documents s')))
    by (by rewrite Hdocs').
  unfold risk_evaluate.
  rewrite (ensure_application_known uuid4_hex requested s app_id Hreq Hne).
  rewrite (ensure_application_known uuid4_hex requested s' app_id)
    by (by rewrite ?Hsess).
  destruct (evaluate_application_result json_loads now app_id s row Hrow W)
    as (r0 & st0 & acc0 & ifsc0 & g0 & C0 & Cases0 & ->).
  destruct (evaluate_application_result json_loads now app_id s' row' Hrow' W')
    as (r & st & acc & ifsc & g & C & Cases & ->).
  rewrite Hdocs' in C. unfold documents_of in C.
  rewrite (compute_risk_inputs json_loads now row' row _ Hd He Hf Ho) in C.
  rewrite C0 in C. injection C as <-.
  eexists _, _, _, _, _. split; [reflexivity|]. split; [reflexivity|].
  cbn [rb_risk_score rb_risk_level rb_signals rb_risk_reason rb_status applications].
  rewrite lookup_insert_eq.
  assert (Hst : st = st0 ∧ st ∈ ["Approved"; "Pending"; "Escalated"]).
  { destruct Cases0 as [(L0 & -> & _)|[(L0 & -> & _)|(L0 & -> & _)]];
      destruct Cases as [(L & -> & _)|[(L & -> & _)|(L & -> & _)]];
      rewrite L0 in L; try discriminate L; split; try reflexivity; set_solver. }
  destruct Hst as [-> Hin]. repeat split; auto.
Qed.

Lemma evaluation_ignores_decision_witness :
  ∃ (body : risk_body) (s1 : state),
    risk_evaluate FlagJson.loads Samples.now Samples.uuid4_hex None
      (snd (admin_decision
              (mk_decision_request (Some "NXB-1A2B3C4D") (Some "Rejected")
                 (Some "name mismatch"))
              (Samples.server Samples.adult [Samples.clean_doc] true)))
    = (Return (Ok body), s1) ∧
    rb_status body ∈ ["Approved"; "Pending"; "Escalated"].
Proof.
  destruct (evaluation_ignores_decision FlagJson.loads Samples.now Samples.uuid4_hex
              None
              (mk_decision_request (Some "NXB-1A2B3C4D") (Some "Rejected")
                 (Some "name mismatch"))
              (Samples.server Samples.adult [Samples.clean_doc] true)
              "NXB-1A2B3C4D" "Rejected" Samples.adult)
    as (body0 & body & s0 & s1 & row1 & _ & E & _ & _ & _ & _ & _ & _ & _ & Hin).
  - reflexivity.
  - reflexivity.
  - discriminate.
  - reflexivity.
  - discriminate.
  - reflexivity.
  - reflexivity.
  - repeat constructor. exists []. reflexivity.
  - exists body, s1. split; [exact E | exact Hin].
Defined.

(** ** An evaluation nobody asked an application for *)

Lemma compute_risk_fresh (json_loads : string -> option pyval)
    (now : Datetime.datetime) (app_id : string) :
  compute_risk json_loads now (fresh_application app_id) []
  = Return (mk_risk_result 55 "Medium"
              [mk_signal "Age Gate" (-10) "DOB parse error";
               mk_signal "Biometric Match" (-15) "No biometric data";
               mk_signal "OTP Verification" (-20) "OTP not verified"]
              "Partial verification with minor issues. DOB parse error. No biometric data. OTP not verified").
Proof. reflexivity. Qed.

(** X15: A request for evaluation that names no application, in a session without
    one, does not fail: the route creates an application under the id
    derived from the UUID (when that id is free and no document bears it),
    evaluates the empty row to score 55 and tier Medium, answers status
    Pending, and issues an account number and the routing code to it. *)
Theorem unnamed_evaluation_opens_account (json_loads : string -> option pyval)
    (now : Datetime.datetime) (uuid4_hex : string) (requested : option string)
    (s : state) :
  let app_id := "NXB-" +:+ Py.upper (Py.slice 0 8 uuid4_hex) in
  Py.truthy_str (str_or_else (sess_app_id (sess s)) requested) = false ->
  applications s !! app_id = None ->
  documents_of app_id s = [] ->
  ∃ (body : risk_body) (s' : state) (row' : App.row),
    risk_evaluate json_loads now uuid4_hex requested s = (Return (Ok body), s') ∧
    rb_risk_score body = 55 ∧ rb_risk_level body = "Medium" ∧
    rb_status body = "Pending" ∧
    rb_account_number body = Some (fst (new_account_number (random s))) ∧
    rb_ifsc body = Some "NXBA0001234" ∧
    sess_app_id (sess s') = Some app_id ∧
    applications s' !! app_id = Some row' ∧
    App.account_number row' = rb_account_number body ∧
    App.status row' = Some "Pending".
Proof.
  intros app_id Hfalsy Hnone Hdocs.
  unfold risk_evaluate, ensure_application. fold app_id.
  assert (E : match str_or_else (sess_app_id (sess s)) requested with
              | Some (String _ _) => False
              | _ => True
              end).
  { destruct (str_or_else _ _) as [[|c r]|]; try exact I. discriminate Hfalsy. }
  rewrite Hnone.
  set (s1 := mk_state (<[app_id := fresh_application app_id]> (applications s))
               (documents s) (admin_decisions s) _ _ (random s)).
  assert (Ev : evaluate_application json_loads now app_id s1
               = evaluate_application json_loads now app_id s1) by reflexivity.
  unfold evaluate_application at 2 in Ev.
  cbn [s1 applications documents random] in Ev.
  rewrite lookup_insert_eq in Ev.
  change (filter (fun d => Doc.application_id d = app_id) (documents s))
    with (documents_of app_id s) in Ev.
  rewrite Hdocs, compute_risk_fresh in Ev.
  cbn [level score signals reason] in Ev.
  change (bool_decide ("Medium" ∈ ["Low"; "Medium"])) with true in Ev.
  change (status_of_level !! "Medium") with (Some "Pending") in Ev.
  destruct (new_account_number (random s)) as [n g] eqn:G.
  destruct (str_or_else (sess_app_id (sess s)) requested) as [[|c r]|];
    try contradiction; rewrite Ev;
    eexists _, _, _; (split; [reflexivity|]);
    cbn [rb_risk_score rb_risk_level rb_status rb_account_number rb_ifsc sess
         sess_app_id applications];
    rewrite lookup_insert_eq; repeat split.
Qed.

Lemma unnamed_evaluation_opens_account_witness :
  ∃ (body : risk_body) (s' : state),
    risk_evaluate FlagJson.loads Samples.now Samples.uuid4_hex None
      (with_session (mk_session None false None) Scenario.onboarding)
    = (Return (Ok body), s') ∧
    rb_status body = "Pending" ∧
    rb_account_number body = Some "3074 1852 9630" ∧
    sess_app_id (sess s') = Some "NXB-9F1C2E7A".
Proof.
  destruct (unnamed_evaluation_opens_account FlagJson.loads Samples.now
              Samples.uuid4_hex None
              (with_session (mk_session None false None) Scenario.onboarding)
              eq_refl eq_refl eq_refl)
    as (body & s' & row' & E & _ & _ & Hst & Hacc & _ & Hsess & _).
  exists body, s'. split; [exact E|]. split; [exact Hst|]. split; [exact Hacc|].
  exact Hsess.
Defined.

(** * What every request preserves *)

Ltac in_list := rewrite ?elem_of_cons; auto 10.

Ltac appended := first [reflexivity | by eexists].

Lemma row_ok_fresh (app_id : string) : row_ok app_id (fresh_application app_id).
Proof.
  constructor; cbn; auto; try discriminate.
  exists "In Progress". split; [reflexivity|]. unfold recognised_status. in_list.
Qed.

Lemma rows_ok_alter (f : App.row -> App.row) (k : string) (m : gmap string App.row) :
  map_Forall row_ok m ->
  (∀ r, row_ok k r -> row_ok k (f r)) ->
  map_Forall row_ok (alter f k m).
Proof.
  intros Hm Hf. apply map_Forall_lookup. intros i x Hx.
  rewrite lookup_alter in Hx. destruct (decide (k = i)) as [<-|].
  - destruct (m !! k) as [r|] eqn:E; [|discriminate]. injection Hx as <-.
    apply Hf. by apply (map_Forall_lookup_1 _ _ _ _ Hm E).
  - by apply (map_Forall_lookup_1 _ _ _ _ Hm Hx).
Qed.

Lemma keeps_refl (s : state) : keeps s s.
Proof. by repeat split. Qed.

Ltac unchanged := split; [apply keeps_refl | exact id].

Lemma keeps_trans (a b c : state) : keeps a b -> keeps b c -> keeps a c.
Proof.
  intros (A1 & D1 & E1 & L1) (A2 & D2 & E2 & L2).
  repeat split; [auto | by etrans | by etrans | by etrans].
Qed.

Lemma keeps_insert (app_id : string) (r : App.row) (s s' : state) :
  applications s' = <[app_id := r]> (applications s) ->
  documents s `prefix_of` documents s' ->
  admin_decisions s `prefix_of` admin_decisions s' ->
  audit_log s `prefix_of` audit_log s' ->
  keeps s s'.
Proof.
  intros Ha Hd He Hl. repeat split; try assumption.
  intros k Hk. rewrite Ha. destruct (decide (app_id = k)) as [<-|].
  - rewrite lookup_insert_eq. by eexists.
  - by rewrite lookup_insert_ne.
Qed.

Lemma keeps_alter (app_id : string) (f : App.row -> App.row) (s s' : state) :
  applications s' = alter f app_id (applications s) ->
  documents s `prefix_of` documents s' ->
  admin_decisions s `prefix_of` admin_decisions s' ->
  audit_log s `prefix_of` audit_log s' ->
  keeps s s'.
Proof.
  intros Ha Hd He Hl. repeat split; try assumption.
  intros k [r Hk]. rewrite Ha, lookup_alter.
  destruct (decide (app_id = k)) as [<-|]; rewrite ?Hk; by eexists.
Qed.

Lemma keeps_same_rows (s s' : state) :
  applications s' = applications s ->
  documents s `prefix_of` documents s' ->
  admin_decisions s `prefix_of` admin_decisions s' ->
  audit_log s `prefix_of` audit_log s' ->
  keeps s s'.
Proof.
  intros Ha Hd He Hl. repeat split; try assumption. intros k. by rewrite Ha.
Qed.

Lemma auto_create_keeps (detail uuid4_hex : string) (requested : option string)
    (s s1 : state) (app_id : string) :
  auto_create detail uuid4_hex requested s = Return (app_id, s1) ->
  keeps s s1 ∧ (rows_ok s -> rows_ok s1).
Proof.
  unfold auto_create, rows_ok.
  destruct (str_or_else _ _) as [[|c r]|].
  2: { intros [= <- <-]. unchanged. }
  all: destruct (applications s !! _) eqn:E; [discriminate|];
    intros [= <- <-]; split;
    [eapply keeps_insert; [reflexivity|appended..]
    |intros H; apply map_Forall_insert_2; [apply row_ok_fresh | exact H]].
Qed.

Lemma ensure_application_keeps (uuid4_hex : string) (requested : option string)
    (s s1 : state) (app_id : string) :
  ensure_application uuid4_hex requested s = Return (app_id, s1) ->
  keeps s s1 ∧ (rows_ok s -> rows_ok s1).
Proof.
  unfold ensure_application, rows_ok.
  destruct (str_or_else _ _) as [[|c r]|].
  2: { intros [= <- <-]. unchanged. }
  all: destruct (applications s !! _) eqn:E; [discriminate|];
    intros [= <- <-]; split;
    [eapply keeps_insert; [reflexivity|appended..]
    |intros H; apply map_Forall_insert_2; [apply row_ok_fresh | exact H]].
Qed.

Lemma row_ok_set_identity (k dob email : string) (r : App.row) :
  row_ok k r -> row_ok k (set_identity dob email r).
Proof. intros []. by constructor. Qed.

Lemma row_ok_set_face_score (k : string) (f : Z) (r : App.row) :
  82 <= f <= 98 -> row_ok k r -> row_ok k (set_face_score f r).
Proof.
  intros Hf []. constructor; cbn; auto. intros f' [= <-]. lia.
Qed.

Lemma row_ok_set_otp_verified (k : string) (r : App.row) :
  row_ok k r -> row_ok k (set_otp_verified r).
Proof. intros []. constructor; cbn; auto. Qed.

Lemma submit_identity_keeps (now : Datetime.datetime) (uuid4_hex : string)
    (data : identity_form) (s : state) :
  keeps s (snd (submit_identity now uuid4_hex data s))
  ∧ (rows_ok s -> rows_ok (snd (submit_identity now uuid4_hex data s))).
Proof.
  unfold submit_identity.
  destruct (auto_create _ uuid4_hex _ s) as [[app_id s1]|e] eqn:A; [|unchanged].
  destruct (auto_create_keeps _ _ _ _ _ _ A) as [K1 H1].
  destruct (_ ++ _); [|by split].
  destruct (Datetime.strptime_ymd _) as [dob_dt|e]; [|destruct e; by split].
  destruct (_ <? 18); [by split|]. cbn [snd]. split.
  - eapply keeps_trans; [exact K1|].
    eapply keeps_alter; [reflexivity|appended..].
  - intros H. unfold rows_ok.
    cbn [with_log applications update_application with_applications].
    apply rows_ok_alter; [by apply H1|]. intros r. apply row_ok_set_identity.
Qed.

Lemma upload_document_keeps (json_dumps : list string -> string)
    (available : bool) (read : Ocr.recognition)
    (uuid4_hex doc_id file_hash : string) (form : upload_form) (s : state) :
  keeps s (snd (upload_document json_dumps available read uuid4_hex doc_id
                  file_hash form s))
  ∧ (rows_ok s ->
     rows_ok (snd (upload_document json_dumps available read uuid4_hex doc_id
                     file_hash form s))).
Proof.
  unfold upload_document.
  destruct (auto_create _ uuid4_hex _ s) as [[app_id s1]|e] eqn:A; [|unchanged].
  destruct (auto_create_keeps _ _ _ _ _ _ A) as [K1 H1].
  destruct (negb (bool_decide (_ ∈ ["Aadhaar"; "PAN"; "Passport"]))); [by split|].
  destruct (upf_filename form) as [[|c fn]|]; [by split| |by split].
  destruct (negb (bool_decide (_ ∈ ALLOWED_DOC))); [by split|].
  cbn [snd]. split; [|exact H1].
  eapply keeps_trans; [exact K1|]. apply keeps_same_rows; [reflexivity|appended..].
Qed.

Lemma upload_selfie_keeps (uuid4_hex : string) (requested : option string)
    (selfie : option (option string)) (s : state) :
  keeps s (snd (upload_selfie uuid4_hex requested selfie s))
  ∧ (rows_ok s -> rows_ok (snd (upload_selfie uuid4_hex requested selfie s))).
Proof.
  unfold upload_selfie.
  destruct (auto_create _ uuid4_hex _ s) as [[app_id s1]|e] eqn:A; [|unchanged].
  destruct (auto_create_keeps _ _ _ _ _ _ A) as [K1 H1].
  destruct selfie as [filename|]; [|by split].
  pose proof (randint_range 82 98 (random s1)) as R.
  destruct (randint 82 98 (random s1)) as [score g]. cbn [fst snd] in *. split.
  - eapply keeps_trans; [exact K1|].
    eapply keeps_alter; [reflexivity|appended..].
  - intros H. unfold rows_ok.
    cbn [with_log applications update_application with_applications with_random].
    apply rows_ok_alter; [by apply H1|]. intros r. apply row_ok_set_face_score. lia.
Qed.

Lemma compute_risk_result_shape (json_loads : string -> option pyval)
    (now : Datetime.datetime) (a : App.row) (doc_rows : list Doc.row)
    (r : risk_result) :
  compute_risk json_loads now a doc_rows = Return r ->
  0 <= score r <= 100 ∧ level r = level_of (score r).
Proof.
  rewrite compute_risk_unfold.
  destruct (document_rules json_loads doc_rows (100, [])) as [st|e]; [|discriminate].
  intros [= <-]. unfold result_of. cbn [score level]. split; [lia | reflexivity].
Qed.

Lemma evaluate_application_keeps (json_loads : string -> option pyval)
    (now : Datetime.datetime) (app_id : string) (s : state) :
  keeps s (snd (evaluate_application json_loads now app_id s))
  ∧ (rows_ok s -> rows_ok (snd (evaluate_application json_loads now app_id s))).
Proof.
  unfold evaluate_application.
  destruct (applications s !! app_id) as [row|] eqn:Hrow; [|unchanged].
  destruct (compute_risk json_loads now row _) as [r|e] eqn:C; [|unchanged].
  destruct (compute_risk_result_shape _ _ _ _ _ C) as [Hsc Hlv].
  pose proof (new_account_number_format (random s)) as F.
  destruct (new_account_number (random s)) as [n g]. cbn [fst] in F.
  assert (K : ∀ (st : string) (acc ifsc : option string),
            (∀ x, acc = Some x -> is_account_format x = true) ->
            st ∈ recognised_status ->
            (st = "Approved" -> is_Some acc) ->
            rows_ok s ->
            row_ok app_id
              (App.mk (App.id row) (App.dob row) (App.email row) (App.face_score row)
                 (App.otp_verified row) (Some (score r)) (Some (level r))
                 (Some (signals r)) (Some (reason r)) acc ifsc (Some st))).
  { intros st acc ifsc Hacc Hst Happ H.
    pose proof (map_Forall_lookup_1 _ _ _ _ H Hrow)
      as [Rid Rst Racc Rrisk Rface Rotp _].
    constructor; cbn; auto.
    - by exists st.
    - right. exists (score r). by rewrite Hlv.
    - intros [= ->]. by apply Happ. }
  destruct (level_of_three (score r)) as [L|[L|L]]; rewrite Hlv, L; cbn [snd].
  - change (bool_decide ("Low" ∈ ["Low"; "Medium"])) with true.
    change (status_of_level !! "Low") with (Some "Approved"). cbn [snd]. split.
    + eapply keeps_insert; [reflexivity|appended..].
    + intros H. apply map_Forall_insert_2; [|exact H]. rewrite <- L, <- Hlv.
      apply K; [by intros x [= <-] | unfold recognised_status; in_list
               | by eexists | exact H].
  - change (bool_decide ("Medium" ∈ ["Low"; "Medium"])) with true.
    change (status_of_level !! "Medium") with (Some "Pending"). cbn [snd]. split.
    + eapply keeps_insert; [reflexivity|appended..].
    + intros H. apply map_Forall_insert_2; [|exact H]. rewrite <- L, <- Hlv.
      apply K; [by intros x [= <-] | unfold recognised_status; in_list
               | by eexists | exact H].
  - change (bool_decide ("High" ∈ ["Low"; "Medium"])) with false.
    change (status_of_level !! "High") with (Some "Escalated"). cbn [snd]. split.
    + eapply keeps_insert; [reflexivity|appended..].
    + intros H. apply map_Forall_insert_2; [|exact H]. rewrite <- L, <- Hlv.
      apply K; [discriminate | unfold recognised_status; in_list
               | discriminate | exact H].
Qed.

Lemma risk_evaluate_keeps (json_loads : string -> option pyval)
    (now : Datetime.datetime) (uuid4_hex : string) (requested : option string)
    (s : state) :
  keeps s (snd (risk_evaluate json_loads now uuid4_hex requested s))
  ∧ (rows_ok s ->
     rows_ok (snd (risk_evaluate json_loads now uuid4_hex requested s))).
Proof.
  unfold risk_evaluate.
  destruct (ensure_application uuid4_hex requested s) as [[app_id s1]|e] eqn:A;
    [|unchanged].
  destruct (ensure_application_keeps _ _ _ _ _ A) as [K1 H1].
  destruct (evaluate_application_keeps json_loads now app_id s1) as [K2 H2].
  split; [by eapply keeps_trans | auto].
Qed.

Lemma approved_by_decision (decision : string) :
  dict_get status_of_decision (Some decision) "Pending" = "Approved" ->
  decision = "Approved".
Proof.
  unfold dict_get. cbn [mbind option_bind].
  destruct (status_of_decision !! decision) as [st|] eqn:E; cbn [default];
    [|discriminate].
  unfold status_of_decision in E.
  apply lookup_insert_Some in E as [[<- <-]|[_ E]]; [done|].
  apply lookup_insert_Some in E as [[_ <-]|[_ E]]; [discriminate|].
  apply lookup_singleton_Some in E as [_ <-]. discriminate.
Qed.

Lemma truthy_str_some (o : option string) :
  Py.truthy_str o = true -> is_Some o.
Proof. destruct o as [[|c r]|]; [discriminate | by eexists | discriminate]. Qed.

Lemma admin_decision_keeps (data : decision_request) (s : state) :
  keeps s (snd (admin_decision data s))
  ∧ (rows_ok s -> rows_ok (snd (admin_decision data s))).
Proof.
  unfold admin_decision.
  destruct (admin_logged_in (sess s)); cbn [negb]; [|unchanged].
  destruct (req_application_id data) as [[|c1 r1]|]; [unchanged| |unchanged].
  destruct (req_decision data) as [[|c2 r2]|]; [unchanged| |unchanged].
  set (app_id := String c1 r1). set (decision := String c2 r2).
  destruct (applications s !! app_id) as [row|] eqn:Hrow; [|unchanged].
  pose proof (new_account_number_format (random s)) as F.
  pose proof (status_of_decision_cases decision) as Hst.
  pose proof (approved_by_decision decision) as Happ.
  destruct (String.eqb decision "Approved") eqn:Ed;
    destruct (Py.truthy_str (App.account_number row)) eqn:Et; cbn [andb negb];
    try (destruct (new_account_number (random s)) as [n g]; cbn [fst] in F);
    cbn [snd]; (split; [eapply keeps_insert; [reflexivity|appended..]|]);
    intros H;
    pose proof (map_Forall_lookup_1 _ _ _ _ H Hrow)
      as [Rid Rst Racc Rrisk Rface Rotp Rapp];
    (apply map_Forall_insert_2; [|exact H]); constructor; cbn; auto;
    try (by eexists); try (by intros x [= <-]).
  - intros _. by apply truthy_str_some.
  - intros [= E]. apply Happ in E. rewrite E in Ed. discriminate.
  - intros [= E]. apply Happ in E. rewrite E in Ed. discriminate.
Qed.

Lemma on_tables_snd {A : Type} (route : state -> A * state) (b : backend) :
  snd (on_tables route b) = with_tables (snd (route (tables b))) b.
Proof. unfold on_tables. by destruct (route (tables b)). Qed.

Lemma consistent_tables (b : backend) (s' : state) :
  keeps (tables b) s' ->
  (rows_ok (tables b) -> rows_ok s') ->
  consistent b -> consistent (with_tables s' b).
Proof.
  intros (Ka & _) Hr [Hrows Hh]. split; [by apply Hr|].
  intros app_id hash E. destruct (Hh app_id hash E) as [Hne Hin].
  split; [exact Hne | by apply Ka].
Qed.

Lemma session_start_keeps (uuid4_hex : string) (b : backend) :
  keeps (tables b) (tables (snd (session_start uuid4_hex b)))
  ∧ (consistent b -> consistent (snd (session_start uuid4_hex b))).
Proof.
  unfold session_start.
  destruct (applications (tables b) !! _) eqn:E; [unchanged|]. cbn [snd tables].
  assert (K : keeps (tables b)
                (with_session
                   (mk_session (Some ("NXB-" +:+ Py.upper (Py.slice 0 8 uuid4_hex)))
                      (admin_logged_in (sess (tables b)))
                      (admin_username (sess (tables b))))
                   (with_log ("NXB-" +:+ Py.upper (Py.slice 0 8 uuid4_hex))
                      "SESSION_STARTED"
                      ("New application " +:+ "NXB-" +:+ Py.upper (Py.slice 0 8 uuid4_hex))
                      (with_applications
                         (<[ "NXB-" +:+ Py.upper (Py.slice 0 8 uuid4_hex) :=
                               fresh_application
                                 ("NXB-" +:+ Py.upper (Py.slice 0 8 uuid4_hex)) ]>
                            (applications (tables b))) (tables b))))).
  { eapply keeps_insert; [reflexivity|appended..]. }
  split; [exact K|]. intros [Hrows Hh]. split.
  - cbn. apply map_Forall_insert_2; [apply row_ok_fresh | exact Hrows].
  - intros app_id hash Eh. destruct (Hh app_id hash Eh) as [Hne Hin].
    split; [exact Hne|]. by apply K.
Qed.

Lemma otp_store_keeps (data : otp_form) (b : backend) :
  keeps (tables b) (tables (snd (otp_store data b)))
  ∧ (consistent b -> consistent (snd (otp_store data b))).
Proof.
  unfold otp_store.
  destruct (otp_hash data) as [[|c r]|]; [unchanged| |unchanged].
  destruct (str_or_else _ _) as [[|c' r']|]; [unchanged| |unchanged].
  set (app_id := String c' r'). set (hash := String c r).
  set (apps := if PyStr.startswith "NXB-OFFLINE" app_id then _ else _).
  assert (Ha : (∀ k, is_Some (applications (tables b) !! k) -> is_Some (apps !! k))
               ∧ (rows_ok (tables b) -> map_Forall row_ok apps)).
  { unfold apps. destruct (PyStr.startswith _ _); [|by split].
    destruct (applications (tables b) !! app_id) eqn:E; [by split|]. split.
    - intros k Hk. destruct (decide (app_id = k)) as [<-|].
      + rewrite lookup_insert_eq. by eexists.
      + by rewrite lookup_insert_ne.
    - intros H. apply map_Forall_insert_2; [apply row_ok_fresh | exact H]. }
  destruct Ha as [Ha Hr]. cbn [snd tables]. split.
  - repeat split; [exact Ha|appended..].
  - intros [Hrows Hh]. split; [by apply Hr|].
    cbn [otp_hashes tables with_log with_applications applications].
    intros k h. destruct (apps !! app_id) eqn:E.
    + destruct (decide (app_id = k)) as [<-|].
      * rewrite lookup_insert_eq. intros [= <-]. split; [discriminate|].
        rewrite E. by eexists.
      * rewrite lookup_insert_ne by done. intros Eh.
        destruct (Hh k h Eh) as [Hne Hin]. split; [exact Hne | by apply Ha].
    + intros Eh. destruct (Hh k h Eh) as [Hne Hin]. split; [exact Hne | by apply Ha].
Qed.

Lemma otp_verify_keeps (data : otp_form) (b : backend) :
  keeps (tables b) (tables (snd (otp_verify data b)))
  ∧ (consistent b -> consistent (snd (otp_verify data b))).
Proof.
  unfold otp_verify.
  destruct (otp_hash data) as [[|c r]|]; [unchanged| |unchanged].
  destruct (str_or_else _ _) as [[|c' r']|]; [unchanged| |unchanged].
  set (app_id := String c' r'). set (hash := String c r).
  destruct (applications (tables b) !! app_id) eqn:E.
  2: { destruct (PyStr.startswith _ _); unchanged. }
  destruct (otp_hashes b !! app_id) as [[|c0 s0]|]; [unchanged| |unchanged].
  destruct (negb _); cbn [snd tables with_tables].
  - assert (K : keeps (tables b)
                  (with_log app_id "OTP_FAILED" "Incorrect OTP entered" (tables b))).
    { apply keeps_same_rows; [reflexivity|appended..]. }
    split; [exact K|]. apply (consistent_tables b _ K). exact id.
  - assert (K : keeps (tables b)
                  (with_log app_id "OTP_VERIFIED" "OTP verified successfully"
                     (update_application app_id set_otp_verified (tables b)))).
    { eapply keeps_alter; [reflexivity|appended..]. }
    split; [exact K|]. apply (consistent_tables b _ K). intros H.
    unfold rows_ok. cbn. apply rows_ok_alter; [exact H|].
    intros x. apply row_ok_set_otp_verified.
Qed.

Lemma session_only_keeps (c : session) (b : backend) :
  keeps (tables b) (with_session c (tables b))
  ∧ (consistent b -> consistent (with_tables (with_session c (tables b)) b)).
Proof.
  assert (K : keeps (tables b) (with_session c (tables b))).
  { apply keeps_same_rows; [reflexivity|appended..]. }
  split; [exact K|]. apply (consistent_tables b _ K). exact id.
Qed.

Lemma chat_message_keeps (key : string)
    (ask_claude : list chat_row -> option string) (data : chat_form) (b : backend) :
  keeps (tables b) (tables (snd (chat_message key ask_claude data b)))
  ∧ (consistent b -> consistent (snd (chat_message key ask_claude data b))).
Proof.
  unfold chat_message.
  destruct (str_or_else _ _) as [[|c r]|]; [unchanged| |unchanged].
  destruct (Py.strip _) as [|c' r']; [unchanged|]. cbn [snd tables]. split.
  - apply keeps_same_rows; [reflexivity|appended..].
  - intros [Hr Hh]. by split.
Qed.

Lemma on_tables_keeps {A : Type} (route : state -> A * state) (b : backend) :
  (∀ s, keeps s (snd (route s)) ∧ (rows_ok s -> rows_ok (snd (route s)))) ->
  keeps (tables b) (tables (snd (on_tables route b)))
  ∧ (consistent b -> consistent (snd (on_tables route b))).
Proof.
  intros H. rewrite on_tables_snd. destruct (H (tables b)) as [K R].
  split; [exact K | by apply consistent_tables].
Qed.

Section StepFacts.

Variable json_loads : string -> option pyval.
Variable json_dumps : list string -> string.
Variable hash_pw : string -> string.

Lemma step_keeps (b b' : backend) :
  step json_loads json_dumps hash_pw b b' ->
  keeps (tables b) (tables b') ∧ (consistent b -> consistent b').
Proof.
  intros [].
  - apply session_start_keeps.
  - apply on_tables_keeps. intros s. apply submit_identity_keeps.
  - apply on_tables_keeps. intros s. apply upload_document_keeps.
  - apply on_tables_keeps. intros s. apply upload_selfie_keeps.
  - apply otp_store_keeps.
  - apply otp_verify_keeps.
  - apply on_tables_keeps. intros s. apply risk_evaluate_keeps.
  - unfold admin_login. destruct (find_admin _ _ _); [|unchanged].
    apply session_only_keeps.
  - apply session_only_keeps.
  - apply on_tables_keeps. intros s. apply admin_decision_keeps.
  - apply chat_message_keeps.
Qed.

Lemma steps_keep (b b' : backend) :
  rtc (step json_loads json_dumps hash_pw) b b' ->
  keeps (tables b) (tables b') ∧ (consistent b -> consistent b').
Proof.
  induction 1 as [b|b b1 b2 S _ [K2 H2]]; [unchanged|].
  destruct (step_keeps _ _ S) as [K1 H1].
  split; [by eapply keeps_trans | auto].
Qed.

End StepFacts.

Lemma seed_one_keeps (d : demo) (s s' : state) :
  demo_risk_level d = level_of (demo_risk_score d) ->
  0 <= demo_risk_score d <= 100 ->
  demo_status d ∈ recognised_status ->
  (∀ n, demo_account_number d = Some n -> is_account_format n = true) ->
  (demo_status d = "Approved" -> is_Some (demo_account_number d)) ->
  seed_one d s = Return s' ->
  keeps s s' ∧ (rows_ok s -> rows_ok s').
Proof.
  intros Hl Hs Hst Hacc Happ. unfold seed_one.
  destruct (reasons !! demo_risk_level d) as [reason|]; [|discriminate].
  pose proof (randint_range 80 99 (random s)) as R.
  destruct (randint 80 99 (random s)) as [face g]. cbn [fst] in R.
  destruct (applications s !! demo_id d) eqn:E; [discriminate|].
  intros [= <-]. split.
  - eapply keeps_insert; [reflexivity|appended..].
  - intros H. apply map_Forall_insert_2; [|exact H].
    constructor; cbn; auto.
    + by eexists.
    + right. exists (demo_risk_score d). by rewrite Hl.
    + intros f [= <-]. lia.
    + intros [= Ea]. by apply Happ.
Qed.

Lemma seed_all_keeps (ds : list demo) (s s' : state) :
  Forall (fun d => demo_risk_level d = level_of (demo_risk_score d)
                   ∧ 0 <= demo_risk_score d <= 100
                   ∧ demo_status d ∈ recognised_status
                   ∧ (∀ n, demo_account_number d = Some n ->
                           is_account_format n = true)
                   ∧ (demo_status d = "Approved" ->
                      is_Some (demo_account_number d))) ds ->
  seed_all ds s = Return s' ->
  keeps s s' ∧ (rows_ok s -> rows_ok s').
Proof.
  intros Hds. revert s. induction Hds as [|d ds (Hl & Hs & Hst & Hacc & Happ) _ IH];
    intros s; cbn [seed_all].
  - intros [= <-]. unchanged.
  - destruct (seed_one d s) as [s1|e] eqn:E; [|discriminate].
    cbn [mbind outcome_bind]. intros E'.
    destruct (seed_one_keeps d s s1 Hl Hs Hst Hacc Happ E) as [K1 H1].
    destruct (IH s1 E') as [K2 H2]. split; [by eapply keeps_trans | auto].
Qed.

Lemma demos_ok :
  Forall (fun d => demo_risk_level d = level_of (demo_risk_score d)
                   ∧ 0 <= demo_risk_score d <= 100
                   ∧ demo_status d ∈ recognised_status
                   ∧ (∀ n, demo_account_number d = Some n ->
                           is_account_format n = true)
                   ∧ (demo_status d = "Approved" ->
                      is_Some (demo_account_number d))) demos.
Proof.
  unfold demos, recognised_status.
  repeat apply List.Forall_cons; try apply List.Forall_nil; cbn.
  all: repeat split; try reflexivity; try lia; try (by in_list).
  all: try (intros n E; try discriminate; by injection E as <-).
  all: intros E; try discriminate; by eexists.
Qed.

Lemma seed_applications_keeps (s s' : state) :
  seed_applications s = Return s' ->
  keeps s s' ∧ (rows_ok s -> rows_ok s').
Proof.
  unfold seed_applications. destruct (0 <? _).
  - intros [= <-]. unchanged.
  - apply seed_all_keeps, demos_ok.
Qed.

Lemma init_db_keeps (hash_pw : string -> string) (b b' : backend) :
  init_db hash_pw b = Return b' ->
  keeps (tables b) (tables b') ∧ (consistent b -> consistent b').
Proof.
  unfold init_db. destruct (seed_applications (tables b)) as [s|e] eqn:E;
    [|discriminate].
  cbn [mbind outcome_bind mret outcome_ret]. intros [= <-].
  destruct (seed_applications_keeps _ _ E) as [K H]. split; [exact K|].
  intros C. by apply (consistent_tables b s K H) in C.
Qed.

Lemma empty_backend_consistent (g : rng) : consistent (empty_backend g).
Proof.
  split; [apply map_Forall_empty|]. intros app_id hash E. cbn in E.
  by rewrite lookup_empty in E.
Qed.

Lemma insert_or_ignore_present (u : admin_user) (users : list admin_user) :
  au_username u ∈ (au_username <$> users) -> insert_or_ignore u users = users.
Proof. intros H. unfold insert_or_ignore. by rewrite bool_decide_eq_true_2. Qed.

Lemma insert_or_ignore_names (u : admin_user) (users : list admin_user)
    (name : string) :
  name = au_username u ∨ name ∈ (au_username <$> users) ->
  name ∈ (au_username <$> insert_or_ignore u users).
Proof.
  unfold insert_or_ignore. intros [->|H].
  - destruct (bool_decide _) eqn:E; [by apply bool_decide_eq_true_1 in E|].
    rewrite fmap_app. apply elem_of_app. right. cbn. in_list.
  - destruct (bool_decide _); [exact H|].
    rewrite fmap_app. apply elem_of_app. by left.
Qed.

Lemma seed_applications_populates (s s' : state) :
  seed_applications s = Return s' ->
  (0 <? Z.of_nat (size (applications s'))) = true
  ∧ ((0 <? Z.of_nat (size (applications s))) = true -> s' = s).
Proof.
  unfold seed_applications. destruct (0 <? _) eqn:E.
  - intros [= <-]. by split.
  - intros H. split; [|discriminate].
    assert (Hin : is_Some (applications s' !! "NXB-DEMO-001")).
    { unfold demos in H. cbn [seed_all] in H.
      destruct (seed_one _ s) as [s1|e] eqn:E1; [|discriminate].
      cbn [mbind outcome_bind] in H.
      pose proof demos_ok as D. unfold demos in D. apply Forall_inv_tail in D.
      destruct (seed_all_keeps _ _ _ D H) as [(Ka & _) _]. apply Ka.
      unfold seed_one in E1. cbn [demo_risk_level] in E1.
      change (reasons !! "Low") with
        (Some "All checks passed. Document integrity verified. Biometric match strong. No AML flags.") in E1.
      destruct (randint 80 99 (random s)) as [face g].
      destruct (applications s !! _); [discriminate|]. injection E1 as <-.
      cbn. rewrite lookup_insert_eq. by eexists. }
    apply map_size_ne_0_lookup_2 in Hin. apply Z.ltb_lt. lia.
Qed.

Lemma document_rules_factors (json_loads : string -> option pyval)
    (doc_rows : list Doc.row) (st st' : scoring) :
  document_rules json_loads doc_rows st = Return st' ->
  ∃ new : list signal,
    snd st' = snd st ++ new
    ∧ Forall (fun s => factor s ∈ [ocr_factor; tamper_factor]) new.
Proof.
  unfold document_rules. destruct doc_rows as [|d rest].
  { intros [= <-]. exists []. by rewrite app_nil_r. }
  destruct (extends_signals _ _ _ (rule_ocr_confidence_extends (d :: rest) st))
    as (n1 & E1 & F1).
  unfold rule_tamper.
  destruct (collect_flags json_loads (d :: rest) []) as [[|f fl]|e];
    cbn [mbind outcome_bind]; [| |discriminate].
  - intros [= <-]. eexists (n1 ++ [_]). unfold append. cbn [snd]. rewrite E1.
    split; [by rewrite app_assoc|]. apply Forall_app. split.
    + eapply Forall_impl; [exact F1|]. intros s Hs. cbv beta in *. revert Hs. rewrite !elem_of_cons. tauto.
    + apply Forall_singleton. cbn. unfold tamper_factor, ocr_factor. in_list.
  - destruct (join_values _ _) as [text|e]; cbn [mbind outcome_bind];
      [|discriminate].
    intros [= <-]. eexists (n1 ++ [_]). unfold append, deduct. cbn [snd]. rewrite E1.
    split; [by rewrite app_assoc|]. apply Forall_app. split.
    + eapply Forall_impl; [exact F1|]. intros s Hs. cbv beta in *. revert Hs. rewrite !elem_of_cons. tauto.
    + apply Forall_singleton. cbn. unfold tamper_factor, ocr_factor. in_list.
Qed.

Lemma rule_face_in_range (a : App.row) (st : scoring) :
  (∀ f : Z, App.face_score a = Some f -> 80 <= f <= 99) ->
  ∃ (w : Z) (text : string),
    rule_face a st = (fst st + w, snd st ++ [mk_signal face_factor w text])
    ∧ w ∈ [0; -10; -15].
Proof.
  intros H. unfold rule_face, append, deduct.
  destruct (App.face_score a) as [f|] eqn:E; cbn [Py.int_or].
  - specialize (H f eq_refl).
    replace (if f =? 0 then 0 else f) with f
      by (destruct (Z.eqb_spec f 0); [lia | reflexivity]).
    destruct (90 <=? f) eqn:E9.
    + eexists 0, _. split; [cbn; f_equal; lia | in_list].
    + assert ((75 <=? f) = true) as -> by lia.
      eexists (-10), _. split; [cbn; f_equal; lia | in_list].
  - eexists (-15), _. split; [cbn; f_equal; lia | in_list].
Qed.

(** * The database under any sequence of requests *)

Lemma visited_served :
  served FlagJson.loads FlagJson.dumps Installation.hash_pw Samples.generator
    Installation.visited.
Proof.
  exists Installation.seeded. split; [vm_compute; reflexivity|].
  unfold Installation.visited.
  eapply rtc_l; [apply (step_session_start _ _ _ Samples.uuid4_hex)|].
  eapply rtc_l; [|apply rtc_refl].
  apply (step_upload_selfie _ _ _ Samples.uuid4_hex None (Some (Some "me.png"))).
Qed.

(** X16: whatever requests a fresh installation has served, every stored
    application is well formed: it is stored under its own id, its status is
    one of the five the application knows, an account number has the 4-4-4
    format, the risk columns are empty or hold a score in [0,100] with the
    tier of that score, a biometric score lies in 80..99, the OTP flag is 0
    or 1, an approved application has an account number; and an OTP hash is
    only ever stored, non-empty, for an existing application. *)
Theorem served_backend_consistent (json_loads : string -> option pyval)
    (json_dumps : list string -> string) (hash_pw : string -> string)
    (g : rng) (b : backend) :
  served json_loads json_dumps hash_pw g b -> consistent b.
Proof.
  intros (b0 & I & S).
  destruct (init_db_keeps _ _ _ I) as [_ H0].
  destruct (steps_keep _ _ _ _ _ S) as [_ H].
  apply H, H0, empty_backend_consistent.
Qed.

Lemma served_backend_consistent_witness :
  served FlagJson.loads FlagJson.dumps Installation.hash_pw Samples.generator
    Installation.visited
  ∧ consistent Installation.visited.
Proof.
  split; [exact visited_served|].
  exact (served_backend_consistent _ _ _ _ _ visited_served).
Defined.

(** X17: no request deletes anything.  Over any sequence of requests every
    application that was stored is still stored, and the documents, the
    reviewers' decisions and the audit log have only been appended to. *)
Theorem requests_only_add (json_loads : string -> option pyval)
    (json_dumps : list string -> string) (hash_pw : string -> string)
    (b b' : backend) :
  rtc (step json_loads json_dumps hash_pw) b b' ->
  keeps (tables b) (tables b').
Proof. intros S. by destruct (steps_keep _ _ _ _ _ S) as [K _]. Qed.

Lemma requests_only_add_witness :
  rtc (step FlagJson.loads FlagJson.dumps Installation.hash_pw)
    Installation.seeded Installation.visited
  ∧ keeps (tables Installation.seeded) (tables Installation.visited).
Proof.
  assert (S : rtc (step FlagJson.loads FlagJson.dumps Installation.hash_pw)
                Installation.seeded Installation.visited).
  { unfold Installation.visited.
    eapply rtc_l; [apply (step_session_start _ _ _ Samples.uuid4_hex)|].
    eapply rtc_l; [|apply rtc_refl].
    apply (step_upload_selfie _ _ _ Samples.uuid4_hex None (Some (Some "me.png"))). }
  split; [exact S|]. exact (requests_only_add _ _ _ _ _ S).
Defined.

(** X18: starting the server again changes nothing.  Once [init_db] has
    run, running it again on the result returns the same database: the two
    reviewers are not duplicated and the demo applications are not inserted a
    second time, whatever has been stored in between being left alone. *)
Theorem restart_changes_nothing (hash_pw : string -> string) (b b1 : backend) :
  init_db hash_pw b = Return b1 -> init_db hash_pw b1 = Return b1.
Proof.
  unfold init_db.
  destruct (seed_applications (tables b)) as [s|e] eqn:E; [|discriminate].
  cbn [mbind outcome_bind mret outcome_ret]. intros [= <-].
  cbn [tables admin_users otp_hashes chat_messages].
  destruct (seed_applications_populates _ _ E) as [Hpos _].
  unfold seed_applications at 1. rewrite Hpos.
  cbn [mbind outcome_bind mret outcome_ret]. do 2 f_equal.
  set (admin := mk_admin_user "admin" _ _ _).
  set (reviewer := mk_admin_user "reviewer" _ _ _).
  set (users := insert_or_ignore reviewer (insert_or_ignore admin (admin_users b))).
  rewrite (insert_or_ignore_present admin users).
  - apply insert_or_ignore_present. apply insert_or_ignore_names. by left.
  - unfold users. apply insert_or_ignore_names. right.
    apply insert_or_ignore_names. by left.
Qed.

Lemma restart_changes_nothing_witness :
  init_db Installation.hash_pw (empty_backend Samples.generator)
    = Return Installation.seeded
  ∧ init_db Installation.hash_pw Installation.seeded = Return Installation.seeded.
Proof.
  split; [vm_compute; reflexivity|].
  apply (restart_changes_nothing Installation.hash_pw
           (empty_backend Samples.generator)).
  vm_compute. reflexivity.
Defined.

(** X19: the biometric rule's "poor match" branch is never taken for a stored
    application.  Selfie scores are drawn from 82..98 and the demo rows from
    80..99, so for any application of a served database the biometric signal
    of an evaluation weighs 0 (strong), -10 (acceptable) or -15 (no selfie
    yet), never -30. *)
Theorem poor_match_unreachable (json_loads : string -> option pyval)
    (json_dumps : list string -> string) (hash_pw : string -> string)
    (g : rng) (b : backend) (now : Datetime.datetime) (app_id : string)
    (row : App.row) (doc_rows : list Doc.row) (r : risk_result) :
  served json_loads json_dumps hash_pw g b ->
  applications (tables b) !! app_id = Some row ->
  compute_risk json_loads now row doc_rows = Return r ->
  (∃ sg : signal, sg ∈ signals r ∧ factor sg = face_factor)
  ∧ ∀ sg : signal, sg ∈ signals r -> factor sg = face_factor ->
      weight sg ∈ [0; -10; -15].
Proof.
  intros (b0 & I & S) Hrow C.
  assert (Hc : consistent b).
  { destruct (init_db_keeps _ _ _ I) as [_ H0].
    destruct (steps_keep _ _ _ _ _ S) as [_ H].
    apply H, H0, empty_backend_consistent. }
  destruct Hc as [Hrows _].
  pose proof (map_Forall_lookup_1 _ _ _ _ Hrows Hrow) as [_ _ _ _ Rface _ _].
  rewrite compute_risk_unfold in C.
  destruct (document_rules json_loads doc_rows (100, [])) as [st|e] eqn:D;
    [|discriminate].
  cbn [mbind outcome_bind mret outcome_ret] in C. injection C as <-.
  unfold result_of. cbn [signals].
  destruct (document_rules_factors _ _ _ _ D) as (nd & Ed & Fd).
  cbn [snd] in Ed. rewrite app_nil_l in Ed.
  destruct (extends_signals _ _ _ (rule_age_extends now row st)) as (na & Ea & Fa).
  destruct (rule_face_in_range row (rule_age now row st) Rface)
    as (w & text & Ef & Hw).
  destruct (extends_signals _ _ _
              (rule_otp_extends row (rule_face row (rule_age now row st))))
    as (no & Eo & Fo).
  destruct (extends_signals _ _ _
              (rule_email_extends row
                 (rule_otp row (rule_face row (rule_age now row st)))))
    as (ne & Ee & Fe).
  rewrite Ee, Eo, Ef. cbn [snd]. rewrite Ea, Ed. split.
  - exists (mk_signal face_factor w text). split; [|reflexivity].
    rewrite !elem_of_app. left. left. right. in_list.
  - intros sg Hin Hf. rewrite !elem_of_app in Hin.
    destruct Hin as [[[[Hin|Hin]|Hin]|Hin]|Hin].
    + apply (proj1 (Forall_forall _ _) Fd) in Hin. cbv beta in Hin.
      rewrite Hf in Hin. revert Hin. rewrite !elem_of_cons, elem_of_nil.
      unfold face_factor, ocr_factor, tamper_factor. intros [?|[?|[]]]; discriminate.
    + apply (proj1 (Forall_forall _ _) Fa) in Hin. cbv beta in Hin.
      rewrite Hf in Hin. revert Hin. rewrite !elem_of_cons, elem_of_nil.
      unfold face_factor, age_factor. intros [?|[]]; discriminate.
    + revert Hin. rewrite elem_of_cons, elem_of_nil. intros [->|[]]. exact Hw.
    + apply (proj1 (Forall_forall _ _) Fo) in Hin. cbv beta in Hin.
      rewrite Hf in Hin. revert Hin. rewrite !elem_of_cons, elem_of_nil.
      unfold face_factor, otp_factor. intros [?|[]]; discriminate.
    + apply (proj1 (Forall_forall _ _) Fe) in Hin. cbv beta in Hin.
      rewrite Hf in Hin. revert Hin. rewrite !elem_of_cons, elem_of_nil.
      unfold face_factor, email_factor. intros [?|[]]; discriminate.
Qed.

Lemma poor_match_unreachable_witness :
  ∃ (row : App.row) (r : risk_result),
    applications (tables Installation.visited) !! "NXB-9F1C2E7A" = Some row
    ∧ compute_risk FlagJson.loads Samples.now row [] = Return r
    ∧ (∃ sg : signal, sg ∈ signals r ∧ factor sg = face_factor)
    ∧ ∀ sg : signal, sg ∈ signals r -> factor sg = face_factor ->
        weight sg ∈ [0; -10; -15].
Proof.
  destruct (applications (tables Installation.visited) !! "NXB-9F1C2E7A")
    as [row|] eqn:E; [|vm_compute in E; discriminate].
  destruct (compute_risk FlagJson.loads Samples.now row []) as [r|e] eqn:C;
    [|rewrite compute_risk_unfold in C; discriminate].
  exists row, r. split; [reflexivity|]. split; [exact C|].
  exact (poor_match_unreachable _ _ _ _ _ _ _ _ _ _ visited_served E C).
Defined.

(** * Chat *)

Lemma responses_not_empty (step : option string) : rule_based_response step ≠ "".
Proof.
  unfold rule_based_response, dict_get.
  destruct step as [step|]; cbn [mbind option_bind default]; [|discriminate].
  destruct (responses !! step) as [text|] eqn:E; cbn [default]; [|discriminate].
  assert (H : map_Forall (fun _ text => text ≠ "") responses).
  { unfold responses. repeat apply map_Forall_insert_2;
      try (apply map_Forall_singleton); discriminate. }
  exact (map_Forall_lookup_1 _ _ _ _ H E).
Qed.

(** X20: a chat message that is accepted is always answered and recorded.
    The reply is never empty (an absent or empty answer of the language model
    is replaced by the scripted one), the conversation of the application
    grows by exactly the visitor's stripped message followed by the reply that
    was returned, other conversations are unchanged, and no application is
    touched. *)
Theorem chat_reply_recorded (key : string)
    (ask_claude : list chat_row -> option string) (data : chat_form)
    (b b' : backend) (body : chat_body) :
  chat_message key ask_claude data b = (Ok body, b') ->
  cb_reply body ≠ ""
  ∧ chat_history (cb_application_id body) b'
    = chat_history (cb_application_id body) b
      ++ [mk_chat_row (cb_application_id body) "user"
            (Py.strip (Py.str_or (cf_message data) ""));
          mk_chat_row (cb_application_id body) "assistant" (cb_reply body)]
  ∧ (∀ other : string, other ≠ cb_application_id body ->
       chat_history other b' = chat_history other b)
  ∧ applications (tables b') = applications (tables b).
Proof.
  unfold chat_message.
  destruct (str_or_else _ _) as [[|c r]|]; [discriminate| |discriminate].
  destruct (Py.strip _) as [|c' r'] eqn:Em; [discriminate|].
  set (app_id := String c r). set (msg := String c' r').
  set (reply := if Py.truthy_str _ then _ else _).
  intros [= <- <-]. cbn [cb_reply cb_application_id]. split; [|split; [|split]].
  - unfold reply. destruct (Py.truthy_str _) eqn:Et.
    + destruct (if Py.truthy_str (Some key) then _ else _) as [[|c0 r0]|];
        cbn in Et |- *; discriminate.
    + apply responses_not_empty.
  - unfold chat_history. cbn [chat_messages].
    rewrite !filter_app, <- app_assoc. f_equal.
    rewrite !filter_cons_True by reflexivity. by rewrite filter_nil.
  - intros other Ho. unfold chat_history. cbn [chat_messages].
    rewrite !filter_app.
    rewrite !filter_cons_False by (cbn; congruence).
    by rewrite filter_nil, !app_nil_r.
  - reflexivity.
Qed.

Lemma chat_reply_recorded_witness :
  let data := mk_chat_form None (Some "  Asha Rao ") (Some (Some "name")) in
  let b := snd (session_start Samples.uuid4_hex Installation.seeded) in
  ∃ (body : chat_body) (b' : backend),
    chat_message "" (fun _ => None) data b = (Ok body, b')
    ∧ cb_reply body ≠ ""
    ∧ chat_history "NXB-9F1C2E7A" b'
      = chat_history "NXB-9F1C2E7A" b
        ++ [mk_chat_row "NXB-9F1C2E7A" "user" "Asha Rao";
            mk_chat_row "NXB-9F1C2E7A" "assistant" (cb_reply body)].
Proof.
  intros data b.
  destruct (chat_message "" (fun _ => None) data b) as [resp b'] eqn:E.
  assert (Hr : ∃ body, resp = Ok body ∧ cb_application_id body = "NXB-9F1C2E7A").
  { apply (f_equal fst) in E. cbn [fst] in E. rewrite <- E.
    vm_compute. eexists. split; reflexivity. }
  destruct Hr as (body & -> & Hid).
  destruct (chat_reply_recorded "" (fun _ => None) data b b' body E)
    as (Hne & Hh & _).
  exists body, b'. split; [reflexivity|]. split; [exact Hne|].
  rewrite Hid in Hh. exact Hh.
Defined.
